(** * CCBHC quality measures: a shallow embedding of the measure pipelines

    The Python sources compute each measure over pandas data frames that are
    read from a clinical database.  Here a data frame is a list of records
    (one record per row, one field per column that the code reads), a query is
    the table it returns, and every method of a sub-measure class is a function
    on those tables.  Exceptions raised by pandas are [None] in the option
    monad. *)

From Stdlib Require Import ZArith List Bool String Ascii Lia Sorted.
From ExtLib Require Import Structures.Monad Structures.MonadState.
From ExtLib Require Import Data.Monads.OptionMonad Data.Monads.StateMonad.
Import ListNotations.
Import MonadNotation.
Local Open Scope monad_scope.
Local Open Scope Z_scope.

Set Implicit Arguments.

(** ** Calendar: [datetime], [pd.Timestamp], [relativedelta] and [BDay] *)

Module Calendar.

(** A [pd.Timestamp] is the number of seconds since 1970-01-01T00:00:00 and a
    [datetime.date] the number of days since 1970-01-01. *)
Definition Timestamp := Z.
Definition Day := Z.

Definition seconds_per_day : Z := 86400.

(** [Timestamp.date()] / [Series.dt.date] *)
Definition to_date (t : Timestamp) : Day := t / seconds_per_day.

(** time of day, kept by every offset below *)
Definition time_of_day (t : Timestamp) : Z := t mod seconds_per_day.

Definition at_time (d : Day) (s : Z) : Timestamp := d * seconds_per_day + s.

(** Proleptic Gregorian calendar, days <-> (year, month, day). *)
Definition civil_from_days (z0 : Day) : Z * Z * Z :=
  let z := z0 + 719468 in
  let era := z / 146097 in
  let doe := z - era * 146097 in
  let yoe := (doe - doe / 1460 + doe / 36524 - doe / 146096) / 365 in
  let y := yoe + era * 400 in
  let doy := doe - (365 * yoe + yoe / 4 - yoe / 100) in
  let mp := (5 * doy + 2) / 153 in
  let d := doy - (153 * mp + 2) / 5 + 1 in
  let m := if mp <? 10 then mp + 3 else mp - 9 in
  ((if m <=? 2 then y + 1 else y), m, d).

Definition days_from_civil (y0 m d : Z) : Day :=
  let y := if m <=? 2 then y0 - 1 else y0 in
  let era := y / 400 in
  let yoe := y - era * 400 in
  let doy := (153 * (if 2 <? m then m - 3 else m + 9) + 2) / 5 + d - 1 in
  let doe := yoe * 365 + yoe / 4 - yoe / 100 + doy in
  era * 146097 + doe - 719468.

Definition year_of_day (d : Day) : Z := fst (fst (civil_from_days d)).
Definition month_of_day (d : Day) : Z := snd (fst (civil_from_days d)).
Definition dom_of_day (d : Day) : Z := snd (civil_from_days d).

(** [.year], [.dt.year], [.dt.month] *)
Definition year (t : Timestamp) : Z := year_of_day (to_date t).
Definition month (t : Timestamp) : Z := month_of_day (to_date t).

(** [datetime(y, m, d, hh, mm)] *)
Definition datetime (y m d hh mm : Z) : Timestamp :=
  at_time (days_from_civil y m d) (hh * 3600 + mm * 60).

(** [.weekday()]: Monday is 0, Sunday is 6; 1970-01-01 was a Thursday. *)
Definition weekday (d : Day) : Z := (d + 3) mod 7.

Definition is_leap (y : Z) : bool :=
  ((y mod 4 =? 0) && negb (y mod 100 =? 0)) || (y mod 400 =? 0).

Definition days_in_month (y m : Z) : Z :=
  if m =? 2 then (if is_leap y then 29 else 28)
  else if (m =? 4) || (m =? 6) || (m =? 9) || (m =? 11) then 30
  else 31.

(** [d + relativedelta(months=n)] on a date: the month moves by [n], the
    year follows, and the day of the month is cut to the length of the
    month reached. *)
Definition add_months_day (n : Z) (d0 : Day) : Day :=
  let '(y, m, d) := civil_from_days d0 in
  let k := (m - 1) + n in
  let y' := y + k / 12 in
  let m' := k mod 12 + 1 in
  days_from_civil y' m' (Z.min d (days_in_month y' m')).

(** [t + relativedelta(months=n)] and [t + pd.DateOffset(months=n)] *)
Definition add_months (n : Z) (t : Timestamp) : Timestamp :=
  at_time (add_months_day n (to_date t)) (time_of_day t).

(** [t + relativedelta(days=n)] and [t + pd.DateOffset(days=n)] *)
Definition add_days (n : Z) (t : Timestamp) : Timestamp :=
  t + n * seconds_per_day.

(** [(a - b).days] of the [Timedelta] between two timestamps *)
Definition timedelta_days (a b : Timestamp) : Z := (a - b) / seconds_per_day.

(** [x // 365.25] on a whole number of days.  365.25 is [1461 / 4] exactly
    in binary floating point, and float floor division of an integer below
    2^53 by it is exact, so the result is the floor of [4 x / 1461]. *)
Definition floordiv_365_25 (days : Z) : Z := (4 * days) / 1461.

(** [pd.tseries.offsets.BusinessDay._adjust_ndays] *)
Definition adjust_ndays (n0 wday weeks : Z) : Z :=
  let n := if (n0 <=? 0) && (4 <? wday) then n0 + 1 else n0 in
  let n := n - 5 * weeks in
  if (n =? 0) && (4 <? wday) then 4 - wday
  else if 4 <? wday then (7 - wday) + (n - 1)
  else if wday + n <=? 4 then n
  else n + 2.

(** [t + pd.tseries.offsets.BDay(n)]: whole weeks first, then the
    remaining business days; the time of day is kept. *)
Definition add_bdays (n : Z) (t : Timestamp) : Timestamp :=
  let wday := weekday (to_date t) in
  let weeks := n / 5 in
  let days := adjust_ndays n wday weeks in
  add_days (7 * weeks + days) t.

Definition is_business_day (d : Day) : bool := weekday d <? 5.

Definition day_range (a b : Day) : list Day :=
  map (fun i => a + Z.of_nat i) (seq 0 (Z.to_nat (b - a + 1))).

(** [pd.bdate_range(start, end)]: both ends are normalised to midnight and
    every Monday-to-Friday day from [start] to [end], ends included, is
    listed. *)
Definition bdate_range (s e : Timestamp) : list Day :=
  filter is_business_day (day_range (to_date s) (to_date e)).

End Calendar.

Import Calendar.

(** ** Frame: the pandas operations the measures use, on lists of rows *)

Module Frame.

(** Comparisons with a missing value ([NaN], [NaT], [None]) are false. *)
Definition le_nan (a b : option Z) : bool :=
  match a, b with
  | Some x, Some y => x <=? y
  | _, _ => false
  end.

Definition lt_nan (a b : option Z) : bool :=
  match a, b with
  | Some x, Some y => x <? y
  | _, _ => false
  end.

(** [Series.fillna(v)] on one cell *)
Definition fillna {A : Type} (v : A) (c : option A) : A :=
  match c with
  | Some x => x
  | None => v
  end.

Definition Z_pair_eqb (a b : Z * Z) : bool :=
  (fst a =? fst b) && (snd a =? snd b).

(** [Series.str.contains(pat)] for a pattern without regular-expression
    operators: [pat] occurs somewhere in [s]. *)
Fixpoint str_contains (pat s : string) : bool :=
  String.prefix pat s ||
  match s with
  | EmptyString => false
  | String _ tl => str_contains pat tl
  end.

Section Rows.
Variables A B K : Type.
Variable eqb : K -> K -> bool.

(** [Series.isin(values)] on one cell *)
Definition isin (k : K) (ks : list K) : bool := existsb (eqb k) ks.

(** [drop_duplicates(subset, keep='first')]: a row stays when no earlier
    row has its key. *)
Fixpoint drop_duplicates_from (key : A -> K) (seen : list K) (l : list A) : list A :=
  match l with
  | [] => []
  | x :: tl =>
      if isin (key x) seen then drop_duplicates_from key seen tl
      else x :: drop_duplicates_from key (key x :: seen) tl
  end.

Definition drop_duplicates (key : A -> K) (l : list A) : list A :=
  drop_duplicates_from key [] l.

(** [drop_duplicates(subset, keep='last')] *)
Definition drop_duplicates_last (key : A -> K) (l : list A) : list A :=
  rev (drop_duplicates key (rev l)).

(** [df.merge(other)] (an inner join) on the key columns: the rows follow
    the order of the left frame, each with its matches in the order of the
    right frame. *)
Definition merge (keyA : A -> K) (keyB : B -> K) (l : list A) (r : list B)
  : list (A * B) :=
  flat_map (fun a => map (fun b => (a, b))
                         (filter (fun b => eqb (keyA a) (keyB b)) r)) l.

(** [df.merge(other, how='left')]: a left row without a match stays, with
    the columns of the right frame missing. *)
Definition merge_left (keyA : A -> K) (keyB : B -> K) (l : list A) (r : list B)
  : list (A * option B) :=
  flat_map (fun a =>
              match filter (fun b => eqb (keyA a) (keyB b)) r with
              | [] => [(a, None)]
              | ms => map (fun b => (a, Some b)) ms
              end) l.

(** [df.groupby(key)]: one group per key, each with the rows of that key in
    the order of the frame.  pandas walks the groups in sorted key order;
    here they come in the order in which the keys first appear, which only
    changes the order of the rows that are put together from the groups. *)
Fixpoint unique_from (seen : list K) (l : list K) : list K :=
  match l with
  | [] => []
  | k :: tl =>
      if isin k seen then unique_from seen tl
      else k :: unique_from (k :: seen) tl
  end.

Definition group_keys (key : A -> K) (l : list A) : list K :=
  unique_from [] (map key l).

Definition groupby (key : A -> K) (l : list A) : list (K * list A) :=
  map (fun k => (k, filter (fun x => eqb (key x) k) l)) (group_keys key l).

End Rows.

Section Sorting.
Variable A : Type.
Variable leb : A -> A -> bool.

(** [sort_values(by)]: rows in ascending order of the sort key; rows with
    equal keys keep their order. *)
Fixpoint insert_sorted (x : A) (l : list A) : list A :=
  match l with
  | [] => [x]
  | y :: tl => if leb x y then x :: l else y :: insert_sorted x tl
  end.

Fixpoint sort_values (l : list A) : list A :=
  match l with
  | [] => []
  | x :: tl => insert_sorted x (sort_values tl)
  end.

End Sorting.

(** lexicographic order on two integer sort keys *)
Definition lex_leb (a b : Z * Z) : bool :=
  (fst a <? fst b) || ((fst a =? fst b) && (snd a <=? snd b)).

End Frame.

Import Frame.

(** ** DEP_REM.py: depression remission at six months *)

Module DEP_REM.

(** [patient_measurement_year_id]: the source builds the string
    [str(PatientId) + '-' + str(year)]; it is kept here as the pair of the
    two numbers it is made of. *)
Definition PMY : Type := (Z * Z)%type.

(** a row of the PHQ-9 query of [__initilize_populace]; [Score] is missing
    when the stored total does not convert *)
Record Visit := mkVisit {
  PatientId : Z;
  DOB : Timestamp;
  EncounterID : Z;
  Date : Timestamp;
  Score : option Z }.

(** a row of [self.__index_visits__] *)
Record IndexVisit := mkIndexVisit {
  iv_PatientId : Z;
  iv_patient_measurement_year_id : PMY;
  iv_EncounterID : Z;
  iv_measurement_year : Z;
  iv_Date : Timestamp }.

(** a row of [self.__populace__] once [__set_index_groups] has added its two
    columns *)
Record Encounter := mkEncounter {
  visit : Visit;
  patient_measurement_year_id : PMY;
  index_encounter_id : Z }.

(** a populace row with the [numerator] column *)
Record Scored := mkScored {
  encounter : Encounter;
  numerator : bool }.

(** rows of the diagnosis query of [__get_all_exclusions] *)
Record Exclusion := mkExclusion {
  ex_PatientId : Z;
  exclusion_date : option Day }.

Record PatientData := mkPatientData {
  pd_PatientId : Z;
  Ethnicity : option string;
  Race : option string }.

(** rows of [tblPatientPayers] *)
Record Payer := mkPayer {
  py_PatientId : Z;
  Start : option Timestamp;
  End : option Timestamp;
  Plan : option string }.

(** what the queries of the sub-measure read, and the clock *)
Record Database := mkDatabase {
  phq_scores : list Visit;
  exclusion_diagnoses : list Exclusion;
  patient_details : list PatientData;
  patient_payers : list Payer;
  now : Timestamp }.

Definition __initilize_populace (db : Database) : list Visit :=
  sort_values (fun a b => lex_leb (PatientId a, Date a) (PatientId b, Date b))
              (phq_scores db).

Definition __get_index_visits (populace : list Visit) : list IndexVisit :=
  let index_visits := filter (fun v => lt_nan (Some 9) (Score v)) populace in
  let index_visits :=
    map (fun v => mkIndexVisit (PatientId v) (PatientId v, year (Date v))
                               (EncounterID v) (year (Date v)) (Date v))
        index_visits in
  let index_visits := sort_values (fun a b => iv_Date a <=? iv_Date b) index_visits in
  drop_duplicates Z_pair_eqb iv_patient_measurement_year_id index_visits.

(** [df.iloc[-1]] *)
Fixpoint iloc_last {A : Type} (l : list A) : option A :=
  match l with
  | [] => None
  | x :: tl => match tl with [] => Some x | _ => iloc_last tl end
  end.

(** [None] is the string ['No Group']. *)
Definition __create_patient_measurement_year_id
    (v : Visit) (index_visits : list IndexVisit) : option (PMY * Z) :=
  let pid := PatientId v in
  let ind_group := filter (fun iv => iv_PatientId iv =? pid) index_visits in
  match ind_group with
  | [] => None
  | _ =>
      let visit_date := to_date (Date v) in
      let index_mask := fun iv => to_date (iv_Date iv) <=? visit_date in
      match iloc_last (filter index_mask ind_group) with
      | Some index_visit =>
          Some ((pid, year (iv_Date index_visit)), iv_EncounterID index_visit)
      | None => None
      end
  end.

Definition no_group {A : Type} (r : option A) : bool :=
  match r with
  | None => true
  | Some _ => false
  end.

(** The row-wise [apply] yields a frame with the two new columns only when
    some row returns the pair; when every row returns ['No Group'] (or the
    populace is empty) the frame has another number of columns and the
    assignment to the two columns raises. *)
Definition __set_index_groups (populace : list Visit) (index_visits : list IndexVisit)
  : option (list Encounter) :=
  let assigned :=
    map (fun v => (v, __create_patient_measurement_year_id v index_visits)) populace in
  if forallb (fun r => no_group (snd r)) assigned then None
  else Some (flat_map (fun r => match snd r with
                                | Some (uid, ieid) => [mkEncounter (fst r) uid ieid]
                                | None => []
                                end) assigned).

Definition exclusion_eqb (a b : Exclusion) : bool :=
  (ex_PatientId a =? ex_PatientId b) &&
  match exclusion_date a, exclusion_date b with
  | Some x, Some y => x =? y
  | None, None => true
  | _, _ => false
  end.

Definition __get_all_exclusions (db : Database) : list Exclusion :=
  drop_duplicates exclusion_eqb (fun e => e) (exclusion_diagnoses db).

(** the index visit with its [end_exclusion_range] *)
Definition __determine_exclusion_date_range (index_visits : list IndexVisit)
  : list (IndexVisit * Day) :=
  map (fun iv => (iv, to_date (add_days 60 (add_months 6 (iv_Date iv))))) index_visits.

Definition __compare_exclusions_with_range
    (exclusions : list Exclusion) (ranges : list (IndexVisit * Day)) : list Z :=
  let merged := merge_left Z.eqb ex_PatientId (fun r => iv_PatientId (fst r))
                           exclusions ranges in
  let valid :=
    flat_map (fun m => match snd m with
                       | Some r =>
                           if le_nan (exclusion_date (fst m)) (Some (snd r))
                           then [iv_EncounterID (fst r)] else []
                       | None => []
                       end) merged in
  unique_from Z.eqb [] valid.

Definition __filter_out_exclusions (exclusions : list Z) (populace : list Encounter)
  : list Encounter :=
  filter (fun e => negb (isin Z.eqb (index_encounter_id e) exclusions)) populace.

Definition _remove_exclusions (db : Database) (index_visits : list IndexVisit)
    (populace : list Encounter) : list Encounter :=
  let exclusions := __get_all_exclusions db in
  let ranges := __determine_exclusion_date_range index_visits in
  let exclusions := __compare_exclusions_with_range exclusions ranges in
  __filter_out_exclusions exclusions populace.

Definition min_range (enc_date : Timestamp) : Timestamp :=
  add_days (- 60) (add_months 6 enc_date).

Definition max_range (enc_date : Timestamp) : Timestamp :=
  add_days 60 (add_months 6 enc_date).

Definition in_remission_range (enc_date : Timestamp) (e : Encounter) : bool :=
  (min_range enc_date <=? Date (visit e)) && (Date (visit e) <=? max_range enc_date).

(** one round of the loop over the groups: the first row of the group, then
    the rows of the group inside the range *)
Definition time_constraint_of_group (patient_data : list Encounter) : list Encounter :=
  match patient_data with
  | [] => []
  | index_visit :: _ =>
      index_visit :: filter (in_remission_range (Date (visit index_visit))) patient_data
  end.

Definition _apply_time_constraint (populace : list Encounter) : list Encounter :=
  flat_map (fun g => time_constraint_of_group (snd g))
           (groupby Z_pair_eqb patient_measurement_year_id populace).

Definition __check_numerator_condition (populace : list Encounter) : list PMY :=
  flat_map (fun g =>
              if existsb (fun e => lt_nan (Score (visit e)) (Some 5)) (snd g)
              then [fst g] else [])
           (groupby Z_pair_eqb patient_measurement_year_id populace).

Definition __set_numerator (numerator_ids : list PMY) (populace : list Encounter)
  : list Scored :=
  map (fun e => mkScored e (isin Z_pair_eqb (patient_measurement_year_id e) numerator_ids))
      populace.

(** With no group at all [_apply_time_constraint] leaves the empty frame
    [pd.DataFrame()], which has no column to group by: [groupby] raises. *)
Definition _find_performance_met (populace : list Encounter) : option (list Scored) :=
  match populace with
  | [] => None
  | _ =>
      let numerator_ids := __check_numerator_condition populace in
      Some (__set_numerator numerator_ids populace)
  end.

(** a row of [self.__stratify__] as [__initialize_stratify] makes it *)
Record Stratum := mkStratum {
  st_patient_measurement_year_id : PMY;
  st_PatientId : Z;
  st_DOB : Timestamp;
  st_index_encounter_id : Z;
  st_Date : Timestamp }.

Definition __initialize_stratify (populace : list Scored) : list Stratum :=
  let cols :=
    map (fun r => let e := encounter r in
                  mkStratum (patient_measurement_year_id e) (PatientId (visit e))
                            (DOB (visit e)) (index_encounter_id e) (Date (visit e)))
        populace in
  let sorted :=
    sort_values (fun a b => lex_leb (st_index_encounter_id a, st_Date a)
                                    (st_index_encounter_id b, st_Date b)) cols in
  drop_duplicates Z.eqb st_index_encounter_id sorted.

(** [(Date - DOB).days // 365.25] *)
Definition age_at_visit (s : Stratum) : Z :=
  floordiv_365_25 (timedelta_days (st_Date s) (st_DOB s)).

(** the stratify row with its ['Age'] label *)
Definition __calculate_age (stratify : list Stratum) : list (Stratum * string) :=
  let aged := map (fun s => (s, age_at_visit s)) stratify in
  let aged := filter (fun r => 12 <=? snd r) aged in
  map (fun r => (fst r, if 18 <=? snd r then "18+"%string else "12-18"%string)) aged.

Definition StratumP : Type := ((Stratum * string) * PatientData)%type.

Definition sp_stratum (r : StratumP) : Stratum := fst (fst r).

Definition __get_patient_data (db : Database) (stratify : list (Stratum * string))
  : list StratumP :=
  let ids := map (fun r => st_PatientId (fst r)) stratify in
  let patient_data := filter (fun p => isin Z.eqb (pd_PatientId p) ids) (patient_details db) in
  let patient_data := drop_duplicates_last Z.eqb pd_PatientId patient_data in
  merge Z.eqb (fun r => st_PatientId (fst r)) pd_PatientId stratify patient_data.

Definition __get_medicaid_from_db (db : Database) (stratify : list StratumP) : list Payer :=
  let ids := map (fun r => st_PatientId (sp_stratum r)) stratify in
  filter (fun p => isin Z.eqb (py_PatientId p) ids) (patient_payers db).

(** an insurance row with the ['Date'] column of the stratify row it met *)
Definition __merge_mediciad_with_stratify
    (medicaid_data : list Payer) (stratify : list StratumP) : list (Payer * Timestamp) :=
  map (fun m => (fst m, st_Date (sp_stratum (snd m))))
      (merge Z.eqb py_PatientId (fun r => st_PatientId (sp_stratum r))
             medicaid_data stratify).

(** the [valid] column: the plan is in force on [date]; a missing end is
    filled with [datetime.now()] first *)
Definition valid (now_ : Timestamp) (p : Payer) (date : Timestamp) : bool :=
  le_nan (Start p) (Some date) && le_nan (Some date) (Some (fillna now_ (End p))).

Definition __filter_insurance_dates (now_ : Timestamp)
    (medicaid_data : list (Payer * Timestamp)) : list (Payer * Timestamp) :=
  filter (fun m => valid now_ (fst m) (snd m)) medicaid_data.

Definition __find_plans_with_medicaid (plan : option string) : option bool :=
  option_map (str_contains "medicaid") plan.

(** [col.map({True:1,False:2})] *)
Definition __replace_medicaid_values (col : option bool) : option Z :=
  option_map (fun b : bool => if b then 1 else 2) col.

(** [Series.sum()] leaves missing cells out. *)
Definition sum_skipna (col : list (option Z)) : Z :=
  fold_right (fun c acc => fillna 0 c + acc) 0 col.

(** the ['Medicaid'] cell of an insurance row *)
Definition medicaid_value (p : Payer) : option Z :=
  __replace_medicaid_values (__find_plans_with_medicaid (Plan p)).

Definition __find_patients_with_only_medicaids
    (medicaid_data : list (Payer * Timestamp)) (stratify : list StratumP)
  : list (Z * bool) :=
  let merged :=
    merge Z_pair_eqb
          (fun m : Payer * Timestamp => (py_PatientId (fst m), snd m))
          (fun r => (st_PatientId (sp_stratum r), st_Date (sp_stratum r)))
          medicaid_data stratify in
  map (fun g => (fst g,
                 sum_skipna (map (fun m => medicaid_value (fst (fst m))) (snd g)) =? 1))
      (groupby Z.eqb (fun m => st_index_encounter_id (sp_stratum (snd m))) merged).

Definition __determine_medicaid_stratify
    (medicaid_data : list (Payer * Timestamp)) (stratify : list StratumP)
  : list (Z * bool) :=
  __find_patients_with_only_medicaids medicaid_data stratify.

(** The column [patient_measurement_year_id] that the source adds to the
    insurance rows is not read again: the result is keyed by
    [index_encounter_id]. *)
Definition __get_encounter_data (db : Database) (stratify : list StratumP)
  : list (StratumP * (Z * bool)) :=
  let medicaid_data := __get_medicaid_from_db db stratify in
  let medicaid_data := __merge_mediciad_with_stratify medicaid_data stratify in
  let medicaid_data := __filter_insurance_dates (now db) medicaid_data in
  let results := __determine_medicaid_stratify medicaid_data stratify in
  merge Z.eqb (fun r => st_index_encounter_id (sp_stratum r)) fst stratify results.

Definition __get_stratify_from_db (db : Database) (stratify : list (Stratum * string))
  : list (StratumP * (Z * bool)) :=
  __get_encounter_data db (__get_patient_data db stratify).

(** a row of the stratify table that is returned *)
Record StratifyRow := mkStratifyRow {
  s_patient_measurement_year_id : PMY;
  s_Age : string;
  s_Ethnicity : string;
  s_Race : string;
  s_Medicaid : bool }.

(** [__fill_blank_stratify] and [__trim_unnecessary_stratify_data]: the
    missing cells become ['Unknown'], then the five columns are kept. *)
Definition __trim_unnecessary_stratify_data (stratify : list (StratumP * (Z * bool)))
  : list StratifyRow :=
  map (fun r =>
         let sp := fst r in
         mkStratifyRow (st_patient_measurement_year_id (sp_stratum sp))
                       (snd (fst sp))
                       (fillna "Unknown"%string (Ethnicity (snd sp)))
                       (fillna "Unknown"%string (Race (snd sp)))
                       (snd (snd r)))
      stratify.

Definition stratify_data (db : Database) (populace : list Scored)
  : list (StratumP * (Z * bool)) :=
  __get_stratify_from_db db (__calculate_age (__initialize_stratify populace)).

(** a row of the cohort table that is returned *)
Record CohortRow := mkCohortRow {
  c_PatientId : Z;
  c_patient_measurement_year_id : PMY;
  c_index_encounter_id : Z;
  c_numerator : bool }.

Definition cohort_eqb (a b : CohortRow) : bool :=
  (c_PatientId a =? c_PatientId b) &&
  Z_pair_eqb (c_patient_measurement_year_id a) (c_patient_measurement_year_id b) &&
  (c_index_encounter_id a =? c_index_encounter_id b) &&
  Bool.eqb (c_numerator a) (c_numerator b).

Definition __trim_unnecessary_populace_data (populace : list Scored) : list CohortRow :=
  drop_duplicates cohort_eqb (fun c => c)
    (map (fun r => let e := encounter r in
                   mkCohortRow (PatientId (visit e)) (patient_measurement_year_id e)
                               (index_encounter_id e) (numerator r))
         populace).

Definition return_final_data (populace : list Scored)
    (stratify : list (StratumP * (Z * bool))) : list CohortRow * list StratifyRow :=
  (__trim_unnecessary_populace_data populace, __trim_unnecessary_stratify_data stratify).

Definition _get_populace (db : Database) : option (list IndexVisit * list Encounter) :=
  let populace := __initilize_populace db in
  let index_visits := __get_index_visits populace in
  populace <- __set_index_groups populace index_visits ;;
  ret (index_visits, populace).

Definition get_denominator (db : Database) : option (list Encounter) :=
  p <- _get_populace db ;;
  ret (_remove_exclusions db (fst p) (snd p)).

Definition get_numerator (populace : list Encounter) : option (list Scored) :=
  _find_performance_met (_apply_time_constraint populace).

(** [Submeasure.collect_measurement_data] on this sub-measure *)
Definition collect_measurement_data (db : Database)
  : option (list CohortRow * list StratifyRow) :=
  populace <- get_denominator db ;;
  populace <- get_numerator populace ;;
  ret (return_final_data populace (stratify_data db populace)).

End DEP_REM.

(** ** ASC.py: screening for unhealthy alcohol use *)

Module ASC.

Definition PMY : Type := (Z * Z)%type.

Module _Sub_1.

(** a row of the encounter queries; ['Age'] is the query's
    [DATEDIFF(year, DOB, VisitDateTime)] *)
Record Encounter := mkEncounter {
  PatientId : Z;
  Age : option Z;
  EncounterID : Z;
  encounter_date : Timestamp;
  measurement_year : Z }.

(** a row of [self.__populace__] *)
Record Row := mkRow {
  encounter : Encounter;
  patient_measurement_year_id : PMY }.

Record Database := mkDatabase {
  all_encounters : list Encounter;
  preventive_encounters : list Encounter }.

Definition __get_all_encounters (db : Database) : list Encounter :=
  all_encounters db.

Definition __create_patient_measurement_year_id (populace : list Encounter) : list Row :=
  map (fun e => mkRow e (PatientId e, measurement_year e)) populace.

(** [groupby(id)['PatientId'].size() >= 2]: the series that has one entry
    per id, the id as its index and the truth of the comparison as its value *)
Definition size_at_least_2 (populace : list Row) : list (PMY * bool) :=
  map (fun g => (fst g, 2 <=? Z.of_nat (List.length (snd g))))
      (groupby Z_pair_eqb patient_measurement_year_id populace).

(** [.reset_index()['patient_measurement_year_id'].to_list()] reads the
    index column of that series, that is the id of every entry. *)
Definition __number_of_visits_filter (populace : list Row) : list Row :=
  let multiple_visits := map fst (size_at_least_2 populace) in
  filter (fun r => isin Z_pair_eqb (patient_measurement_year_id r) multiple_visits)
         populace.

Definition __get_two_or_more_visits (db : Database) : list Row :=
  __number_of_visits_filter
    (__create_patient_measurement_year_id (__get_all_encounters db)).

Definition __get_preventive_visits_from_db (db : Database) : list Encounter :=
  preventive_encounters db.

Definition __create_patient_measurement_year_id_for_preventive_visits
    (preventive_visits : list Encounter) : list Row :=
  map (fun e => mkRow e (PatientId e, measurement_year e)) preventive_visits.

(** [pd.concat(self.__populace__, preventive_visits)]: [pd.concat] takes its
    frames as one sequence; handed the two frames as two arguments it raises
    [TypeError] and no populace is assigned. *)
Definition __add_preventive_visits_to_populace
    (populace preventive_visits : list Row) : option (list Row) :=
  None.

Definition __get_preventive_visits (db : Database) (populace : list Row)
  : option (list Row) :=
  let preventive_visits := __get_preventive_visits_from_db db in
  match preventive_visits with
  | [] => Some populace
  | _ =>
      __add_preventive_visits_to_populace populace
        (__create_patient_measurement_year_id_for_preventive_visits preventive_visits)
  end.

Definition _get_populace (db : Database) : option (list Row) :=
  __get_preventive_visits db (__get_two_or_more_visits db).

Definition __remove_age_exclusions (populace : list Row) : list Row :=
  filter (fun r => le_nan (Some 18) (Age (encounter r))) populace.

(** a row of the dementia query of [__get_dementia_exclusions]; the year is
    missing when the diagnosis has no encounter on file *)
Record Dementia := mkDementia {
  dm_PatientId : Z;
  exclusion_year : option Z }.

(** the ['to_exclude'] column: [measurement_year >= exclusion_year] on a row
    of the left join *)
Definition to_exclude (m : Row * option Dementia) : bool :=
  le_nan (match snd m with
          | Some d => exclusion_year d
          | None => None
          end)
         (Some (measurement_year (encounter (fst m)))).

Definition __compare_dementia_year_to_populace (dementia : list Dementia)
    (populace : list Row) : list PMY :=
  let unique_denominators :=
    drop_duplicates Z_pair_eqb patient_measurement_year_id populace in
  let unique_denominators :=
    merge_left Z.eqb (fun r => PatientId (encounter r)) dm_PatientId
               unique_denominators dementia in
  unique_from Z_pair_eqb []
    (map (fun m => patient_measurement_year_id (fst m))
         (filter to_exclude unique_denominators)).

Definition __filter_dementia_exclusions (exclusion_ids : list PMY) (populace : list Row)
  : list Row :=
  filter (fun r => negb (isin Z_pair_eqb (patient_measurement_year_id r) exclusion_ids))
         populace.

(** [dementia] is the answer of the query of [__get_dementia_exclusions]. *)
Definition __remove_dementia_exclusions (dementia : list Dementia) (populace : list Row)
  : list Row :=
  __filter_dementia_exclusions (__compare_dementia_year_to_populace dementia populace)
                               populace.

Definition _remove_exclusions (dementia : list Dementia) (populace : list Row)
  : list Row :=
  __remove_dementia_exclusions dementia (__remove_age_exclusions populace).

(** the columns of [self.__populace__] that [return_final_data] keeps *)
Record CohortRow := mkCohortRow {
  c_patient_measurement_year_id : PMY;
  c_PatientId : Z;
  c_EncounterID : Z;
  c_screening_date : option Timestamp;
  c_numerator : bool }.

(** the columns of [self.__stratify__] that [return_final_data] keeps, as
    [__fill_blank_stratify] leaves them *)
Record StratifyRow := mkStratifyRow {
  s_patient_measurement_year_id : PMY;
  s_measurement_year : Z;
  s_Ethnicity : string;
  s_Race : string;
  s_Medicaid : bool }.

Definition __trim_unnecessary_populace_data (populace : list CohortRow) : list CohortRow :=
  drop_duplicates Z_pair_eqb c_patient_measurement_year_id populace.

Definition __trim_unnecessary_stratify_data (stratify : list StratifyRow)
  : list StratifyRow :=
  drop_duplicates Z_pair_eqb s_patient_measurement_year_id stratify.

Definition return_final_data (populace : list CohortRow) (stratify : list StratifyRow)
  : list CohortRow * list StratifyRow :=
  (__trim_unnecessary_populace_data populace, __trim_unnecessary_stratify_data stratify).

End _Sub_1.

Module _Sub_2.

Record CohortRow := mkCohortRow {
  c_patient_measurement_year_id : PMY;
  c_PatientId : Z;
  c_EncounterID : Z;
  c_numerator : bool }.

Record StratifyRow := mkStratifyRow {
  s_patient_measurement_year_id : PMY;
  s_measurement_year : Z;
  s_Ethnicity : string;
  s_Race : string;
  s_Medicaid : bool }.

Definition __trim_unnecessary_populace_data (populace : list CohortRow) : list CohortRow :=
  drop_duplicates Z_pair_eqb c_patient_measurement_year_id populace.

Definition __trim_unnecessary_stratify_data (stratify : list StratifyRow)
  : list StratifyRow :=
  drop_duplicates Z_pair_eqb s_patient_measurement_year_id stratify.

Definition return_final_data (populace : list CohortRow) (stratify : list StratifyRow)
  : list CohortRow * list StratifyRow :=
  (__trim_unnecessary_populace_data populace, __trim_unnecessary_stratify_data stratify).

End _Sub_2.

End ASC.

(** ** CDF_CH.py: depression screening and follow-up, ages 12 to 17 *)

Module CDF_CH.

Definition PMY : Type := (Z * Z)%type.

Module _Sub_1.

(** a row of the encounter query of [__initialize_populace] *)
Record Encounter := mkEncounter {
  PatientId : Z;
  EncounterId : Z;
  VisitDateTime : Timestamp;
  DOB : Timestamp }.

(** a row of [self.__populace__] with the id column *)
Record Row := mkRow {
  encounter : Encounter;
  patient_measurement_year_id : PMY }.

(** ... and with the ['age'] column *)
Record Aged := mkAged {
  row : Row;
  age : Z }.

(** rows of the diagnosis queries *)
Record Diagnosis := mkDiagnosis {
  dx_PatientId : Z;
  exclusion_date : option Timestamp }.

(** a row of the PHQ-A query; the text of [TotalScore] is kept as the number
    that [pd.to_numeric(errors='coerce')] reads in it, missing when it reads
    none *)
Record Screening := mkScreening {
  sc_PatientId : Z;
  sc_EncounterID : Z;
  screening_date : Timestamp;
  TotalScore : option Z }.

(** a screening as [__prep_screenings_for_merge] returns it *)
Record Prepared := mkPrepared {
  pr_patient_measurement_year_id : PMY;
  screening_encounter_id : Z;
  pr_screening_date : Timestamp;
  screening_score : option Z }.

Record Database := mkDatabase {
  outpatient_encounters : list Encounter;
  depressions : list Diagnosis;
  bipolars : list Diagnosis;
  phqa_screenings : list Screening }.

Definition __create_measurement_year_id (patient_id : Z) (date : Timestamp) : PMY :=
  (patient_id, year date).

Definition lex3_leb (a b : Z * Z * Z) : bool :=
  let '(a1, a2, a3) := a in
  let '(b1, b2, b3) := b in
  (a1 <? b1) || ((a1 =? b1) && lex_leb (a2, a3) (b2, b3)).

Definition __initialize_populace (db : Database) : list Encounter :=
  outpatient_encounters db.

(** The ids are sorted here as pairs of numbers and by pandas as strings;
    the row that is first within an id is the same. *)
Definition _get_populace (db : Database) : list Row :=
  let populace :=
    map (fun e => mkRow e (__create_measurement_year_id (PatientId e) (VisitDateTime e)))
        (__initialize_populace db) in
  let sorted :=
    sort_values (fun a b =>
                   lex3_leb (patient_measurement_year_id a, VisitDateTime (encounter a))
                            (patient_measurement_year_id b, VisitDateTime (encounter b)))
                populace in
  drop_duplicates Z_pair_eqb patient_measurement_year_id sorted.

(** [(VisitDateTime - DOB).dt.days // 365.25] *)
Definition __calculate_age (populace : list Row) : list Aged :=
  map (fun r => mkAged r (floordiv_365_25
                            (timedelta_days (VisitDateTime (encounter r))
                                            (DOB (encounter r)))))
      populace.

Definition __filter_age (populace : list Aged) : list Aged :=
  filter (fun r => (12 <=? age r) && (age r <=? 17)) populace.

Definition __remove_age_exclusion (populace : list Row) : list Aged :=
  __filter_age (__calculate_age populace).

(** ascending order with the missing dates last *)
Definition date_leb_na_last (a b : option Timestamp) : bool :=
  match a, b with
  | Some x, Some y => x <=? y
  | Some _, None => true
  | None, Some _ => false
  | None, None => true
  end.

Definition isna {A : Type} (c : option A) : bool :=
  match c with
  | None => true
  | Some _ => false
  end.

Definition __filter_mental_exclsusion (exclusions : list Diagnosis) (populace : list Aged)
  : list Aged :=
  let sorted :=
    sort_values (fun a b => (dx_PatientId a <? dx_PatientId b) ||
                            ((dx_PatientId a =? dx_PatientId b) &&
                             date_leb_na_last (exclusion_date a) (exclusion_date b)))
                exclusions in
  let exclusions := drop_duplicates Z.eqb dx_PatientId sorted in
  let merged :=
    merge_left Z.eqb (fun r => PatientId (encounter (row r))) dx_PatientId
               populace exclusions in
  map fst
      (filter (fun m =>
                 let d := match snd m with
                          | Some x => exclusion_date x
                          | None => None
                          end in
                 le_nan (Some (VisitDateTime (encounter (row (fst m))))) d || isna d)
              merged).

Definition diagnosis_eqb (a b : Diagnosis) : bool :=
  (dx_PatientId a =? dx_PatientId b) &&
  match exclusion_date a, exclusion_date b with
  | Some x, Some y => x =? y
  | None, None => true
  | _, _ => false
  end.

Definition __get_depressions (db : Database) : list Diagnosis :=
  drop_duplicates diagnosis_eqb (fun d => d) (depressions db).

Definition __get_bipolars (db : Database) : list Diagnosis :=
  drop_duplicates diagnosis_eqb (fun d => d) (bipolars db).

Definition __remove_mental_exclusions (db : Database) (populace : list Aged) : list Aged :=
  let d := __get_depressions db in
  let populace := __filter_mental_exclsusion d populace in
  let b := __get_bipolars db in
  __filter_mental_exclsusion b populace.

Definition _remove_exclusions (db : Database) (populace : list Row) : list Aged :=
  __remove_mental_exclusions db (__remove_age_exclusion populace).

Definition get_denominator (db : Database) : list Aged :=
  _remove_exclusions db (_get_populace db).

Definition __get_screenings (db : Database) : list Screening :=
  phqa_screenings db.

Definition option_Z_eqb (a b : option Z) : bool :=
  match a, b with
  | Some x, Some y => x =? y
  | None, None => true
  | _, _ => false
  end.

(** equality of two screening rows on all their columns *)
Definition screening_eqb (a b : Screening) : bool :=
  (sc_PatientId a =? sc_PatientId b) && (sc_EncounterID a =? sc_EncounterID b) &&
  (screening_date a =? screening_date b) && option_Z_eqb (TotalScore a) (TotalScore b).

Definition __prep_screenings_for_merge (screenings : list Screening) : list Prepared :=
  let key := fun x => (__create_measurement_year_id (sc_PatientId x) (screening_date x),
                       screening_date x) in
  let sorted := sort_values (fun a b => lex3_leb (key a) (key b)) screenings in
  let screenings := drop_duplicates_last screening_eqb (fun x => x) sorted in
  map (fun x => mkPrepared (__create_measurement_year_id (sc_PatientId x) (screening_date x))
                           (sc_EncounterID x) (screening_date x) (TotalScore x))
      screenings.

(** a populace row with the screening that was merged onto it, if any *)
Definition Merged : Type := (Aged * option Prepared)%type.

Definition m_patient_measurement_year_id (m : Merged) : PMY :=
  patient_measurement_year_id (row (fst m)).

Definition m_screening_score (m : Merged) : option Z :=
  match snd m with
  | Some x => screening_score x
  | None => None
  end.

Definition m_screening_date (m : Merged) : option Timestamp :=
  match snd m with
  | Some x => Some (pr_screening_date x)
  | None => None
  end.

Definition __add_screenings_to_populace (db : Database) (populace : list Aged)
  : list Merged :=
  let screenings := __prep_screenings_for_merge (__get_screenings db) in
  merge_left Z_pair_eqb (fun r => patient_measurement_year_id (row r))
             pr_patient_measurement_year_id populace screenings.

(** the ['positive_screening'] column: [screening_score > 9] *)
Definition __determine_screenings_results (m : Merged) : bool :=
  lt_nan (Some 9) (m_screening_score m).

(** a row of [self.__populace__] when [_find_performance_met] is done *)
Record Performance := mkPerformance {
  merged : Merged;
  positive_screening : bool;
  last_encounter : option Timestamp;
  numerator : bool;
  numerator_desc : option string }.

Definition __set_negative_numerators (negative_screenings : list Merged)
  : list Performance :=
  map (fun m => mkPerformance m false None true (Some "Negative screening"%string))
      negative_screenings.

(** [Series.max()] of a group, which is never empty *)
Definition max_of (l : list Z) : option Z :=
  match l with
  | [] => None
  | x :: tl => Some (fold_left Z.max tl x)
  end.

(** [groupby('PatientId')['VisitDateTime'].max()], renamed
    ['last_encounter'] *)
Definition __find_follow_ups (populace : list Merged) : list (Z * Timestamp) :=
  flat_map (fun g =>
              match max_of (map (fun m : Merged => VisitDateTime (encounter (row (fst m))))
                                (snd g)) with
              | Some t => [(fst g, t)]
              | None => []
              end)
           (groupby Z.eqb (fun m : Merged => PatientId (encounter (row (fst m)))) populace).

Definition __set_positive_numerator_fields (numerator_rows : list (Merged * option Timestamp))
  : list Performance :=
  map (fun r => mkPerformance (fst r) true (snd r) true
                              (Some "Positive screening with follow up"%string))
      numerator_rows.

Definition __set_positive_numerators (populace positive_screenings : list Merged)
  : list Performance :=
  let follow_ups := __find_follow_ups populace in
  let positive :=
    map (fun r => (fst r, option_map snd (snd r)))
        (merge_left Z.eqb (fun m : Merged => PatientId (encounter (row (fst m)))) fst
                    positive_screenings follow_ups) in
  let met := fun r : Merged * option Timestamp =>
               lt_nan (m_screening_date (fst r)) (snd r) && negb (isna (snd r)) in
  __set_positive_numerator_fields (filter met positive) ++
  map (fun r => mkPerformance (fst r) true (snd r) false None)
      (filter (fun r => negb (met r)) positive).

Definition _find_performance_met (db : Database) (populace : list Aged) : list Performance :=
  let populace := __add_screenings_to_populace db populace in
  let negative_screenings :=
    filter (fun m => negb (__determine_screenings_results m)) populace in
  let negative_screenings := __set_negative_numerators negative_screenings in
  let positive_screenings := filter __determine_screenings_results populace in
  let positive_screenings := __set_positive_numerators populace positive_screenings in
  positive_screenings ++ negative_screenings.

(** [_apply_time_constraint] is [pass]. *)
Definition get_numerator (db : Database) (populace : list Aged) : list Performance :=
  _find_performance_met db populace.

(** a row of the cohort table that is returned *)
Record CohortRow := mkCohortRow {
  c_patient_measurement_year_id : PMY;
  c_PatientId : Z;
  c_EncounterId : Z;
  c_screening_encounter_id : option Z;
  c_last_encounter : option Timestamp;
  c_numerator : bool;
  c_numerator_desc : option string }.

Definition __trim_unnecessary_populace_data (populace : list Performance)
  : list CohortRow :=
  drop_duplicates Z_pair_eqb c_patient_measurement_year_id
    (map (fun p =>
            let m := merged p in
            mkCohortRow (m_patient_measurement_year_id m)
                        (PatientId (encounter (row (fst m))))
                        (EncounterId (encounter (row (fst m))))
                        (option_map screening_encounter_id (snd m))
                        (last_encounter p) (numerator p) (numerator_desc p))
         populace).

(** the columns of [self.__stratify__] that [return_final_data] keeps, as
    [__fill_blank_stratify] leaves them *)
Record StratifyRow := mkStratifyRow {
  s_patient_measurement_year_id : PMY;
  s_measurement_year : Z;
  s_Ethnicity : string;
  s_Race : string;
  s_Medicaid : bool }.

Definition __trim_unnecessary_stratify_data (stratify : list StratifyRow)
  : list StratifyRow :=
  drop_duplicates Z_pair_eqb s_patient_measurement_year_id stratify.

Definition return_final_data (populace : list Performance) (stratify : list StratifyRow)
  : list CohortRow * list StratifyRow :=
  (__trim_unnecessary_populace_data populace, __trim_unnecessary_stratify_data stratify).

(** the cohort table of the sub-measure on a database *)
Definition final_cohort (db : Database) : list CohortRow :=
  __trim_unnecessary_populace_data (get_numerator db (get_denominator db)).

End _Sub_1.

End CDF_CH.

(** ** I_SERV.py: time until the initial evaluation and the initial service *)

Module I_SERV.

Definition PMY : Type := (Z * Z)%type.

Definition option_Z_eqb (a b : option Z) : bool :=
  match a, b with
  | Some x, Some y => x =? y
  | None, None => true
  | _, _ => false
  end.

(** [row[date] if row[date].year == row['measurement_year'] else
    row[date] + pd.tseries.offsets.BDay(31)]; a missing date stays missing *)
Definition late_penalty (measurement_year : Z) (date : option Timestamp)
  : option Timestamp :=
  match date with
  | Some d => if year d =? measurement_year then Some d else Some (add_bdays 31 d)
  | None => None
  end.

(** [len(pd.bdate_range(start, end)) - 1] *)
Definition business_days_from_call (start_date end_date : Timestamp) : Z :=
  Z.of_nat (List.length (bdate_range start_date end_date)) - 1.

Module _Sub_1.

(** a row of the call query of [__get_call_dates] *)
Record Call := mkCall {
  PatientID : Z;
  CallID : Z;
  StartDate : Timestamp;
  DOB : Timestamp }.

(** a row of the evaluation query of [__get_initial_evals] *)
Record Eval := mkEval {
  ev_PatientId : Z;
  VisitDateTime : Timestamp;
  ev_eval_encounter_id : Z }.

(** a row of the billable-encounter query of [__get_prior_6_month_visits] *)
Record PriorVisit := mkPriorVisit {
  pv_PatientId : Z;
  prior_year : Z }.

Record Database := mkDatabase {
  call_dates : list Call;
  initial_evals : list Eval;
  prior_6_month_visits : list PriorVisit }.

(** a row of [self.__populace__] *)
Record Row := mkRow {
  call : Call;
  eval_date : option Timestamp;
  eval_encounter_id : option Z;
  measurement_year : Z;
  patient_measurement_year_id : PMY;
  age : Z }.

Definition call_eqb (a b : Call) : bool :=
  (PatientID a =? PatientID b) && (CallID a =? CallID b) &&
  (StartDate a =? StartDate b) && (DOB a =? DOB b).

Definition __get_call_dates (db : Database) : list Call :=
  drop_duplicates call_eqb (fun c => c) (call_dates db).

Definition __get_initial_evals (db : Database) : list Eval :=
  initial_evals db.

Definition __get_next_date (call_ : Timestamp) (evals : list Eval)
  : option Timestamp * option Z :=
  let valid_evals := filter (fun e => call_ <=? VisitDateTime e) evals in
  match valid_evals with
  | first_row :: _ => (Some (VisitDateTime first_row), Some (ev_eval_encounter_id first_row))
  | [] => (None, None)
  end.

(** The calls with the two evaluation columns; the year, the id and the age
    are filled in by the steps that follow.  The row-wise [apply] on the
    calls that have an evaluation expands to the two columns only when there
    is such a call: on an empty frame it gives the frame back and the
    assignment to the two columns raises. *)
Definition __match_evals_to_calls (calls : list Call) (evals : list Eval)
  : option (list (Call * (option Timestamp * option Z))) :=
  let call_ids := map PatientID calls in
  let evals := filter (fun e => isin Z.eqb (ev_PatientId e) call_ids) evals in
  let eval_ids := map ev_PatientId evals in
  let eval_mask := fun c => isin Z.eqb (PatientID c) eval_ids in
  let has_eval := filter eval_mask calls in
  let has_no_eval := filter (fun c => negb (eval_mask c)) calls in
  match has_eval with
  | [] => None
  | _ =>
      let has_eval :=
        map (fun c => (c, __get_next_date
                            (StartDate c)
                            (filter (fun e => ev_PatientId e =? PatientID c) evals)))
            has_eval in
      let has_eval :=
        drop_duplicates
          (fun a b : Z * option Z => (fst a =? fst b) && option_Z_eqb (snd a) (snd b))
          (fun r : Call * (option Timestamp * option Z) => (PatientID (fst r), snd (snd r)))
          has_eval in
      Some (has_eval ++ map (fun c => (c, (None, None))) has_no_eval)
  end.

Definition __initialize_populace (db : Database)
  : option (list (Call * (option Timestamp * option Z))) :=
  __match_evals_to_calls (__get_call_dates db) (__get_initial_evals db).

(** [__calculate_measurement_year], [__create_patient_measurement_year_id]
    and, from [__age_exclusions], [__calculate_age]: the three columns are
    functions of the call. *)
Definition __calculate_measurement_year (c : Call) : Z := year (StartDate c).

Definition __create_patient_measurement_year_id (c : Call) : PMY :=
  (PatientID c, __calculate_measurement_year c).

Definition __calculate_age (c : Call) : Z :=
  __calculate_measurement_year c - year (DOB c).

Definition _get_populace (db : Database) : option (list Row) :=
  populace <- __initialize_populace db ;;
  ret (map (fun r => mkRow (fst r) (fst (snd r)) (snd (snd r))
                           (__calculate_measurement_year (fst r))
                           (__create_patient_measurement_year_id (fst r))
                           (__calculate_age (fst r)))
           populace).

Definition __create_prior_6_month_id (prior_visits : list PriorVisit) : list PMY :=
  map (fun v => (pv_PatientId v, prior_year v + 1)) prior_visits.

Definition __remove_prior_6_month_visits (exclusion_ids : list PMY) (populace : list Row)
  : list Row :=
  filter (fun r => negb (isin Z_pair_eqb (patient_measurement_year_id r) exclusion_ids))
         populace.

Definition __prior_visit_exclusions (db : Database) (populace : list Row) : list Row :=
  let prior_visits := prior_6_month_visits db in
  let exclusion_ids := unique_from Z_pair_eqb [] (__create_prior_6_month_id prior_visits) in
  __remove_prior_6_month_visits exclusion_ids populace.

Definition __december_exclusions (populace : list Row) : list Row :=
  filter (fun r => negb (month (StartDate (call r)) =? 12)) populace.

Definition __remove_age (populace : list Row) : list Row :=
  filter (fun r => 12 <=? age r) populace.

Definition __age_exclusions (populace : list Row) : list Row :=
  __remove_age populace.

Definition _remove_exclusions (db : Database) (populace : list Row) : list Row :=
  __age_exclusions (__december_exclusions (__prior_visit_exclusions db populace)).

Definition get_denominator (db : Database) : option (list Row) :=
  populace <- _get_populace db ;;
  ret (_remove_exclusions db populace).

Definition _apply_time_constraint (populace : list Row) : list Row :=
  map (fun r => mkRow (call r) (late_penalty (measurement_year r) (eval_date r))
                      (eval_encounter_id r) (measurement_year r)
                      (patient_measurement_year_id r) (age r))
      populace.

(** the calls without an evaluation, and the populace without them *)
Definition __filter_calls_without_evals (populace : list Row) : list Row * list Row :=
  let eval_mask := fun r => match eval_date r with None => true | Some _ => false end in
  (filter eval_mask populace, filter (fun r => negb (eval_mask r)) populace).

Definition __trim_unnecessary_call_data (calls : list Row) : list (Z * Timestamp) :=
  map (fun r => (PatientID (call r), StartDate (call r))) calls.

(** the exclusions frame, [None] when every call has an evaluation *)
Definition __handle_calls_without_evals (populace : list Row)
  : option (list (Z * Timestamp)) * list Row :=
  let '(calls, populace) := __filter_calls_without_evals populace in
  match calls with
  | [] => (None, populace)
  | _ => (Some (__trim_unnecessary_call_data calls), populace)
  end.

(** a populace row with ['business_days_from_call_to_eval'] *)
Definition __calculate_days_from_call (populace : list Row) : list (Row * Z) :=
  flat_map (fun r => match eval_date r with
                     | Some e => [(r, business_days_from_call (StartDate (call r)) e)]
                     | None => []
                     end) populace.

(** When no call is left the row-wise [apply] gives a frame back and the
    assignment to the one column raises. *)
Definition _find_performance_met (populace : list Row)
  : option (option (list (Z * Timestamp)) * list (Row * Z)) :=
  let '(exclusions, populace) := __handle_calls_without_evals populace in
  match populace with
  | [] => None
  | _ => Some (exclusions, __calculate_days_from_call populace)
  end.

Definition get_numerator (populace : list Row)
  : option (option (list (Z * Timestamp)) * list (Row * Z)) :=
  _find_performance_met (_apply_time_constraint populace).

(** a row of the cohort table that is returned *)
Record CohortRow := mkCohortRow {
  c_PatientID : Z;
  c_patient_measurement_year_id : PMY;
  c_CallID : Z;
  c_eval_encounter_id : option Z;
  c_business_days_from_call_to_eval : Z }.

Definition cohort_eqb (a b : CohortRow) : bool :=
  (c_PatientID a =? c_PatientID b) &&
  Z_pair_eqb (c_patient_measurement_year_id a) (c_patient_measurement_year_id b) &&
  (c_CallID a =? c_CallID b) &&
  option_Z_eqb (c_eval_encounter_id a) (c_eval_encounter_id b) &&
  (c_business_days_from_call_to_eval a =? c_business_days_from_call_to_eval b).

(** [drop_duplicates()] without a subset compares whole rows. *)
Definition __trim_unnecessary_populace_data (populace : list (Row * Z)) : list CohortRow :=
  drop_duplicates cohort_eqb (fun c => c)
    (map (fun r => mkCohortRow (PatientID (call (fst r)))
                               (patient_measurement_year_id (fst r))
                               (CallID (call (fst r)))
                               (eval_encounter_id (fst r)) (snd r))
         populace).

(** the columns of [self.__stratify__] that [return_final_data] keeps, as
    [__fill_blank_stratify] leaves them *)
Record StratifyRow := mkStratifyRow {
  s_patient_measurement_year_id : PMY;
  s_age : string;
  s_Ethnicity : string;
  s_Race : string;
  s_Medicaid : bool }.

Definition __trim_unnecessary_stratify_data (stratify : list StratifyRow)
  : list StratifyRow :=
  drop_duplicates Z_pair_eqb s_patient_measurement_year_id stratify.

Definition return_final_data (populace : list (Row * Z)) (stratify : list StratifyRow)
  : list CohortRow * list StratifyRow :=
  (__trim_unnecessary_populace_data populace, __trim_unnecessary_stratify_data stratify).

(** the cohort table of the sub-measure on a database *)
Definition final_cohort (db : Database) : option (list CohortRow) :=
  populace <- get_denominator db ;;
  r <- get_numerator populace ;;
  ret (__trim_unnecessary_populace_data (snd r)).

End _Sub_1.

Module _Sub_2.

(** a row of [self.__populace__]: a call of the first sub-measure with the
    service matched to it *)
Record Row := mkRow {
  PatientID : Z;
  patient_measurement_year_id : PMY;
  CallID : Z;
  StartDate : Timestamp;
  service_date : option Timestamp;
  service_encounter_id : option Z;
  measurement_year : Z }.

Definition _apply_time_constraint (populace : list Row) : list Row :=
  map (fun r => mkRow (PatientID r) (patient_measurement_year_id r) (CallID r)
                      (StartDate r) (late_penalty (measurement_year r) (service_date r))
                      (service_encounter_id r) (measurement_year r))
      populace.

Definition __calculate_days_from_call (populace : list Row) : list (Row * Z) :=
  flat_map (fun r => match service_date r with
                     | Some e => [(r, business_days_from_call (StartDate r) e)]
                     | None => []
                     end) populace.

(** the calls without a service, and the populace without them *)
Definition __filter_calls_without_service (populace : list Row) : list Row * list Row :=
  let service_mask := fun r => match service_date r with None => true | Some _ => false end in
  (filter service_mask populace, filter (fun r => negb (service_mask r)) populace).

Definition __trim_unnecessary_call_data (calls : list Row) : list (Z * Timestamp) :=
  map (fun r => (PatientID r, StartDate r)) calls.

(** the exclusions frame, [None] when every call has a service *)
Definition __handle_calls_without_service (populace : list Row)
  : option (list (Z * Timestamp)) * list Row :=
  let '(calls, populace) := __filter_calls_without_service populace in
  match calls with
  | [] => (None, populace)
  | _ => (Some (__trim_unnecessary_call_data calls), populace)
  end.

(** As in the first sub-measure, when no call is left the assignment of the
    days raises. *)
Definition _find_performance_met (populace : list Row)
  : option (option (list (Z * Timestamp)) * list (Row * Z)) :=
  let '(exclusions, populace) := __handle_calls_without_service populace in
  match populace with
  | [] => None
  | _ => Some (exclusions, __calculate_days_from_call populace)
  end.

Definition get_numerator (populace : list Row)
  : option (option (list (Z * Timestamp)) * list (Row * Z)) :=
  _find_performance_met (_apply_time_constraint populace).

Record CohortRow := mkCohortRow {
  c_PatientID : Z;
  c_patient_measurement_year_id : PMY;
  c_StartDate : Timestamp;
  c_service_encounter_id : option Z;
  c_business_days_from_call_to_service : Z }.

Definition cohort_eqb (a b : CohortRow) : bool :=
  (c_PatientID a =? c_PatientID b) &&
  Z_pair_eqb (c_patient_measurement_year_id a) (c_patient_measurement_year_id b) &&
  (c_StartDate a =? c_StartDate b) &&
  option_Z_eqb (c_service_encounter_id a) (c_service_encounter_id b) &&
  (c_business_days_from_call_to_service a =? c_business_days_from_call_to_service b).

Definition __trim_unnecessary_populace_data (populace : list (Row * Z)) : list CohortRow :=
  drop_duplicates cohort_eqb (fun c => c)
    (map (fun r => mkCohortRow (PatientID (fst r)) (patient_measurement_year_id (fst r))
                               (StartDate (fst r)) (service_encounter_id (fst r)) (snd r))
         populace).


Definition return_final_data (populace : list (Row * Z))
    (stratify : list _Sub_1.StratifyRow) : list CohortRow * list _Sub_1.StratifyRow :=
  (__trim_unnecessary_populace_data populace, stratify).

End _Sub_2.

End I_SERV.

(** ** SDOH.py: screening for social drivers of health *)

Module SDOH.

Definition PMY : Type := (Z * Z)%type.

Module _Sub_1.

Record Encounter := mkEncounter {
  PatientId : Z;
  EncounterId : Z;
  VisitDateTime : Timestamp;
  DOB : Timestamp }.

Record Row := mkRow {
  encounter : Encounter;
  patient_measurement_year_id : PMY }.

Record Aged := mkAged {
  row : Row;
  age : Z }.

(** [(VisitDateTime - DOB).dt.days // 365.25] *)
Definition __calculate_age (populace : list Row) : list Aged :=
  map (fun r => mkAged r (floordiv_365_25
                            (timedelta_days (VisitDateTime (encounter r))
                                            (DOB (encounter r)))))
      populace.

Definition __filter_age (populace : list Aged) : list Aged :=
  filter (fun r => 18 <=? age r) populace.

Record CohortRow := mkCohortRow {
  c_patient_measurement_year_id : PMY;
  c_PatientId : Z;
  c_EncounterId : Z;
  c_numerator : bool;
  c_screening_id : option Z;
  c_screening_date : option Timestamp }.

Record StratifyRow := mkStratifyRow {
  s_patient_measurement_year_id : PMY;
  s_measurement_year : Z;
  s_Ethnicity : string;
  s_Race : string;
  s_Medicaid : bool }.

Definition __trim_unnecessary_populace_data (populace : list CohortRow) : list CohortRow :=
  drop_duplicates Z_pair_eqb c_patient_measurement_year_id populace.

Definition __trim_unnecessary_stratify_data (stratify : list StratifyRow)
  : list StratifyRow :=
  drop_duplicates Z_pair_eqb s_patient_measurement_year_id stratify.

Definition return_final_data (populace : list CohortRow) (stratify : list StratifyRow)
  : list CohortRow * list StratifyRow :=
  (__trim_unnecessary_populace_data populace, __trim_unnecessary_stratify_data stratify).

(** a row of the screening query of [__get_screenings]; the query keeps the
    screenings whose encounter has a date *)
Record Screening := mkScreening {
  sc_PatientId : Z;
  screening_id : Z;
  screening_date : Timestamp }.

(** a screening with its ['patient_measurement_year_id'] *)
Record Screened := mkScreened {
  screening : Screening;
  sc_patient_measurement_year_id : PMY }.

Record Database := mkDatabase {
  encounters : list Encounter;
  social_needs_screenings : list Screening }.

Definition __create_measurement_year_id (patient_id : Z) (date : Timestamp) : PMY :=
  (patient_id, year date).

Definition __initialize_populace (db : Database) : list Encounter :=
  encounters db.

(** On an empty answer of the query the columns of the frame have no
    type, and [.dt.year] raises. *)
Definition _get_populace (db : Database) : option (list Row) :=
  match __initialize_populace db with
  | [] => None
  | populace =>
      Some (map (fun e => mkRow e (__create_measurement_year_id (PatientId e)
                                                                (VisitDateTime e)))
                populace)
  end.

(** the sort key of [__get_first_encounter]; the ids are compared here as
    pairs of numbers and by pandas as strings, which gives the same first
    row within an id *)
Definition first_encounter_leb (a b : Aged) : bool :=
  let ka := patient_measurement_year_id (row a) in
  let kb := patient_measurement_year_id (row b) in
  (fst ka <? fst kb) ||
  ((fst ka =? fst kb) &&
   lex_leb (snd ka, VisitDateTime (encounter (row a)))
           (snd kb, VisitDateTime (encounter (row b)))).

Definition __get_first_encounter (populace : list Aged) : list Aged :=
  drop_duplicates Z_pair_eqb (fun a => patient_measurement_year_id (row a))
                  (sort_values first_encounter_leb populace).

Definition __remove_age_exclusion (populace : list Row) : list Aged :=
  __get_first_encounter (__filter_age (__calculate_age populace)).

Definition _remove_exclusions (populace : list Row) : list Aged :=
  __remove_age_exclusion populace.

Definition get_denominator (db : Database) : option (list Aged) :=
  populace <- _get_populace db ;;
  ret (_remove_exclusions populace).

(** The query asks for the screenings of the patients of the populace.  The
    ids are written into it as a Python tuple, which is a list of SQL only
    from two ids on: [()] and [(7,)] are refused and [read_sql] raises. *)
Definition __get_screenings (db : Database) (populace : list Aged)
  : option (list Screening) :=
  let ids := map (fun a => PatientId (encounter (row a))) populace in
  match ids with
  | [] | [_] => None
  | _ => Some (filter (fun s => isin Z.eqb (sc_PatientId s) ids)
                      (social_needs_screenings db))
  end.

(** [sort_values(by=['screening_date'], ascending=False)] and
    [drop_duplicates(['patient_measurement_year_id'], keep='first')]: the
    latest screening of every id.  Screenings with the same date keep their
    order here; pandas promises no order among them. *)
Definition __get_last_screening (screenings : list Screened) : list Screened :=
  drop_duplicates Z_pair_eqb sc_patient_measurement_year_id
    (sort_values (fun a b => screening_date (screening b) <=? screening_date (screening a))
                 screenings).

(** a populace row with the screening that was merged onto it, if any *)
Definition Merged : Type := (Aged * option Screened)%type.

Definition m_screening_date (m : Merged) : option Timestamp :=
  option_map (fun x => screening_date (screening x)) (snd m).

Definition __merge_screenings_into_populace (screenings : list Screened)
    (populace : list Aged) : list Merged :=
  merge_left Z_pair_eqb (fun a => patient_measurement_year_id (row a))
             sc_patient_measurement_year_id populace screenings.

(** When the query answers no row, the ['screening_date'] column has no
    type and [.dt.year] raises. *)
Definition _find_performance_met (db : Database) (populace : list Aged)
  : option (list Merged) :=
  screenings <- __get_screenings db populace ;;
  match screenings with
  | [] => None
  | _ =>
      let screenings :=
        map (fun s => mkScreened s (__create_measurement_year_id (sc_PatientId s)
                                                                (screening_date s)))
            screenings in
      let screenings := __get_last_screening screenings in
      ret (__merge_screenings_into_populace screenings populace)
  end.

(** [DOB + pd.DateOffset(years=18)] *)
Definition eighteenth_birthday (a : Aged) : Timestamp :=
  add_months (12 * 18) (DOB (encounter (row a))).

(** a populace row with the ['numerator'] column *)
Definition __set_numerator (populace : list Merged) : list (Merged * bool) :=
  let age_18 := filter (fun m => age (fst m) =? 18) populace in
  let age_18 :=
    map (fun m => (m, le_nan (Some (eighteenth_birthday (fst m))) (m_screening_date m)))
        age_18 in
  let over_18 := filter (fun m => 18 <? age (fst m)) populace in
  let over_18 :=
    map (fun m => (m, match m_screening_date m with Some _ => true | None => false end))
        over_18 in
  age_18 ++ over_18.

Definition _apply_time_constraint (populace : list Merged) : list (Merged * bool) :=
  __set_numerator populace.

(** [get_numerator] of this sub-measure runs [_find_performance_met] and
    then [_apply_time_constraint]. *)
Definition get_numerator (db : Database) (populace : list Aged)
  : option (list (Merged * bool)) :=
  populace <- _find_performance_met db populace ;;
  ret (_apply_time_constraint populace).

Definition cohort_row (r : Merged * bool) : CohortRow :=
  let a := fst (fst r) in
  mkCohortRow (patient_measurement_year_id (row a)) (PatientId (encounter (row a)))
              (EncounterId (encounter (row a))) (snd r)
              (option_map (fun x => screening_id (screening x)) (snd (fst r)))
              (m_screening_date (fst r)).

(** the cohort table of the sub-measure on a database *)
Definition final_cohort (db : Database) : option (list CohortRow) :=
  populace <- get_denominator db ;;
  populace <- get_numerator db populace ;;
  ret (__trim_unnecessary_populace_data (map cohort_row populace)).

End _Sub_1.

End SDOH.

(** ** Measurement.py: the template that drives a sub-measure

    The order in which the methods of a sub-measure run is kept as a log in a
    state monad: a method writes its name when it is entered and then runs
    its body. *)

Module Measurement.

Inductive Method : Type :=
| get_denominator_
| _get_populace_
| _remove_exclusions_
| get_numerator_
| _apply_time_constraint_
| _find_performance_met_
| stratify_data_
| return_final_data_
| _set_stratify_.

Definition Trace : Type := list Method.

Definition Run : Type := state Trace unit.

Definition enter (m : Method) : Run :=
  modify (fun t : Trace => t ++ [m]) ;; ret tt.

(** the four abstract steps of [Denominator] and [Numerator] *)
Record Steps := mkSteps {
  _get_populace : Run;
  _remove_exclusions : Run;
  _apply_time_constraint : Run;
  _find_performance_met : Run }.

(** the public methods of a concrete sub-measure class *)
Record Submeasure := mkSubmeasure {
  steps : Steps;
  get_denominator : Run;
  get_numerator : Run;
  stratify_data : Run;
  return_final_data : Run }.

(** [Submeasure.get_denominator] and [Submeasure.get_numerator] of the base
    class, reached through [super()] *)
Definition super_get_denominator (self : Steps) : Run :=
  _get_populace self ;; _remove_exclusions self.

Definition super_get_numerator (self : Steps) : Run :=
  _apply_time_constraint self ;; _find_performance_met self.

(** [Submeasure.collect_measurement_data] *)
Definition collect_measurement_data (self : Submeasure) : Run :=
  get_denominator self ;;
  get_numerator self ;;
  stratify_data self ;;
  return_final_data self.

(** The bodies of the four steps work on the tables; for the order of the
    calls each of them is its entry in the log. *)
Definition the_steps : Steps :=
  mkSteps (enter _get_populace_) (enter _remove_exclusions_)
          (enter _apply_time_constraint_) (enter _find_performance_met_).

(** A class whose [get_denominator] and [get_numerator] log and call
    [super()]: DEP_REM, ASC sub-measure 1, CDF_CH, I_SERV sub-measure 1. *)
Definition template_class : Submeasure :=
  mkSubmeasure the_steps
    (enter get_denominator_ ;; super_get_denominator the_steps)
    (enter get_numerator_ ;; super_get_numerator the_steps)
    (enter stratify_data_)
    (enter return_final_data_).

Definition DEP_REM_Sub_1 : Submeasure := template_class.
Definition ASC_Sub_1 : Submeasure := template_class.
Definition CDF_CH_Sub_1 : Submeasure := template_class.
Definition I_SERV_Sub_1 : Submeasure := template_class.

(** ASC [_Sub_2.get_denominator]: [super().get_denominator()] and then
    [self._get_populace()] *)
Definition ASC_Sub_2 : Submeasure :=
  mkSubmeasure the_steps
    (enter get_denominator_ ;; super_get_denominator the_steps ;; _get_populace the_steps)
    (enter get_numerator_ ;; super_get_numerator the_steps)
    (enter stratify_data_)
    (enter return_final_data_).

(** SDOH [_Sub_1.get_numerator]: [self._find_performance_met()] and then
    [self._apply_time_constraint()] *)
Definition SDOH_Sub_1 : Submeasure :=
  mkSubmeasure the_steps
    (enter get_denominator_ ;; super_get_denominator the_steps)
    (enter get_numerator_ ;; _find_performance_met the_steps ;; _apply_time_constraint the_steps)
    (enter stratify_data_)
    (enter return_final_data_).

Definition I_SERV_Sub_2 : Submeasure := template_class.

Inductive Name : Type :=
| DepRem
| ASC_sub_1
| ASC_sub_2
| CDF_CH
| ISERV_sub_1
| ISERV_sub_2
| SDOH.

Definition class_of (n : Name) : Submeasure :=
  match n with
  | DepRem => DEP_REM_Sub_1
  | ASC_sub_1 => ASC_Sub_1
  | ASC_sub_2 => ASC_Sub_2
  | CDF_CH => CDF_CH_Sub_1
  | ISERV_sub_1 => I_SERV_Sub_1
  | ISERV_sub_2 => I_SERV_Sub_2
  | SDOH => SDOH_Sub_1
  end.

(** How [get_submeasure_data] of the measure classes runs a sub-measure:
    through [collect_measurement_data], except [I_Serv], which runs its
    second sub-measure step by step and hands it the stratify table of the
    first. *)
Definition full_computation (n : Name) : Run :=
  match n with
  | ISERV_sub_2 =>
      get_denominator I_SERV_Sub_2 ;;
      get_numerator I_SERV_Sub_2 ;;
      enter _set_stratify_ ;;
      return_final_data I_SERV_Sub_2
  | _ => collect_measurement_data (class_of n)
  end.

Definition trace_of (n : Name) : Trace := execState (full_computation n) [].

(** the protocol of the template *)
Definition protocol : Trace :=
  [get_denominator_; _get_populace_; _remove_exclusions_;
   get_numerator_; _apply_time_constraint_; _find_performance_met_;
   stratify_data_; return_final_data_].

Definition is_public (m : Method) : bool :=
  match m with
  | get_denominator_ | get_numerator_ | stratify_data_ | return_final_data_ => true
  | _ => false
  end.

(** the part of a trace from the entry of [get_numerator] to the next
    public method *)
Fixpoint steps_after (m : Method -> bool) (t : Trace) : Trace :=
  match t with
  | [] => []
  | x :: tl =>
      if m x
      then (fix upto (l : Trace) : Trace :=
              match l with
              | [] => []
              | y :: l' => if is_public y then [] else y :: upto l'
              end) tl
      else steps_after m tl
  end.

Definition is_get_numerator (m : Method) : bool :=
  match m with
  | get_numerator_ => true
  | _ => false
  end.

End Measurement.

(** * Properties *)

Import Calendar Frame.

(** ** The calendar on known dates *)

Example civil_epoch : civil_from_days 0 = (1970, 1, 1).
Proof. reflexivity. Qed.

Example civil_2024_leap_day :
  civil_from_days (days_from_civil 2024 2 29) = (2024, 2, 29).
Proof. reflexivity. Qed.

Example monday_2024_01_08 : weekday (days_from_civil 2024 1 8) = 0.
Proof. reflexivity. Qed.

Example six_months_after_aug_31 :
  civil_from_days (add_months_day 6 (days_from_civil 2024 8 31)) = (2025, 2, 28).
Proof. reflexivity. Qed.

Example bday_31_from_monday :
  civil_from_days (to_date (add_bdays 31 (datetime 2024 1 8 9 0))) = (2024, 2, 20).
Proof. reflexivity. Qed.

(** ** Frames *)

Lemma Z_pair_eqb_eq (a b : Z * Z) : Z_pair_eqb a b = true <-> a = b.
Proof.
  destruct a as [a1 a2], b as [b1 b2]; unfold Z_pair_eqb; simpl.
  rewrite andb_true_iff, !Z.eqb_eq. split.
  - intros [-> ->]; reflexivity.
  - intros H; inversion H; auto.
Qed.

Section FrameFacts.
Variables A B K : Type.
Variable eqb : K -> K -> bool.
Hypothesis eqb_eq : forall x y, eqb x y = true <-> x = y.

Lemma isin_In (k : K) (ks : list K) : isin eqb k ks = true <-> In k ks.
Proof.
  unfold isin. rewrite existsb_exists. split.
  - intros [x [Hx He]]. apply eqb_eq in He. subst. exact Hx.
  - intros H. exists k. split; [exact H | apply eqb_eq; reflexivity].
Qed.

Lemma isin_not_In (k : K) (ks : list K) : isin eqb k ks = false <-> ~ In k ks.
Proof.
  rewrite <- isin_In. destruct (isin eqb k ks); split; congruence.
Qed.

Lemma eqb_refl_of (k : K) : eqb k k = true.
Proof. apply eqb_eq; reflexivity. Qed.

Lemma eqb_neq (x y : K) : eqb x y = false <-> x <> y.
Proof.
  rewrite <- eqb_eq. destruct (eqb x y); split; congruence.
Qed.

Variable key : A -> K.

Lemma In_drop_duplicates_from (seen : list K) (l : list A) (x : A) :
  In x (drop_duplicates_from eqb key seen l) -> In x l /\ ~ In (key x) seen.
Proof.
  revert seen. induction l as [|a tl IH]; simpl; intros seen H; [contradiction|].
  destruct (isin eqb (key a) seen) eqn:E.
  - apply IH in H. tauto.
  - destruct H as [<- | H].
    + split; [auto | apply isin_not_In; exact E].
    + apply IH in H. simpl in H. tauto.
Qed.

(** What [drop_duplicates] keeps is a row of the frame. *)
Lemma drop_duplicates_from_incl (seen : list K) (l : list A) (x : A) :
  In x (drop_duplicates_from eqb key seen l) -> In x l.
Proof.
  revert seen. induction l as [|a tl IH]; simpl; intros seen H; [contradiction|].
  destruct (isin eqb (key a) seen).
  - right. eapply IH. exact H.
  - destruct H as [<- | H]; [left; reflexivity | right; eapply IH; exact H].
Qed.

Lemma In_drop_duplicates (l : list A) (x : A) :
  In x (drop_duplicates eqb key l) -> In x l.
Proof. apply drop_duplicates_from_incl. Qed.

Lemma drop_duplicates_from_NoDup (seen : list K) (l : list A) :
  NoDup (map key (drop_duplicates_from eqb key seen l)).
Proof.
  revert seen. induction l as [|a tl IH]; simpl; intros seen; [constructor|].
  destruct (isin eqb (key a) seen) eqn:E; [apply IH|].
  simpl. constructor; [|apply IH].
  rewrite in_map_iff. intros [y [Hy Hin]].
  apply In_drop_duplicates_from in Hin. destruct Hin as [_ Hn].
  apply Hn. rewrite Hy. left; reflexivity.
Qed.

(** [drop_duplicates] leaves no two rows with the same key. *)
Lemma drop_duplicates_NoDup (l : list A) :
  NoDup (map key (drop_duplicates eqb key l)).
Proof. apply drop_duplicates_from_NoDup. Qed.

Lemma drop_duplicates_from_keeps_key (seen : list K) (l : list A) (x : A) :
  In x l -> ~ In (key x) seen ->
  exists y, In y (drop_duplicates_from eqb key seen l) /\ key y = key x.
Proof.
  revert seen. induction l as [|a tl IH]; simpl; intros seen H Hn; [contradiction|].
  destruct (isin eqb (key a) seen) eqn:E.
  - destruct H as [-> | H].
    + apply isin_In in E. contradiction.
    + apply IH; assumption.
  - destruct H as [-> | H].
    + exists x. split; [left; reflexivity | reflexivity].
    + destruct (eqb (key a) (key x)) eqn:E2.
      * apply eqb_eq in E2. exists a. split; [left; reflexivity | exact E2].
      * destruct (IH (key a :: seen) H) as [y [Hy1 Hy2]].
        { simpl. intros [Heq | Hin]; [|contradiction].
          apply eqb_neq in E2. contradiction. }
        exists y. split; [right; exact Hy1 | exact Hy2].
Qed.

(** Every key of the frame is still there after [drop_duplicates]. *)
Lemma drop_duplicates_keeps_key (l : list A) (x : A) :
  In x l -> exists y, In y (drop_duplicates eqb key l) /\ key y = key x.
Proof. intros H. apply drop_duplicates_from_keeps_key; [exact H | intros []]. Qed.

(** The row that [drop_duplicates] keeps for a key is the first one: in a
    frame sorted by [R] it is below every row of its key. *)
Lemma drop_duplicates_from_first (R : A -> A -> Prop) (seen : list K) (l : list A) :
  (forall x, R x x) -> StronglySorted R l ->
  forall x y, In x (drop_duplicates_from eqb key seen l) ->
              In y l -> key y = key x -> R x y.
Proof.
  intros Rrefl. revert seen.
  induction l as [|a tl IH]; simpl; intros seen Hs x y Hx Hy Hk; [contradiction|].
  inversion Hs as [|? ? Hs' Hall]; subst.
  rewrite Forall_forall in Hall.
  destruct (isin eqb (key a) seen) eqn:E.
  - destruct Hy as [<- | Hy].
    + apply In_drop_duplicates_from in Hx. apply isin_In in E.
      rewrite Hk in E. tauto.
    + eapply IH; eauto.
  - destruct Hx as [<- | Hx].
    + destruct Hy as [<- | Hy]; [apply Rrefl | apply Hall; exact Hy].
    + destruct Hy as [<- | Hy].
      * apply In_drop_duplicates_from in Hx. simpl in Hx.
        destruct Hx as [_ Hn]. exfalso. apply Hn. left. exact Hk.
      * eapply IH; eauto.
Qed.

Lemma drop_duplicates_from_sorted (R : A -> A -> Prop) (seen : list K) (l : list A) :
  StronglySorted R l -> StronglySorted R (drop_duplicates_from eqb key seen l).
Proof.
  revert seen. induction l as [|a tl IH]; simpl; intros seen Hs; [constructor|].
  inversion Hs as [|? ? Hs' Hall]; subst.
  destruct (isin eqb (key a) seen); [apply IH; exact Hs'|].
  constructor; [apply IH; exact Hs'|].
  rewrite Forall_forall in *. intros y Hy.
  apply drop_duplicates_from_incl in Hy. apply Hall. exact Hy.
Qed.


Lemma filter_unique_key (l : list A) (s : A) :
  NoDup (map key l) -> In s l ->
  filter (fun x => eqb (key x) (key s)) l = [s].
Proof.
  induction l as [|a tl IH]; simpl; intros Hn Hs; [contradiction|].
  inversion Hn as [|? ? Hnot Hn']; subst.
  destruct Hs as [-> | Hs].
  - rewrite eqb_refl_of. f_equal.
    clear IH Hn Hn'. induction tl as [|b tl IH]; simpl; [reflexivity|].
    destruct (eqb (key b) (key s)) eqn:E.
    + apply eqb_eq in E. exfalso. apply Hnot. simpl. left. exact E.
    + apply IH. intros H. apply Hnot. simpl. right. exact H.
  - destruct (eqb (key a) (key s)) eqn:E.
    + apply eqb_eq in E. exfalso. apply Hnot. rewrite E. apply in_map. exact Hs.
    + apply IH; assumption.
Qed.

Lemma In_unique_from (seen l : list K) (k : K) :
  In k (unique_from eqb seen l) <-> In k l /\ ~ In k seen.
Proof.
  revert seen. induction l as [|a tl IH]; simpl; intros seen; [tauto|].
  destruct (isin eqb a seen) eqn:E.
  - rewrite IH. apply isin_In in E. split; [tauto|].
    intros [[<- | H] Hn]; [contradiction | tauto].
  - apply isin_not_In in E. simpl. rewrite IH. simpl. split.
    + intros [<- | [H Hn]]; [tauto | tauto].
    + intros [[<- | H] Hn]; [tauto|].
      destruct (eqb a k) eqn:E2.
      * apply eqb_eq in E2. tauto.
      * apply eqb_neq in E2. right. tauto.
Qed.


Lemma In_group_keys (l : list A) (k : K) :
  In k (group_keys eqb key l) <-> exists x, In x l /\ key x = k.
Proof.
  unfold group_keys. rewrite In_unique_from, in_map_iff. simpl.
  split; [intros [[x [H1 H2]] _]; eauto | intros [x [H1 H2]]; split; eauto].
Qed.

(** A group of [groupby] holds the rows of its key, and every key of the
    frame has its group. *)
Lemma In_groupby (l : list A) (k : K) (g : list A) :
  In (k, g) (groupby eqb key l) <->
  (exists x, In x l /\ key x = k) /\ g = filter (fun x => eqb (key x) k) l.
Proof.
  unfold groupby. rewrite in_map_iff. split.
  - intros [k' [Heq Hin]]. inversion Heq; subst.
    apply In_group_keys in Hin. split; [exact Hin | reflexivity].
  - intros [Hex ->]. exists k. split; [reflexivity | apply In_group_keys; exact Hex].
Qed.


Variable keyB : B -> K.

Lemma In_merge (l : list A) (r : list B) (a : A) (b : B) :
  In (a, b) (merge eqb key keyB l r) <->
  In a l /\ In b r /\ key a = keyB b.
Proof.
  unfold merge. rewrite in_flat_map. split.
  - intros [a' [Ha Hin]]. apply in_map_iff in Hin.
    destruct Hin as [b' [Heq Hb]]. inversion Heq; subst.
    apply filter_In in Hb. destruct Hb as [Hb He]. apply eqb_eq in He. auto.
  - intros [Ha [Hb He]]. exists a. split; [exact Ha|].
    apply in_map. apply filter_In. split; [exact Hb | apply eqb_eq; exact He].
Qed.

End FrameFacts.

Lemma filter_all {A : Type} (f : A -> bool) (l : list A) :
  (forall x, In x l -> f x = true) -> filter f l = l.
Proof.
  induction l as [|a tl IH]; simpl; intros H; [reflexivity|].
  rewrite (H a (or_introl eq_refl)). f_equal. apply IH. intros x Hx. apply H. right. exact Hx.
Qed.

Lemma filter_none {A : Type} (f : A -> bool) (l : list A) :
  (forall x, In x l -> f x = false) -> filter f l = [].
Proof.
  induction l as [|a tl IH]; simpl; intros H; [reflexivity|].
  rewrite (H a (or_introl eq_refl)). apply IH. intros x Hx. apply H. right. exact Hx.
Qed.

(** ** The order of the steps (Measurement.py) *)

Section ProtocolOrder.
Import Measurement.

(** The trace of the template does not depend on what the log held before:
    it appends the eight entries of the protocol. *)
Lemma collect_measurement_data_appends (t : Trace) :
  execState (collect_measurement_data template_class) t = t ++ protocol.
Proof.
  unfold collect_measurement_data, template_class, execState; simpl.
  repeat rewrite <- app_assoc. reflexivity.
Qed.

(** C9, as stated, fails: SDOH runs [_find_performance_met] before
    [_apply_time_constraint], and the second I-SERV sub-measure is run without
    [stratify_data]. *)
Lemma protocol_order_fails_for_SDOH_and_ISERV_sub_2 :
  trace_of SDOH <> protocol /\ trace_of ISERV_sub_2 <> protocol.
Proof. split; intros H; vm_compute in H; discriminate H. Qed.

(** C9, amended: DEP-REM, ASC sub-measure 1, CDF-CH and I-SERV sub-measure 1
    run exactly the protocol, each step once; SDOH runs it with the two steps
    of the numerator exchanged; I-SERV sub-measure 2 runs it with
    [_set_stratify] in the place of [stratify_data]; ASC sub-measure 2 enters
    the four public methods in the order of the protocol and its numerator
    runs [_apply_time_constraint] and then [_find_performance_met]. *)
Theorem protocol_order_of_the_submeasures :
  trace_of DepRem = protocol /\
  trace_of ASC_sub_1 = protocol /\
  trace_of CDF_CH = protocol /\
  trace_of ISERV_sub_1 = protocol /\
  trace_of SDOH =
    [get_denominator_; _get_populace_; _remove_exclusions_;
     get_numerator_; _find_performance_met_; _apply_time_constraint_;
     stratify_data_; return_final_data_] /\
  trace_of ISERV_sub_2 =
    [get_denominator_; _get_populace_; _remove_exclusions_;
     get_numerator_; _apply_time_constraint_; _find_performance_met_;
     _set_stratify_; return_final_data_] /\
  filter is_public (trace_of ASC_sub_2) =
    [get_denominator_; get_numerator_; stratify_data_; return_final_data_] /\
  steps_after is_get_numerator (trace_of ASC_sub_2) =
    [_apply_time_constraint_; _find_performance_met_].
Proof. repeat split; reflexivity. Qed.

(** ASC [_Sub_2.get_denominator] runs [_get_populace] a second time after
    [_remove_exclusions]. *)
Example ASC_sub_2_trace :
  trace_of ASC_sub_2 =
    [get_denominator_; _get_populace_; _remove_exclusions_; _get_populace_;
     get_numerator_; _apply_time_constraint_; _find_performance_met_;
     stratify_data_; return_final_data_].
Proof. reflexivity. Qed.

End ProtocolOrder.

(** ** ASC: the visit count filter *)

Section VisitCount.
Import ASC ASC._Sub_1.

Lemma multiple_visits_are_all_ids (populace : list Row) :
  map fst (size_at_least_2 populace) =
  group_keys Z_pair_eqb patient_measurement_year_id populace.
Proof.
  unfold size_at_least_2, groupby. rewrite !map_map. simpl. apply map_id.
Qed.

(** X7: The list [multiple_visits] holds the id of every row, whatever the size
    of its group, so [__number_of_visits_filter] removes nothing. *)
Lemma number_of_visits_filter_keeps_every_row (populace : list Row) :
  __number_of_visits_filter populace = populace.
Proof.
  unfold __number_of_visits_filter. apply filter_all. intros x Hx.
  apply (isin_In Z_pair_eqb Z_pair_eqb_eq). rewrite multiple_visits_are_all_ids.
  apply (In_group_keys Z_pair_eqb Z_pair_eqb_eq). exists x. split; [exact Hx | reflexivity].
Qed.

(** With a preventive visit in the database [_get_populace] raises. *)
Lemma preventive_visit_raises (db : Database) :
  preventive_encounters db <> [] -> _get_populace db = None.
Proof.
  unfold _get_populace, __get_preventive_visits, __get_preventive_visits_from_db.
  destruct (preventive_encounters db); [congruence | reflexivity].
Qed.

(** one visit of patient 100001 in 2024, at the age of 40 *)
Definition the_only_visit : Encounter :=
  mkEncounter 100001 (Some 40) 7001 (datetime 2024 3 4 9 0) 2024.

(** C7 on the code: a patient whose only visit of the year is not a
    preventive one stays in the populace, and when that one visit is a
    preventive one no populace is built at all. *)
Theorem single_visit_patient_in_ASC_populace :
  _get_populace (mkDatabase [the_only_visit] []) =
    Some [mkRow the_only_visit (100001, 2024)] /\
  _get_populace (mkDatabase [the_only_visit] [the_only_visit]) = None.
Proof. split; reflexivity. Qed.

End VisitCount.

(** ** The age filters *)

Section AgeBands.

(** On a positive number of days [//] cuts the quotient towards zero. *)
Lemma floordiv_365_25_truncates (days : Z) :
  0 <= days -> floordiv_365_25 days = Z.quot (4 * days) 1461.
Proof.
  intros H. unfold floordiv_365_25. symmetry. apply Z.quot_div_nonneg; lia.
Qed.

(** a call of 15 January 2024 by a patient born on 31 December 2012 *)
Definition call_of_an_eleven_year_old : I_SERV._Sub_1.Call :=
  I_SERV._Sub_1.mkCall 100001 1 (datetime 2024 1 15 9 0) (datetime 2012 12 31 0 0).

(** C8, as stated, fails: the age filter of I-SERV does not divide days by
    365.25.  The patient is eleven years old at the call by that rule, the
    code gives the age 12 and keeps the call. *)
Lemma ISERV_age_is_a_difference_of_years :
  let c := call_of_an_eleven_year_old in
  floordiv_365_25 (timedelta_days (I_SERV._Sub_1.StartDate c) (I_SERV._Sub_1.DOB c)) = 11 /\
  I_SERV._Sub_1.__calculate_age c = 12 /\
  I_SERV._Sub_1.__remove_age
    [I_SERV._Sub_1.mkRow c None None 2024 (100001, 2024) (I_SERV._Sub_1.__calculate_age c)]
  <> [].
Proof. repeat split; vm_compute; congruence. Qed.

(** C8, amended: CDF-CH, SDOH and the stratify table of DEP-REM take the age
    as the days between the date of birth and the visit, floor-divided by
    365.25 (the truncated quotient, the days being positive); I-SERV takes
    the year of the call minus the year of birth and ASC the year difference
    that its query returns.  Every filter keeps the boundary age: CDF-CH
    keeps the ages 12 to 17, SDOH and ASC the ages from 18, DEP-REM and
    I-SERV the ages from 12; one year less than the lower boundary is
    removed. *)
Theorem age_band_filters :
  (forall populace r,
      In r (CDF_CH._Sub_1.__remove_age_exclusion populace) <->
      exists r0, In r0 populace /\
        r = CDF_CH._Sub_1.mkAged r0
              (floordiv_365_25
                 (timedelta_days (CDF_CH._Sub_1.VisitDateTime (CDF_CH._Sub_1.encounter r0))
                                 (CDF_CH._Sub_1.DOB (CDF_CH._Sub_1.encounter r0)))) /\
        12 <= CDF_CH._Sub_1.age r <= 17) /\
  (forall populace r,
      In r (SDOH._Sub_1.__filter_age (SDOH._Sub_1.__calculate_age populace)) <->
      exists r0, In r0 populace /\
        r = SDOH._Sub_1.mkAged r0
              (floordiv_365_25
                 (timedelta_days (SDOH._Sub_1.VisitDateTime (SDOH._Sub_1.encounter r0))
                                 (SDOH._Sub_1.DOB (SDOH._Sub_1.encounter r0)))) /\
        18 <= SDOH._Sub_1.age r) /\
  (forall stratify s,
      In s (map fst (DEP_REM.__calculate_age stratify)) <->
      In s stratify /\
      12 <= floordiv_365_25 (timedelta_days (DEP_REM.st_Date s) (DEP_REM.st_DOB s))) /\
  (forall c, I_SERV._Sub_1.__calculate_age c =
             year (I_SERV._Sub_1.StartDate c) - year (I_SERV._Sub_1.DOB c)) /\
  (forall populace r,
      In r (I_SERV._Sub_1.__remove_age populace) <->
      In r populace /\ 12 <= I_SERV._Sub_1.age r) /\
  (forall populace r,
      In r (ASC._Sub_1.__remove_age_exclusions populace) <->
      In r populace /\
      exists a, ASC._Sub_1.Age (ASC._Sub_1.encounter r) = Some a /\ 18 <= a) /\
  (forall days, 0 <= days -> floordiv_365_25 days = Z.quot (4 * days) 1461).
Proof.
  repeat split.
  - unfold CDF_CH._Sub_1.__remove_age_exclusion, CDF_CH._Sub_1.__filter_age,
      CDF_CH._Sub_1.__calculate_age.
    intros H. apply filter_In in H. destruct H as [H Hb].
    apply in_map_iff in H. destruct H as [r0 [Hr H0]].
    exists r0. repeat split; auto; apply andb_true_iff in Hb; lia.
  - intros [r0 [H0 [Hr Hb]]].
    unfold CDF_CH._Sub_1.__remove_age_exclusion, CDF_CH._Sub_1.__filter_age,
      CDF_CH._Sub_1.__calculate_age.
    apply filter_In. split.
    + apply in_map_iff. exists r0. split; [symmetry; exact Hr | exact H0].
    + apply andb_true_iff; lia.
  - unfold SDOH._Sub_1.__filter_age, SDOH._Sub_1.__calculate_age.
    intros H. apply filter_In in H. destruct H as [H Hb].
    apply in_map_iff in H. destruct H as [r0 [Hr H0]].
    exists r0. repeat split; auto; lia.
  - intros [r0 [H0 [Hr Hb]]].
    unfold SDOH._Sub_1.__filter_age, SDOH._Sub_1.__calculate_age.
    apply filter_In. split.
    + apply in_map_iff. exists r0. split; [symmetry; exact Hr | exact H0].
    + lia.
  - apply in_map_iff in H. destruct H as [[s' lbl] [Hs H]]. simpl in Hs. subst s'.
    unfold DEP_REM.__calculate_age in H. apply in_map_iff in H.
    destruct H as [[s' a] [Heq H]]. simpl in Heq. inversion Heq; subst s'.
    apply filter_In in H. destruct H as [H _]. apply in_map_iff in H.
    destruct H as [s0 [Heq0 H]]. inversion Heq0; subst. exact H.
  - apply in_map_iff in H. destruct H as [[s' lbl] [Hs H]]. simpl in Hs. subst s'.
    unfold DEP_REM.__calculate_age in H. apply in_map_iff in H.
    destruct H as [[s' a] [Heq H]]. simpl in Heq. inversion Heq; subst s'.
    apply filter_In in H. destruct H as [H Hb]. apply in_map_iff in H.
    destruct H as [s0 [Heq0 H]]. inversion Heq0; subst. simpl in Hb.
    unfold DEP_REM.age_at_visit in Hb. lia.
  - intros [H Hb]. apply in_map_iff.
    exists (s, if 18 <=? DEP_REM.age_at_visit s then "18+"%string else "12-18"%string).
    split; [reflexivity|]. unfold DEP_REM.__calculate_age.
    apply in_map_iff. exists (s, DEP_REM.age_at_visit s). split; [reflexivity|].
    apply filter_In. split.
    + apply in_map_iff. exists s. split; [reflexivity | exact H].
    + simpl. unfold DEP_REM.age_at_visit. lia.
  - unfold I_SERV._Sub_1.__remove_age in H. apply filter_In in H. tauto.
  - unfold I_SERV._Sub_1.__remove_age in H. apply filter_In in H. lia.
  - intros [H Hb]. apply filter_In. split; [exact H | lia].
  - unfold ASC._Sub_1.__remove_age_exclusions in H. apply filter_In in H. tauto.
  - unfold ASC._Sub_1.__remove_age_exclusions in H. apply filter_In in H.
    destruct H as [_ H]. destruct (ASC._Sub_1.Age (ASC._Sub_1.encounter r)) as [a|];
      simpl in H; [|discriminate]. exists a. split; [reflexivity | lia].
  - intros [H [a [Ha Hb]]]. apply filter_In. split; [exact H|].
    rewrite Ha. simpl. lia.
  - apply floordiv_365_25_truncates.
Qed.

End AgeBands.

(** ** Sorting and left joins *)

Section SortFacts.
Variable A : Type.
Variable leb : A -> A -> bool.

Lemma In_insert_sorted (x y : A) (l : list A) :
  In y (insert_sorted leb x l) <-> y = x \/ In y l.
Proof.
  induction l as [|a tl IH]; simpl; [intuition congruence|].
  destruct (leb x a); simpl; [intuition congruence|].
  rewrite IH. intuition congruence.
Qed.

(** [sort_values] keeps the rows of the frame. *)
Lemma In_sort_values (y : A) (l : list A) :
  In y (sort_values leb l) <-> In y l.
Proof.
  induction l as [|a tl IH]; simpl; [tauto|].
  rewrite In_insert_sorted, IH. intuition congruence.
Qed.

Hypothesis leb_total : forall x y, leb x y = true \/ leb y x = true.
Hypothesis leb_trans : forall x y z, leb x y = true -> leb y z = true -> leb x z = true.

Lemma insert_sorted_sorted (x : A) (l : list A) :
  StronglySorted (fun a b => leb a b = true) l ->
  StronglySorted (fun a b => leb a b = true) (insert_sorted leb x l).
Proof.
  induction l as [|a tl IH]; simpl; intros Hs.
  - constructor; [constructor | constructor].
  - inversion Hs as [|? ? Hs' Hall]; subst.
    destruct (leb x a) eqn:E.
    + constructor; [exact Hs|]. constructor; [exact E|].
      rewrite Forall_forall in *. intros y Hy. eapply leb_trans; eauto.
    + constructor; [apply IH; exact Hs'|].
      rewrite Forall_forall in *. intros y Hy.
      apply In_insert_sorted in Hy. destruct Hy as [-> | Hy]; [|auto].
      destruct (leb_total x a) as [H | H]; congruence.
Qed.

(** [sort_values] returns the rows in ascending order. *)
Lemma sort_values_sorted (l : list A) :
  StronglySorted (fun a b => leb a b = true) (sort_values leb l).
Proof.
  induction l as [|a tl IH]; simpl; [constructor|].
  apply insert_sorted_sorted. exact IH.
Qed.

End SortFacts.

Section LeftJoin.
Variables A B K : Type.
Variable eqb : K -> K -> bool.
Hypothesis eqb_eq : forall x y, eqb x y = true <-> x = y.
Variable keyA : A -> K.
Variable keyB : B -> K.

(** A row of a left join is a row of the left frame with one of its matches,
    or with nothing when it has no match. *)
Lemma In_merge_left (l : list A) (r : list B) (a : A) (ob : option B) :
  In (a, ob) (merge_left eqb keyA keyB l r) <->
  In a l /\
  match ob with
  | Some b => In b r /\ keyA a = keyB b
  | None => forall b, In b r -> keyA a <> keyB b
  end.
Proof.
  unfold merge_left. rewrite in_flat_map. split.
  - intros [a' [Ha Hin]].
    destruct (filter (fun b => eqb (keyA a') (keyB b)) r) as [|m ms] eqn:E.
    + destruct Hin as [Heq | []]. inversion Heq; subst. split; [exact Ha|].
      intros b Hb Hk.
      assert (Hf : In b (filter (fun b => eqb (keyA a) (keyB b)) r)).
      { apply filter_In. split; [exact Hb | apply eqb_eq; exact Hk]. }
      rewrite E in Hf. exact Hf.
    + apply in_map_iff in Hin. destruct Hin as [b [Heq Hb]]. inversion Heq; subst.
      rewrite <- E in Hb. apply filter_In in Hb. destruct Hb as [Hb He].
      apply eqb_eq in He. auto.
  - intros [Ha Hob]. exists a. split; [exact Ha|].
    destruct ob as [b|].
    + destruct Hob as [Hb Hk].
      assert (Hf : In b (filter (fun b => eqb (keyA a) (keyB b)) r)).
      { apply filter_In. split; [exact Hb | apply eqb_eq; exact Hk]. }
      destruct (filter (fun b => eqb (keyA a) (keyB b)) r) as [|m ms] eqn:E;
        [destruct Hf|].
      apply (in_map (fun b => (a, Some b))). exact Hf.
    + rewrite (filter_none (fun b => eqb (keyA a) (keyB b)) r).
      * left; reflexivity.
      * intros b Hb. destruct (eqb (keyA a) (keyB b)) eqn:E; [|reflexivity].
        apply eqb_eq in E. exfalso. exact (Hob b Hb E).
Qed.

End LeftJoin.

(** ** I-SERV: business days from the call *)

Section BusinessDays.
Import I_SERV I_SERV._Sub_1.

(** An evaluation in the measurement year keeps its date. *)
Lemma late_penalty_within_year (measurement_year : Z) (d : Timestamp) :
  year d = measurement_year -> late_penalty measurement_year (Some d) = Some d.
Proof. intros H. unfold late_penalty. rewrite H, Z.eqb_refl. reflexivity. Qed.

(** An evaluation in another year is moved 31 business days after its own
    date. *)
Lemma late_penalty_outside_year (measurement_year : Z) (d : Timestamp) :
  year d <> measurement_year ->
  late_penalty measurement_year (Some d) = Some (add_bdays 31 d).
Proof.
  intros H. unfold late_penalty.
  destruct (year d =? measurement_year) eqn:E; [apply Z.eqb_eq in E; contradiction|].
  reflexivity.
Qed.

(** A call on Monday 8 January 2024 with the evaluation on the Tuesday counts
    one business day. *)
Example call_on_monday_evaluation_on_tuesday :
  final_cohort
    (mkDatabase [mkCall 100001 1 (datetime 2024 1 8 9 0) (datetime 1990 5 1 0 0)]
                [mkEval 100001 (datetime 2024 1 9 10 0) 501] []) =
  Some [mkCohortRow 100001 (100001, 2024) 1 (Some 501) 1].
Proof. vm_compute. reflexivity. Qed.

(** 31 business days counted from the call itself would give the numerator
    31. *)
Example penalty_counted_from_the_call :
  business_days_from_call (datetime 2024 11 25 9 0)
                          (add_bdays 31 (datetime 2024 11 25 9 0)) = 31.
Proof. vm_compute. reflexivity. Qed.

(** a call on Monday 25 November 2024 and the evaluation on [eval_day]
    January 2025 *)
Definition late_evaluation (eval_day : Z) : Database :=
  mkDatabase [mkCall 100001 1 (datetime 2024 11 25 9 0) (datetime 1990 5 1 0 0)]
             [mkEval 100001 (datetime 2025 1 eval_day 10 0) 501] [].

(** C2 on the code: the evaluation of Thursday 2 January 2025 is 28 business
    days after the call; the numerator is 59, that is 31 business days after
    the evaluation, and with the evaluation a week later it is 64. *)
Theorem ISERV_late_evaluation_numerator :
  final_cohort (late_evaluation 2) =
    Some [mkCohortRow 100001 (100001, 2024) 1 (Some 501) 59] /\
  business_days_from_call (datetime 2024 11 25 9 0) (datetime 2025 1 2 10 0) = 28 /\
  final_cohort (late_evaluation 9) =
    Some [mkCohortRow 100001 (100001, 2024) 1 (Some 501) 64].
Proof. repeat split; vm_compute; reflexivity. Qed.

(** The second sub-measure moves a late service in the same way. *)
Example ISERV_late_service_numerator :
  _Sub_2.__calculate_days_from_call
    (_Sub_2._apply_time_constraint
       [_Sub_2.mkRow 100001 (100001, 2024) 1 (datetime 2024 11 25 9 0)
                     (Some (datetime 2025 1 2 10 0)) (Some 601) 2024]) =
  [(_Sub_2.mkRow 100001 (100001, 2024) 1 (datetime 2024 11 25 9 0)
                 (Some (datetime 2025 2 14 10 0)) (Some 601) 2024, 59)].
Proof. vm_compute. reflexivity. Qed.

End BusinessDays.

(** ** CDF-CH: members without a screening *)

Section NegativeScreening.
Import CDF_CH CDF_CH._Sub_1.






(** a thirteen-year-old with one visit in 2024 and no screening on file *)
Definition unscreened_db : Database :=
  mkDatabase [mkEncounter 100001 9001 (datetime 2024 3 4 9 0) (datetime 2011 1 10 0 0)]
             [] [] [].



Example unscreened_member_cohort :
  final_cohort unscreened_db =
  [mkCohortRow (100001, 2024) 100001 9001 None None true
               (Some "Negative screening"%string)].
Proof. vm_compute. reflexivity. Qed.

End NegativeScreening.

(** ** DEP-REM: index events and their groups *)

Section IndexEvents.
Import DEP_REM.

Lemma filter_sorted {A : Type} (R : A -> A -> Prop) (f : A -> bool) (l : list A) :
  StronglySorted R l -> StronglySorted R (filter f l).
Proof.
  induction l as [|a tl IH]; simpl; intros Hs; [constructor|].
  inversion Hs as [|? ? Hs' Hall]; subst.
  destruct (f a); [|apply IH; exact Hs'].
  constructor; [apply IH; exact Hs'|].
  rewrite Forall_forall in *. intros y Hy. apply filter_In in Hy. apply Hall. tauto.
Qed.

Lemma iloc_last_In {A : Type} (l : list A) (x : A) :
  iloc_last l = Some x -> In x l.
Proof.
  induction l as [|a tl IH]; simpl; [discriminate|].
  destruct tl as [|b tl'].
  - intros H. inversion H. left; reflexivity.
  - intros H. right. apply IH. exact H.
Qed.

Lemma iloc_last_None {A : Type} (l : list A) : iloc_last l = None -> l = [].
Proof.
  induction l as [|a tl IH]; simpl; [reflexivity|].
  destruct tl as [|b tl']; [discriminate|].
  intros H. apply IH in H. discriminate.
Qed.

(** The last row of a sorted frame is above every row. *)
Lemma iloc_last_greatest {A : Type} (R : A -> A -> Prop) (l : list A) (x : A) :
  (forall a, R a a) -> StronglySorted R l -> iloc_last l = Some x ->
  forall y, In y l -> R y x.
Proof.
  intros Rrefl. induction l as [|a tl IH]; simpl; intros Hs Hl y Hy; [contradiction|].
  inversion Hs as [|? ? Hs' Hall]; subst. rewrite Forall_forall in Hall.
  destruct tl as [|b tl'].
  - inversion Hl; subst. destruct Hy as [<- | []]. apply Rrefl.
  - destruct Hy as [<- | Hy].
    + apply Hall. apply iloc_last_In. exact Hl.
    + apply IH; assumption.
Qed.

Definition by_date (a b : IndexVisit) : Prop := (iv_Date a <=? iv_Date b) = true.

Lemma In_initilize_populace (db : Database) (v : Visit) :
  In v (__initilize_populace db) <-> In v (phq_scores db).
Proof. unfold __initilize_populace. apply In_sort_values. Qed.

Lemma index_visits_sorted (populace : list Visit) :
  StronglySorted by_date (__get_index_visits populace).
Proof.
  unfold __get_index_visits, drop_duplicates. apply drop_duplicates_from_sorted.
  apply sort_values_sorted.
  - intros x y. rewrite !Z.leb_le. lia.
  - intros x y z. rewrite !Z.leb_le. lia.
Qed.

Lemma index_visits_NoDup (populace : list Visit) :
  NoDup (map iv_patient_measurement_year_id (__get_index_visits populace)).
Proof.
  unfold __get_index_visits. apply (drop_duplicates_NoDup Z_pair_eqb Z_pair_eqb_eq).
Qed.

Definition index_visit_of (v : Visit) : IndexVisit :=
  mkIndexVisit (PatientId v) (PatientId v, year (Date v)) (EncounterID v)
               (year (Date v)) (Date v).

(** the frame of the elevated scores, before one is kept per patient and
    year *)
Definition elevated (populace : list Visit) : list IndexVisit :=
  sort_values (fun a b => iv_Date a <=? iv_Date b)
              (map index_visit_of (filter (fun v => lt_nan (Some 9) (Score v)) populace)).

Lemma In_elevated (populace : list Visit) (iv : IndexVisit) :
  In iv (elevated populace) <->
  exists v, In v populace /\ lt_nan (Some 9) (Score v) = true /\ iv = index_visit_of v.
Proof.
  unfold elevated. rewrite In_sort_values, in_map_iff. split.
  - intros [v [Hiv Hv]]. apply filter_In in Hv. exists v. intuition.
  - intros [v [Hv [Hs Hiv]]]. exists v. split; [auto | apply filter_In; auto].
Qed.

Lemma elevated_sorted (populace : list Visit) : StronglySorted by_date (elevated populace).
Proof.
  unfold elevated. apply sort_values_sorted.
  - intros x y. rewrite !Z.leb_le. lia.
  - intros x y z. rewrite !Z.leb_le. lia.
Qed.

Lemma get_index_visits_elevated (populace : list Visit) :
  __get_index_visits populace =
  drop_duplicates Z_pair_eqb iv_patient_measurement_year_id (elevated populace).
Proof. reflexivity. Qed.

(** An index visit is an encounter with a score above 9, and no encounter
    of the same patient in the same year with such a score is earlier. *)
Lemma index_visit_is_first (populace : list Visit) (iv : IndexVisit) :
  In iv (__get_index_visits populace) ->
  exists v, In v populace /\ lt_nan (Some 9) (Score v) = true /\ iv = index_visit_of v /\
    forall v', In v' populace -> lt_nan (Some 9) (Score v') = true ->
      PatientId v' = PatientId v -> year (Date v') = year (Date v) ->
      Date v <= Date v'.
Proof.
  intros Hiv. rewrite get_index_visits_elevated in Hiv.
  pose proof (In_drop_duplicates _ _ _ _ Hiv) as Hel.
  apply In_elevated in Hel. destruct Hel as [v [Hv [Hs Heq]]].
  exists v. repeat split; auto.
  intros v' Hv' Hs' Hp Hy.
  assert (Hin' : In (index_visit_of v') (elevated populace)).
  { apply In_elevated. exists v'. auto. }
  pose proof (drop_duplicates_from_first Z_pair_eqb Z_pair_eqb_eq
                iv_patient_measurement_year_id (R := by_date) [] (l := elevated populace)) as Hfirst.
  assert (Hr : by_date iv (index_visit_of v')).
  { apply Hfirst; auto.
    - intros x. unfold by_date. apply Z.leb_refl.
    - apply elevated_sorted.
    - subst iv. simpl. rewrite Hp, Hy. reflexivity. }
  unfold by_date in Hr. subst iv. simpl in Hr. apply Z.leb_le in Hr. exact Hr.
Qed.

(** Every patient and year with a score above 9 has its index visit. *)
Lemma index_visit_exists (populace : list Visit) (v : Visit) :
  In v populace -> lt_nan (Some 9) (Score v) = true ->
  exists iv, In iv (__get_index_visits populace) /\
             iv_patient_measurement_year_id iv = (PatientId v, year (Date v)).
Proof.
  intros Hv Hs. rewrite get_index_visits_elevated.
  apply (drop_duplicates_keeps_key Z_pair_eqb Z_pair_eqb_eq iv_patient_measurement_year_id
           (elevated populace) (index_visit_of v)).
  apply In_elevated. exists v. auto.
Qed.

(** the index visits of the patient of [v] that are not after its date *)
Definition selected_index_visits (v : Visit) (index_visits : list IndexVisit)
  : list IndexVisit :=
  filter (fun iv => to_date (iv_Date iv) <=? to_date (Date v))
         (filter (fun iv => iv_PatientId iv =? PatientId v) index_visits).

Lemma create_id_eq (v : Visit) (index_visits : list IndexVisit) :
  __create_patient_measurement_year_id v index_visits =
  match iloc_last (selected_index_visits v index_visits) with
  | Some iv => Some ((PatientId v, year (iv_Date iv)), iv_EncounterID iv)
  | None => None
  end.
Proof.
  unfold __create_patient_measurement_year_id, selected_index_visits.
  destruct (filter (fun iv => iv_PatientId iv =? PatientId v) index_visits);
    reflexivity.
Qed.

Lemma In_selected_index_visits (v : Visit) (index_visits : list IndexVisit)
    (iv : IndexVisit) :
  In iv (selected_index_visits v index_visits) <->
  In iv index_visits /\ iv_PatientId iv = PatientId v /\
  to_date (iv_Date iv) <= to_date (Date v).
Proof.
  unfold selected_index_visits. rewrite !filter_In, Z.eqb_eq, Z.leb_le. tauto.
Qed.

(** What [__create_patient_measurement_year_id] returns for a visit: the
    last index visit of the patient that is not after the date of the
    visit. *)
Lemma create_id_Some (v : Visit) (index_visits : list IndexVisit) (uid : PMY) (ieid : Z) :
  StronglySorted by_date index_visits ->
  __create_patient_measurement_year_id v index_visits = Some (uid, ieid) ->
  exists iv, In iv index_visits /\ iv_PatientId iv = PatientId v /\
    to_date (iv_Date iv) <= to_date (Date v) /\
    uid = (PatientId v, year (iv_Date iv)) /\ ieid = iv_EncounterID iv /\
    forall iv', In iv' index_visits -> iv_PatientId iv' = PatientId v ->
      to_date (iv_Date iv') <= to_date (Date v) -> iv_Date iv' <= iv_Date iv.
Proof.
  intros Hsorted. rewrite create_id_eq.
  destruct (iloc_last (selected_index_visits v index_visits)) as [iv|] eqn:El;
    [|discriminate].
  intros H. inversion H; subst uid ieid. clear H.
  pose proof (iloc_last_In _ El) as Hin.
  apply In_selected_index_visits in Hin. destruct Hin as [Hin [Hpid Hdate]].
  exists iv. repeat split; auto.
  intros iv' Hin' Hpid' Hdate'.
  assert (Hs : StronglySorted by_date (selected_index_visits v index_visits)).
  { unfold selected_index_visits. apply filter_sorted. apply filter_sorted. exact Hsorted. }
  assert (Hr : by_date iv' iv).
  { apply (iloc_last_greatest (R := by_date) (l := selected_index_visits v index_visits));
      auto.
    - intros a. unfold by_date. apply Z.leb_refl.
    - apply In_selected_index_visits. auto. }
  unfold by_date in Hr. apply Z.leb_le in Hr. exact Hr.
Qed.

(** ['No Group'] is returned exactly when every index visit of the patient
    is after the date of the visit (or the patient has none). *)
Lemma create_id_None (v : Visit) (index_visits : list IndexVisit) :
  __create_patient_measurement_year_id v index_visits = None <->
  forall iv, In iv index_visits -> iv_PatientId iv = PatientId v ->
             to_date (Date v) < to_date (iv_Date iv).
Proof.
  rewrite create_id_eq. split.
  - intros H iv Hin Hpid.
    destruct (Z.lt_ge_cases (to_date (Date v)) (to_date (iv_Date iv))) as [Hlt | Hge];
      [exact Hlt|].
    exfalso.
    assert (Hs : In iv (selected_index_visits v index_visits)).
    { apply In_selected_index_visits. auto. }
    destruct (iloc_last (selected_index_visits v index_visits)) as [x|] eqn:El;
      [discriminate|].
    apply iloc_last_None in El. rewrite El in Hs. destruct Hs.
  - intros H.
    assert (Hempty : selected_index_visits v index_visits = []).
    { destruct (selected_index_visits v index_visits) as [|x xs] eqn:E; [reflexivity|].
      assert (Hx : In x (selected_index_visits v index_visits))
        by (rewrite E; left; reflexivity).
      apply In_selected_index_visits in Hx. destruct Hx as [H1 [H2 H3]].
      specialize (H x H1 H2). lia. }
    rewrite Hempty. reflexivity.
Qed.

Lemma In_set_index_groups (populace : list Visit) (index_visits : list IndexVisit)
    (populace' : list Encounter) (e : Encounter) :
  __set_index_groups populace index_visits = Some populace' ->
  (In e populace' <->
   In (visit e) populace /\
   __create_patient_measurement_year_id (visit e) index_visits =
     Some (patient_measurement_year_id e, index_encounter_id e)).
Proof.
  unfold __set_index_groups.
  destruct (forallb _ _); [discriminate|]. intros H. inversion H; subst populace'. clear H.
  rewrite in_flat_map. split.
  - intros [r [Hr He]]. apply in_map_iff in Hr. destruct Hr as [v [Hrv Hv]].
    subst r. simpl in He.
    destruct (__create_patient_measurement_year_id v index_visits) as [[uid ieid]|] eqn:Ec;
      [|destruct He].
    destruct He as [He | []]. subst e. simpl. auto.
  - intros [Hv Hc].
    exists (visit e, __create_patient_measurement_year_id (visit e) index_visits).
    split.
    + apply (in_map (fun v => (v, __create_patient_measurement_year_id v index_visits))).
      exact Hv.
    + simpl. rewrite Hc. left. destruct e; reflexivity.
Qed.

(** [__set_index_groups] returns a populace as soon as one visit has its
    index visit. *)
Lemma set_index_groups_returns (populace : list Visit) (index_visits : list IndexVisit)
    (v : Visit) :
  In v populace -> __create_patient_measurement_year_id v index_visits <> None ->
  exists populace', __set_index_groups populace index_visits = Some populace'.
Proof.
  intros Hv Hc. unfold __set_index_groups.
  destruct (forallb _ _) eqn:E; [|eexists; reflexivity].
  exfalso. rewrite forallb_forall in E.
  apply (in_map (fun v => (v, __create_patient_measurement_year_id v index_visits))) in Hv.
  apply E in Hv. cbn [snd] in Hv.
  destruct (__create_patient_measurement_year_id v index_visits); [discriminate Hv|].
  apply Hc. reflexivity.
Qed.

End IndexEvents.

Section IndexEventChaining.
Import DEP_REM.

(** C5: the index events are, for each patient and year, the earliest
    encounter with a score above 9, one per patient and year; an encounter
    that is kept belongs to the latest index event of its patient that is not
    after its date; an encounter with such an index event is kept, and an
    encounter whose patient has every index event after its date (or none)
    is in no row of the populace.  The populace is returned as soon as one
    score is above 9. *)
Theorem index_events_and_their_groups (db : Database) :
  let populace := __initilize_populace db in
  let index_visits := __get_index_visits populace in
  (forall iv, In iv index_visits ->
     exists v, In v (phq_scores db) /\ lt_nan (Some 9) (Score v) = true /\
       iv = index_visit_of v /\
       forall v', In v' (phq_scores db) -> lt_nan (Some 9) (Score v') = true ->
         PatientId v' = PatientId v -> year (Date v') = year (Date v) ->
         Date v <= Date v') /\
  (forall v, In v (phq_scores db) -> lt_nan (Some 9) (Score v) = true ->
     exists iv, In iv index_visits /\
                iv_patient_measurement_year_id iv = (PatientId v, year (Date v))) /\
  NoDup (map iv_patient_measurement_year_id index_visits) /\
  ((exists v, In v (phq_scores db) /\ lt_nan (Some 9) (Score v) = true) ->
   exists populace', __set_index_groups populace index_visits = Some populace') /\
  forall populace', __set_index_groups populace index_visits = Some populace' ->
    (forall e, In e populace' ->
       In (visit e) (phq_scores db) /\
       exists iv, In iv index_visits /\ iv_PatientId iv = PatientId (visit e) /\
         to_date (iv_Date iv) <= to_date (Date (visit e)) /\
         index_encounter_id e = iv_EncounterID iv /\
         patient_measurement_year_id e = iv_patient_measurement_year_id iv /\
         forall iv', In iv' index_visits -> iv_PatientId iv' = PatientId (visit e) ->
           to_date (iv_Date iv') <= to_date (Date (visit e)) ->
           iv_Date iv' <= iv_Date iv) /\
    (forall v, In v (phq_scores db) ->
       (exists iv, In iv index_visits /\ iv_PatientId iv = PatientId v /\
                   to_date (iv_Date iv) <= to_date (Date v)) ->
       exists e, In e populace' /\ visit e = v) /\
    (forall v, In v (phq_scores db) ->
       (forall iv, In iv index_visits -> iv_PatientId iv = PatientId v ->
                   to_date (Date v) < to_date (iv_Date iv)) ->
       forall e, In e populace' -> visit e <> v).
Proof.
  intros populace index_visits.
  assert (Hpop : forall v, In v populace <-> In v (phq_scores db)).
  { intros v. apply In_initilize_populace. }
  split; [|split; [|split; [|split]]].
  - intros iv Hiv. apply index_visit_is_first in Hiv.
    destruct Hiv as [v [Hv [Hs [Heq Hfirst]]]].
    exists v. split; [apply Hpop; exact Hv|]. split; [exact Hs|]. split; [exact Heq|].
    intros v' Hv'. apply Hfirst. apply Hpop. exact Hv'.
  - intros v Hv Hs. apply index_visit_exists; [apply Hpop; exact Hv | exact Hs].
  - apply index_visits_NoDup.
  - intros [v [Hv Hs]].
    apply (@set_index_groups_returns populace index_visits v).
    + apply Hpop. exact Hv.
    + intros Hnone.
      destruct (@index_visit_exists populace v (proj2 (Hpop v) Hv) Hs) as [iv [Hiv Hk]].
      destruct (@index_visit_is_first populace iv Hiv) as [v1 [Hv1 [Hs1 [Heq1 Hfirst]]]].
      assert (Hkey : (PatientId v1, year (Date v1)) = (PatientId v, year (Date v))).
      { rewrite <- Hk, Heq1. reflexivity. }
      inversion Hkey as [[Hp Hy]].
      assert (Hd : Date v1 <= Date v).
      { apply Hfirst; [apply Hpop; exact Hv | exact Hs | congruence | congruence]. }
      assert (Hlt : to_date (Date v) < to_date (iv_Date iv)).
      { apply (proj1 (@create_id_None v index_visits) Hnone iv Hiv).
        rewrite Heq1. exact Hp. }
      rewrite Heq1 in Hlt. cbn [iv_Date index_visit_of] in Hlt.
      unfold to_date, seconds_per_day in Hlt.
      assert (Hmono : Date v1 / 86400 <= Date v / 86400)
        by (apply Z.div_le_mono; lia).
      lia.
  - intros populace' Hset. split; [|split].
    + intros e He. apply (@In_set_index_groups _ _ _ e Hset) in He.
      destruct He as [Hv Hc]. split; [apply Hpop; exact Hv|].
      apply create_id_Some in Hc; [|apply index_visits_sorted].
      destruct Hc as [iv [Hiv [Hpid [Hdate [Huid [Hieid Hlast]]]]]].
      exists iv. split; [exact Hiv|]. split; [exact Hpid|]. split; [exact Hdate|].
      split; [exact Hieid|]. split; [|exact Hlast].
      rewrite Huid.
      destruct (@index_visit_is_first populace iv Hiv) as [v0 [_ [_ [Heq _]]]].
      subst iv. simpl in *. rewrite Hpid. reflexivity.
    + intros v Hv [iv [Hiv [Hpid Hdate]]].
      destruct (__create_patient_measurement_year_id v index_visits) as [[uid ieid]|] eqn:Ec.
      * exists (mkEncounter v uid ieid). split; [|reflexivity].
        apply (@In_set_index_groups _ _ _ (mkEncounter v uid ieid) Hset). simpl.
        split; [apply Hpop; exact Hv | exact Ec].
      * exfalso. pose proof (proj1 (@create_id_None v index_visits) Ec iv Hiv Hpid). lia.
    + intros v Hv Hafter e He Heq.
      apply (@In_set_index_groups _ _ _ e Hset) in He. destruct He as [_ Hc].
      rewrite Heq in Hc. apply create_id_None in Hafter. congruence.
Qed.

(** two encounters of patient 100001 before the first score above 9, the
    index event of 2024, a later encounter, the index event of 2025; patient
    100002 has no score above 9 *)
Definition chained_db : Database :=
  mkDatabase
    [ mkVisit 100001 (datetime 1990 5 1 0 0) 11 (datetime 2024 2 1 9 0) (Some 3);
      mkVisit 100001 (datetime 1990 5 1 0 0) 12 (datetime 2024 3 4 15 0) (Some 12);
      mkVisit 100001 (datetime 1990 5 1 0 0) 13 (datetime 2024 9 10 10 0) (Some 14);
      mkVisit 100001 (datetime 1990 5 1 0 0) 14 (datetime 2025 1 10 10 0) (Some 4);
      mkVisit 100001 (datetime 1990 5 1 0 0) 15 (datetime 2025 2 10 10 0) (Some 11);
      mkVisit 100002 (datetime 1990 5 1 0 0) 21 (datetime 2024 2 1 10 0) (Some 8) ]
    [] [] [] (datetime 2026 1 1 0 0).

Example chained_index_groups :
  option_map (map (fun e => (EncounterID (visit e), patient_measurement_year_id e,
                             index_encounter_id e)))
             (_get_populace chained_db
                >>= fun p => ret (snd p)) =
  Some [ (12, (100001, 2024), 12); (13, (100001, 2024), 12);
         (14, (100001, 2024), 12); (15, (100001, 2025), 15) ].
Proof. vm_compute. reflexivity. Qed.

End IndexEventChaining.

(** ** DEP-REM: the remission window *)

Section RemissionWindow.
Import DEP_REM.

(** the rows of one index group, in the order of the populace *)
Definition group_of (k : PMY) (populace : list Encounter) : list Encounter :=
  filter (fun x => Z_pair_eqb (patient_measurement_year_id x) k) populace.

Lemma In_group_of (k : PMY) (populace : list Encounter) (e : Encounter) :
  In e (group_of k populace) <-> In e populace /\ patient_measurement_year_id e = k.
Proof. unfold group_of. rewrite filter_In, Z_pair_eqb_eq. tauto. Qed.

(** the first row of a frame, then its rows that [f] of the first row
    accepts *)
Lemma In_first_and_filter {A : Type} (f : A -> A -> bool) (rows : list A) (e : A) :
  In e (match rows with
        | [] => []
        | first :: _ => first :: filter (f first) rows
        end) <->
  exists first, hd_error rows = Some first /\
                (e = first \/ (In e rows /\ f first e = true)).
Proof.
  destruct rows as [|a tl].
  - split; [intros [] | intros [first [H _]]; discriminate H].
  - cbn [hd_error]. split.
    + intros [<- | He].
      * exists a. split; [reflexivity | left; reflexivity].
      * apply filter_In in He. exists a. split; [reflexivity | right; exact He].
    + intros [first [Hf He]]. inversion Hf; subst first.
      destruct He as [-> | He]; [left; reflexivity|].
      right. apply filter_In. exact He.
Qed.

Lemma In_time_constraint_of_group (rows : list Encounter) (e : Encounter) :
  In e (time_constraint_of_group rows) <->
  exists first, hd_error rows = Some first /\
                (e = first \/
                 (In e rows /\ in_remission_range (Date (visit first)) e = true)).
Proof.
  unfold time_constraint_of_group.
  apply (In_first_and_filter (fun first => in_remission_range (Date (visit first)))).
Qed.

(** What [_apply_time_constraint] leaves of a group: its first row, and its
    rows inside the range that is counted from the date of that first row. *)
Lemma In_apply_time_constraint (populace : list Encounter) (e : Encounter) :
  In e (_apply_time_constraint populace) <->
  exists first,
    hd_error (group_of (patient_measurement_year_id e) populace) = Some first /\
    (e = first \/
     (In e populace /\ in_remission_range (Date (visit first)) e = true)).
Proof.
  unfold _apply_time_constraint. rewrite in_flat_map. split.
  - intros [[k rows] [Hg He]]. cbn [snd] in He.
    apply (In_groupby Z_pair_eqb Z_pair_eqb_eq) in Hg. destruct Hg as [_ Hrows].
    fold (group_of k populace) in Hrows. subst rows.
    apply In_time_constraint_of_group in He. destruct He as [first [Hhd He]].
    assert (Hfirst : In first (group_of k populace)).
    { destruct (group_of k populace) as [|f tl]; [discriminate Hhd|].
      inversion Hhd. left; reflexivity. }
    assert (Hk : patient_measurement_year_id e = k).
    { destruct He as [-> | [He _]]; [apply In_group_of in Hfirst | apply In_group_of in He];
        tauto. }
    exists first. rewrite Hk. split; [exact Hhd|].
    destruct He as [He | [He Hr]]; [left; exact He|].
    right. apply In_group_of in He. tauto.
  - intros [first [Hhd He]].
    set (k := patient_measurement_year_id e) in *.
    assert (Hfirst : In first (group_of k populace)).
    { destruct (group_of k populace) as [|f tl]; [discriminate Hhd|].
      inversion Hhd. left; reflexivity. }
    apply In_group_of in Hfirst. destruct Hfirst as [Hfp Hfk].
    exists (k, group_of k populace). split.
    + apply (In_groupby Z_pair_eqb Z_pair_eqb_eq). split; [|reflexivity].
      exists first. split; assumption.
    + cbn [snd]. apply In_time_constraint_of_group. exists first.
      split; [exact Hhd|].
      destruct He as [He | [Hp Hr]]; [left; exact He|].
      right. split; [|exact Hr]. apply In_group_of. split; [exact Hp | reflexivity].
Qed.

Lemma In_check_numerator_condition (populace : list Encounter) (k : PMY) :
  In k (__check_numerator_condition populace) <->
  exists e, In e populace /\ patient_measurement_year_id e = k /\
            lt_nan (Score (visit e)) (Some 5) = true.
Proof.
  unfold __check_numerator_condition. rewrite in_flat_map. split.
  - intros [[k' rows] [Hg Hk]]. cbn [fst snd] in Hk.
    apply (In_groupby Z_pair_eqb Z_pair_eqb_eq) in Hg. destruct Hg as [_ Hrows].
    destruct (existsb (fun e => lt_nan (Score (visit e)) (Some 5)) rows) eqn:Ex;
      [|destruct Hk].
    destruct Hk as [Hk | []]. subst k'.
    apply existsb_exists in Ex. destruct Ex as [e [He Hs]].
    subst rows. apply filter_In in He. destruct He as [He Hk].
    apply Z_pair_eqb_eq in Hk. exists e. auto.
  - intros [e [He [Hk Hs]]].
    exists (k, filter (fun x => Z_pair_eqb (patient_measurement_year_id x) k) populace).
    split.
    + apply (In_groupby Z_pair_eqb Z_pair_eqb_eq). split; [|reflexivity].
      exists e. auto.
    + cbn [fst snd].
      assert (Ex : existsb (fun e => lt_nan (Score (visit e)) (Some 5))
                     (filter (fun x => Z_pair_eqb (patient_measurement_year_id x) k)
                             populace) = true).
      { apply existsb_exists. exists e. split; [|exact Hs].
        apply filter_In. split; [exact He | apply Z_pair_eqb_eq; exact Hk]. }
      rewrite Ex. left; reflexivity.
Qed.

(** X3: What the code computes: the numerator of an index group is true exactly
    when the first row of the group has a score below 5, or a row of the
    group inside the range counted from the first row's date has one. *)
Lemma numerator_iff_first_row_or_window (populace : list Encounter)
    (scored : list Scored) (r : Scored) :
  get_numerator populace = Some scored -> In r scored ->
  let k := patient_measurement_year_id (encounter r) in
  exists first,
    hd_error (group_of k populace) = Some first /\
    (numerator r = true <->
     lt_nan (Score (visit first)) (Some 5) = true \/
     exists e, In e (group_of k populace) /\
               in_remission_range (Date (visit first)) e = true /\
               lt_nan (Score (visit e)) (Some 5) = true).
Proof.
  unfold get_numerator, _find_performance_met.
  destruct (_apply_time_constraint populace) as [|p0 ps] eqn:Ea; [discriminate|].
  rewrite <- Ea. clear p0 ps Ea. intros H Hr. inversion H; subst scored. clear H.
  unfold __set_numerator in Hr. apply in_map_iff in Hr. destruct Hr as [e0 [Hr He0]].
  subst r. cbn zeta. cbn [encounter numerator].
  set (k := patient_measurement_year_id e0).
  pose proof (proj1 (In_apply_time_constraint populace e0) He0) as [first [Hhd _]].
  fold k in Hhd. exists first. split; [exact Hhd|].
  rewrite (isin_In Z_pair_eqb Z_pair_eqb_eq), In_check_numerator_condition.
  split.
  - intros [e [He [Hk Hs]]].
    apply In_apply_time_constraint in He. rewrite Hk in He. fold k in He.
    destruct He as [f [Hf He]]. rewrite Hhd in Hf. inversion Hf; subst f.
    destruct He as [-> | [Hp Hrange]]; [left; exact Hs|].
    right. exists e. split; [apply In_group_of; auto | auto].
  - intros [Hs | [e [He [Hrange Hs]]]].
    + assert (Hfk : patient_measurement_year_id first = k).
      { destruct (group_of k populace) as [|f tl] eqn:Eg; [discriminate|].
        simpl in Hhd. inversion Hhd; subst f.
        assert (Hin : In first (group_of k populace)) by (rewrite Eg; left; reflexivity).
        apply In_group_of in Hin. tauto. }
      exists first. split; [|split; [exact Hfk | exact Hs]].
      apply In_apply_time_constraint. rewrite Hfk. exists first.
      split; [exact Hhd | left; reflexivity].
    + apply In_group_of in He. destruct He as [Hp Hk].
      exists e. split; [|split; [exact Hk | exact Hs]].
      apply In_apply_time_constraint. rewrite Hk. exists first.
      split; [exact Hhd | right; auto].
Qed.

(** two scores of patient 100001 on 4 March 2024: 3 at 09:00 and 12 at
    15:00; no other encounter *)
Definition same_day_db : Database :=
  mkDatabase
    [ mkVisit 100001 (datetime 1990 5 1 0 0) 11 (datetime 2024 3 4 9 0) (Some 3);
      mkVisit 100001 (datetime 1990 5 1 0 0) 12 (datetime 2024 3 4 15 0) (Some 12) ]
    [] [] [] (datetime 2026 1 1 0 0).


End RemissionWindow.

(** ** Lists put together with [flat_map] *)

Section FlatMapFacts.
Variables A B C : Type.

Lemma flat_map_filter_if (c : A -> bool) (g : A -> list B) (l : list A) :
  flat_map g (filter c l) = flat_map (fun a => if c a then g a else []) l.
Proof.
  induction l as [|a tl IH]; [reflexivity|].
  cbn [filter flat_map]. destruct (c a); cbn [flat_map app]; rewrite IH; reflexivity.
Qed.

Lemma flat_map_map_comp (h : A -> B) (g : B -> list C) (l : list A) :
  flat_map g (map h l) = flat_map (fun a => g (h a)) l.
Proof.
  induction l as [|a tl IH]; [reflexivity|].
  cbn [map flat_map]. rewrite IH. reflexivity.
Qed.

Lemma filter_flat_map (f : B -> bool) (g : A -> list B) (l : list A) :
  filter f (flat_map g l) = flat_map (fun a => filter f (g a)) l.
Proof.
  induction l as [|a tl IH]; [reflexivity|].
  cbn [flat_map]. rewrite filter_app, IH. reflexivity.
Qed.

Lemma map_flat_map (h : B -> C) (g : A -> list B) (l : list A) :
  map h (flat_map g l) = flat_map (fun a => map h (g a)) l.
Proof.
  induction l as [|a tl IH]; [reflexivity|].
  cbn [flat_map]. rewrite map_app, IH. reflexivity.
Qed.

Lemma flat_map_flat_map (h : A -> list B) (g : B -> list C) (l : list A) :
  flat_map g (flat_map h l) = flat_map (fun a => flat_map g (h a)) l.
Proof.
  induction l as [|a tl IH]; [reflexivity|].
  cbn [flat_map]. rewrite flat_map_app, IH. reflexivity.
Qed.

Lemma flat_map_if_singleton (c : A -> bool) (h : A -> B) (l : list A) :
  flat_map (fun a => if c a then [h a] else []) l = map h (filter c l).
Proof.
  induction l as [|a tl IH]; [reflexivity|].
  cbn [flat_map filter]. destruct (c a); cbn [map app]; rewrite IH; reflexivity.
Qed.

Lemma flat_map_same (g h : A -> list B) (l : list A) :
  (forall a, In a l -> g a = h a) -> flat_map g l = flat_map h l.
Proof.
  induction l as [|a tl IH]; intros H; [reflexivity|].
  cbn [flat_map]. rewrite (H a (or_introl eq_refl)), IH; [reflexivity|].
  intros x Hx. apply H. right. exact Hx.
Qed.

Lemma filter_same (f g : A -> bool) (l : list A) :
  (forall a, In a l -> f a = g a) -> filter f l = filter g l.
Proof.
  induction l as [|a tl IH]; intros H; [reflexivity|].
  cbn [filter]. rewrite (H a (or_introl eq_refl)), IH; [reflexivity|].
  intros x Hx. apply H. right. exact Hx.
Qed.

Lemma filter_filter_and (f g : A -> bool) (l : list A) :
  filter f (filter g l) = filter (fun a => g a && f a) l.
Proof.
  induction l as [|a tl IH]; [reflexivity|].
  cbn [filter]. destruct (g a); cbn [filter andb]; [destruct (f a)|]; rewrite IH; reflexivity.
Qed.

End FlatMapFacts.

(** ** DEP-REM: the Medicaid flag *)

Section MedicaidFlag.
Import DEP_REM.

Lemma filter_map_comm {A B : Type} (f : B -> bool) (h : A -> B) (l : list A) :
  filter f (map h l) = map h (filter (fun a => f (h a)) l).
Proof.
  induction l as [|a tl IH]; [reflexivity|].
  cbn [map filter]. destruct (f (h a)); cbn [map]; rewrite IH; reflexivity.
Qed.

Lemma filter_and_unique {A : Type} (key : A -> Z) (b : A -> bool) (l : list A) (r : A) :
  NoDup (map key l) -> In r l ->
  filter (fun s => b s && (key s =? key r)) l = if b r then [r] else [].
Proof.
  intros Hn Hr.
  rewrite (filter_same (fun s => b s && (key s =? key r))
                       (fun s => (key s =? key r) && b s) l)
    by (intros a _; apply andb_comm).
  rewrite <- (filter_filter_and b (fun s => key s =? key r) l).
  rewrite (filter_unique_key Z.eqb Z.eqb_eq key l r Hn Hr).
  cbn [filter]. reflexivity.
Qed.

Lemma flat_map_if_unique {A B K : Type} (eqb : K -> K -> bool)
    (eqb_eq : forall x y, eqb x y = true <-> x = y)
    (key : A -> K) (h : A -> list B) (l : list A) (r : A) :
  NoDup (map key l) -> In r l ->
  flat_map (fun s => if eqb (key s) (key r) then h s else []) l = h r.
Proof.
  intros Hn Hr.
  rewrite <- (flat_map_filter_if (fun s => eqb (key s) (key r)) h l).
  rewrite (filter_unique_key eqb eqb_eq key l r Hn Hr).
  cbn [flat_map]. apply app_nil_r.
Qed.

Definition ieid_of (r : StratumP) : Z := st_index_encounter_id (sp_stratum r).

Definition visit_key (r : StratumP) : Z * Z :=
  (st_PatientId (sp_stratum r), st_Date (sp_stratum r)).

(** a plan is active for a stratify row: it is a plan of its patient and it
    is in force at the date of its index visit *)
Definition is_active (db : Database) (r : StratumP) (p : Payer) : bool :=
  (py_PatientId p =? st_PatientId (sp_stratum r)) &&
  valid (now db) p (st_Date (sp_stratum r)).

Definition active_spans (db : Database) (r : StratumP) : list Payer :=
  filter (is_active db r) (patient_payers db).

(** the insurance rows as [__get_encounter_data] hands them to
    [__determine_medicaid_stratify] *)
Definition valid_medicaid_data (db : Database) (stratify : list StratumP)
  : list (Payer * Timestamp) :=
  __filter_insurance_dates (now db)
    (__merge_mediciad_with_stratify (__get_medicaid_from_db db stratify) stratify).

(** the rows that one insurance row of the database adds to the group of
    [r] *)
Lemma rows_of_one_payer (db : Database) (stratify : list StratumP) (r : StratumP)
    (p : Payer) :
  NoDup (map ieid_of stratify) -> NoDup (map visit_key stratify) -> In r stratify ->
  flat_map
    (fun m : Payer * Timestamp =>
       filter (fun x : (Payer * Timestamp) * StratumP => ieid_of (snd x) =? ieid_of r)
              (map (fun s => (m, s))
                   (filter (fun s => Z_pair_eqb (py_PatientId (fst m), snd m) (visit_key s))
                           stratify)))
    (filter (fun m => valid (now db) (fst m) (snd m))
            (map (fun m : Payer * StratumP => (fst m, st_Date (sp_stratum (snd m))))
                 (map (fun s => (p, s))
                      (filter (fun s => py_PatientId p =? st_PatientId (sp_stratum s))
                              stratify)))) =
  if is_active db r p then [((p, st_Date (sp_stratum r)), r)] else [].
Proof.
  intros Hn1 Hn2 Hr.
  rewrite map_map. cbn [fst snd].
  rewrite filter_map_comm. cbn [fst snd].
  rewrite flat_map_map_comp, filter_filter_and, flat_map_filter_if.
  rewrite <- (flat_map_if_unique Z_pair_eqb Z_pair_eqb_eq visit_key
                (fun _ => if is_active db r p then [((p, st_Date (sp_stratum r)), r)] else [])
                stratify r Hn2 Hr).
  apply flat_map_same. intros s Hs.
  rewrite filter_map_comm. cbn [fst snd].
  rewrite filter_filter_and.
  rewrite (filter_and_unique ieid_of
             (fun s0 => Z_pair_eqb (py_PatientId p, st_Date (sp_stratum s)) (visit_key s0))
             stratify r Hn1 Hr).
  unfold is_active, visit_key, Z_pair_eqb. cbn [fst snd].
  destruct (Z.eqb_spec (py_PatientId p) (st_PatientId (sp_stratum s))) as [E1 | E1];
    destruct (Z.eqb_spec (st_PatientId (sp_stratum s)) (st_PatientId (sp_stratum r)))
      as [E2 | E2];
    destruct (Z.eqb_spec (st_Date (sp_stratum s)) (st_Date (sp_stratum r))) as [E3 | E3];
    destruct (Z.eqb_spec (py_PatientId p) (st_PatientId (sp_stratum r))) as [E4 | E4];
    try congruence; cbn [andb]; try rewrite E3;
    try (destruct (valid (now db) p (st_Date (sp_stratum r))); reflexivity);
    try (destruct (valid (now db) p (st_Date (sp_stratum s))); reflexivity).
Qed.

(** The group of a stratify row in [__find_patients_with_only_medicaids]
    holds each plan that is active for the row once, in the order of the
    insurance table. *)
Lemma group_of_a_stratify_row (db : Database) (stratify : list StratumP) (r : StratumP) :
  NoDup (map ieid_of stratify) -> NoDup (map visit_key stratify) -> In r stratify ->
  filter (fun x : (Payer * Timestamp) * StratumP => ieid_of (snd x) =? ieid_of r)
         (merge Z_pair_eqb
                (fun m : Payer * Timestamp => (py_PatientId (fst m), snd m))
                visit_key (valid_medicaid_data db stratify) stratify) =
  map (fun p => ((p, st_Date (sp_stratum r)), r)) (active_spans db r).
Proof.
  intros Hn1 Hn2 Hr.
  unfold merge at 1. rewrite filter_flat_map.
  unfold valid_medicaid_data, __filter_insurance_dates, __merge_mediciad_with_stratify,
    merge, __get_medicaid_from_db.
  rewrite map_flat_map, filter_flat_map, flat_map_flat_map, flat_map_filter_if.
  unfold active_spans. rewrite <- flat_map_if_singleton.
  apply flat_map_same. intros p Hp.
  rewrite (@rows_of_one_payer db stratify r p Hn1 Hn2 Hr).
  destruct (isin Z.eqb (py_PatientId p)
              (map (fun r0 => st_PatientId (sp_stratum r0)) stratify)) eqn:Ei;
    [reflexivity|].
  destruct (is_active db r p) eqn:Ea; [|reflexivity].
  exfalso. apply (isin_not_In Z.eqb Z.eqb_eq) in Ei. apply Ei.
  unfold is_active in Ea. apply andb_true_iff in Ea. destruct Ea as [Ea _].
  apply Z.eqb_eq in Ea. rewrite Ea.
  apply (in_map (fun r0 => st_PatientId (sp_stratum r0))). exact Hr.
Qed.



End MedicaidFlag.

Section MedicaidFlagTheorem.
Import DEP_REM.

Lemma In_medicaid_results (db : Database) (stratify : list StratumP) (r : StratumP) (b : bool) :
  NoDup (map ieid_of stratify) -> NoDup (map visit_key stratify) -> In r stratify ->
  (In (ieid_of r, b)
      (__determine_medicaid_stratify (valid_medicaid_data db stratify) stratify) <->
   active_spans db r <> [] /\
   b = (sum_skipna (map medicaid_value (active_spans db r)) =? 1)).
Proof.
  intros Hn1 Hn2 Hr.
  pose proof (@group_of_a_stratify_row db stratify r Hn1 Hn2 Hr) as Hg.
  unfold __determine_medicaid_stratify, __find_patients_with_only_medicaids.
  set (merged := merge Z_pair_eqb
                   (fun m : Payer * Timestamp => (py_PatientId (fst m), snd m))
                   (fun r0 => (st_PatientId (sp_stratum r0), st_Date (sp_stratum r0)))
                   (valid_medicaid_data db stratify) stratify) in *.
  change (filter (fun x : Payer * Timestamp * StratumP => ieid_of (snd x) =? ieid_of r)
                 merged =
          map (fun p => (p, st_Date (sp_stratum r), r)) (active_spans db r)) in Hg.
  set (key := fun m : Payer * Timestamp * StratumP =>
                st_index_encounter_id (sp_stratum (snd m))).
  assert (Hsum : sum_skipna
                   (map (fun m : Payer * Timestamp * StratumP => medicaid_value (fst (fst m)))
                        (filter (fun x => key x =? ieid_of r) merged)) =
                 sum_skipna (map medicaid_value (active_spans db r))).
  { change (filter (fun x => key x =? ieid_of r) merged)
      with (filter (fun x : Payer * Timestamp * StratumP => ieid_of (snd x) =? ieid_of r)
                   merged).
    rewrite Hg, map_map. reflexivity. }
  rewrite in_map_iff. split.
  - intros [[k rows] [Heq Hin]]. cbn [fst snd] in Heq.
    apply (In_groupby Z.eqb Z.eqb_eq) in Hin. destruct Hin as [[x [Hx Hkx]] Hrows].
    injection Heq as Hk Hb. subst k. subst rows. rewrite Hsum in Hb.
    split; [|symmetry; exact Hb].
    intros Hempty.
    assert (Hxin : In x (filter (fun x : Payer * Timestamp * StratumP =>
                                   ieid_of (snd x) =? ieid_of r) merged)).
    { apply filter_In. split; [exact Hx | apply Z.eqb_eq; exact Hkx]. }
    rewrite Hg, Hempty in Hxin. exact Hxin.
  - intros [Hne Hb].
    exists (ieid_of r, filter (fun x => key x =? ieid_of r) merged). split.
    + cbn [fst snd]. rewrite Hsum, Hb. reflexivity.
    + apply (In_groupby Z.eqb Z.eqb_eq). split; [|reflexivity].
      destruct (active_spans db r) as [|p ps] eqn:Ea; [congruence|].
      assert (Hxin : In (p, st_Date (sp_stratum r), r)
                        (filter (fun x : Payer * Timestamp * StratumP =>
                                   ieid_of (snd x) =? ieid_of r) merged)).
      { rewrite Hg. left; reflexivity. }
      apply filter_In in Hxin. destruct Hxin as [Hxin _].
      exists (p, st_Date (sp_stratum r), r). split; [exact Hxin | reflexivity].
Qed.


End MedicaidFlagTheorem.

Section MedicaidExamples.
Import DEP_REM.

(** Without an active plan the stratify table has no row for the record. *)
Lemma no_stratify_row_without_active_plan
    (db : Database) (stratify : list StratumP) (r : StratumP) :
  NoDup (map ieid_of stratify) -> NoDup (map visit_key stratify) -> In r stratify ->
  active_spans db r = [] ->
  forall x, In x (__get_encounter_data db stratify) -> fst x <> r.
Proof.
  intros Hn1 Hn2 Hr Ha [r' [k b]] Hx Heq. cbn [fst] in Heq. subst r'.
  unfold __get_encounter_data in Hx.
  change (__determine_medicaid_stratify
            (__filter_insurance_dates (now db)
               (__merge_mediciad_with_stratify (__get_medicaid_from_db db stratify)
                                               stratify)) stratify)
    with (__determine_medicaid_stratify (valid_medicaid_data db stratify) stratify) in Hx.
  apply (In_merge Z.eqb Z.eqb_eq) in Hx. destruct Hx as [_ [Hin Hk]].
  cbn [fst] in Hk. fold (ieid_of r) in Hk. subst k.
  apply (@In_medicaid_results db stratify r b Hn1 Hn2 Hr) in Hin.
  destruct Hin as [Hne _]. apply Hne. exact Ha.
Qed.

Definition stratum_of (pid ieid : Z) (date : Timestamp) : StratumP :=
  ((mkStratum (pid, 2024) pid (datetime 1990 5 1 0 0) ieid date, "18+"%string),
   mkPatientData pid None None).

(** patient 100001 has one plan, a Medicaid plan without an end date;
    patient 100002 has a Medicaid plan and a commercial plan at the same
    time *)
Definition two_patients : list StratumP :=
  [ stratum_of 100001 12 (datetime 2024 3 4 15 0);
    stratum_of 100002 22 (datetime 2024 5 1 10 0) ].

Definition plans_db : Database :=
  mkDatabase [] [] []
    [ mkPayer 100001 (Some (datetime 2023 1 1 0 0)) None (Some "ny medicaid"%string);
      mkPayer 100002 (Some (datetime 2023 1 1 0 0)) None (Some "medicaid managed"%string);
      mkPayer 100002 (Some (datetime 2024 1 1 0 0)) (Some (datetime 2024 12 31 0 0))
              (Some "aetna ppo"%string) ]
    (datetime 2026 1 1 0 0).


Example medicaid_flags_of_two_patients :
  map (fun x => (st_PatientId (sp_stratum (fst x)), snd (snd x)))
      (__get_encounter_data plans_db two_patients) =
  [(100001, true); (100002, false)].
Proof. vm_compute. reflexivity. Qed.

(** patient 100001 has an index visit on 4 March 2024 and one plan that
    ended in 2023; patient 100002 has an index visit and an active Medicaid
    plan *)
Definition no_active_plan_db : Database :=
  mkDatabase
    [ mkVisit 100001 (datetime 1990 5 1 0 0) 12 (datetime 2024 3 4 15 0) (Some 12);
      mkVisit 100002 (datetime 1990 5 1 0 0) 22 (datetime 2024 5 1 10 0) (Some 15) ]
    []
    [ mkPatientData 100001 (Some "Not Hispanic"%string) (Some "White"%string);
      mkPatientData 100002 None (Some "White"%string) ]
    [ mkPayer 100001 (Some (datetime 2022 1 1 0 0)) (Some (datetime 2023 12 31 0 0))
              (Some "ny medicaid"%string);
      mkPayer 100002 (Some (datetime 2023 1 1 0 0)) None (Some "ny medicaid"%string) ]
    (datetime 2026 1 1 0 0).

(** C4 on the code: the record of patient 100001, who has no plan in force
    at the index visit, is in the cohort table of DEP-REM and has no row in
    the stratify table. *)
Theorem record_without_active_plan_is_dropped :
  collect_measurement_data no_active_plan_db =
  Some ([ mkCohortRow 100001 (100001, 2024) 12 false;
          mkCohortRow 100002 (100002, 2024) 22 false ],
        [ mkStratifyRow (100002, 2024) "18+" "Unknown" "White" true ]).
Proof. vm_compute. reflexivity. Qed.

End MedicaidExamples.

(** ** Frames without duplicate keys *)

Section NoDupFacts.
Variables A B K : Type.




Variable eqb : K -> K -> bool.
Hypothesis eqb_eq : forall x y, eqb x y = true <-> x = y.




End NoDupFacts.

(** ** DEP-REM: the two tables that are returned *)

Section DepRemTables.
Import DEP_REM.

Lemma get_denominator_eq (db : Database) :
  get_denominator db =
  match __set_index_groups (__initilize_populace db)
                           (__get_index_visits (__initilize_populace db)) with
  | Some p => Some (_remove_exclusions db (__get_index_visits (__initilize_populace db)) p)
  | None => None
  end.
Proof.
  unfold get_denominator, _get_populace. cbn [bind ret Monad_option].
  destruct (__set_index_groups (__initilize_populace db)
                               (__get_index_visits (__initilize_populace db)));
    reflexivity.
Qed.




Lemma apply_time_constraint_incl (populace : list Encounter) (e : Encounter) :
  In e (_apply_time_constraint populace) -> In e populace.
Proof.
  intros H. apply In_apply_time_constraint in H. destruct H as [first [Hhd H]].
  destruct H as [-> | [H _]]; [|exact H].
  destruct (group_of (patient_measurement_year_id first) populace) as [|f tl] eqn:Eg;
    [discriminate Hhd|].
  assert (Hin : In f (group_of (patient_measurement_year_id first) populace))
    by (rewrite Eg; left; reflexivity).
  cbn [hd_error] in Hhd. inversion Hhd; subst f.
  apply In_group_of in Hin. tauto.
Qed.






Lemma cohort_eqb_eq (a b : CohortRow) : cohort_eqb a b = true <-> a = b.
Proof.
  destruct a as [a1 a2 a3 a4], b as [b1 b2 b3 b4]. unfold cohort_eqb.
  cbn [c_PatientId c_patient_measurement_year_id c_index_encounter_id c_numerator].
  rewrite !andb_true_iff, !Z.eqb_eq, Z_pair_eqb_eq, Bool.eqb_true_iff. split.
  - intros [[[-> ->] ->] ->]. reflexivity.
  - intros H. inversion H. auto.
Qed.






End DepRemTables.

Section FinalTables.


(** two calls of patient 100001 in 2024, each followed by its own initial
    evaluation *)
Definition two_calls_db : I_SERV._Sub_1.Database :=
  I_SERV._Sub_1.mkDatabase
    [ I_SERV._Sub_1.mkCall 100001 1 (datetime 2024 1 8 9 0) (datetime 1990 5 1 0 0);
      I_SERV._Sub_1.mkCall 100001 2 (datetime 2024 3 4 9 0) (datetime 1990 5 1 0 0) ]
    [ I_SERV._Sub_1.mkEval 100001 (datetime 2024 1 10 10 0) 501;
      I_SERV._Sub_1.mkEval 100001 (datetime 2024 3 6 10 0) 502 ]
    [].



End FinalTables.

Section Witnesses.
Import DEP_REM.


Lemma index_events_witness :
  exists populace',
    __set_index_groups (__initilize_populace chained_db)
                       (__get_index_visits (__initilize_populace chained_db)) =
    Some populace'.
Proof.
  apply (proj1 (proj2 (proj2 (proj2 (index_events_and_their_groups chained_db))))).
  exists (mkVisit 100001 (datetime 1990 5 1 0 0) 12 (datetime 2024 3 4 15 0) (Some 12)).
  split; [vm_compute; tauto | reflexivity].
Defined.

End Witnesses.

(** * Further properties of the code *)

(** ** DEP-REM: when the denominator and the numerator raise *)

Section DepRemErrors.
Import DEP_REM.

(** A visit with a score above 9 gets a group: its own index visit, or an
    earlier one of its patient and year, is not after its date. *)
Lemma elevated_visit_has_group (populace : list Visit) (v : Visit) :
  In v populace -> lt_nan (Some 9) (Score v) = true ->
  __create_patient_measurement_year_id v (__get_index_visits populace) <> None.
Proof.
  intros Hv Hs Hnone.
  destruct (@index_visit_exists populace v Hv Hs) as [iv [Hiv Hk]].
  destruct (@index_visit_is_first populace iv Hiv) as [v1 [Hv1 [Hs1 [Heq1 Hfirst]]]].
  assert (Hkey : (PatientId v1, year (Date v1)) = (PatientId v, year (Date v))).
  { rewrite <- Hk, Heq1. reflexivity. }
  inversion Hkey as [[Hp Hy]].
  assert (Hd : Date v1 <= Date v).
  { apply Hfirst; [exact Hv | exact Hs | congruence | congruence]. }
  assert (Hlt : to_date (Date v) < to_date (iv_Date iv)).
  { apply (proj1 (@create_id_None v (__get_index_visits populace)) Hnone iv Hiv).
    rewrite Heq1. exact Hp. }
  rewrite Heq1 in Hlt. cbn [iv_Date index_visit_of] in Hlt.
  unfold to_date, seconds_per_day in Hlt.
  assert (Hmono : Date v1 / 86400 <= Date v / 86400) by (apply Z.div_le_mono; lia).
  lia.
Qed.

Lemma no_elevated_no_index_visit (populace : list Visit) :
  (forall v, In v populace -> lt_nan (Some 9) (Score v) = false) ->
  __get_index_visits populace = [].
Proof.
  intros H. unfold __get_index_visits.
  rewrite (filter_none (fun v => lt_nan (Some 9) (Score v)) populace H). reflexivity.
Qed.

(** X1: [get_denominator] raises exactly when the PHQ-9 table has no score above
    9 (an empty table included): then no row gets the two columns that
    [__set_index_groups] assigns. *)
Theorem get_denominator_raises_iff_no_elevated_score (db : Database) :
  get_denominator db = None <->
  forall v, In v (phq_scores db) -> lt_nan (Some 9) (Score v) = false.
Proof.
  rewrite get_denominator_eq. split.
  - intros H v Hv. destruct (lt_nan (Some 9) (Score v)) eqn:Es; [|reflexivity].
    exfalso.
    apply In_initilize_populace in Hv.
    destruct (@set_index_groups_returns (__initilize_populace db)
                (__get_index_visits (__initilize_populace db)) v Hv
                (@elevated_visit_has_group _ v Hv Es)) as [p Hp].
    rewrite Hp in H. discriminate H.
  - intros H.
    assert (Hivs : __get_index_visits (__initilize_populace db) = []).
    { apply no_elevated_no_index_visit. intros v Hv. apply H.
      apply In_initilize_populace. exact Hv. }
    rewrite Hivs. unfold __set_index_groups.
    assert (Hall : forallb
              (fun r : Visit * option (PMY * Z) => no_group (snd r))
              (map (fun v => (v, __create_patient_measurement_year_id v []))
                   (__initilize_populace db)) = true).
    { apply forallb_forall. intros r Hr. apply in_map_iff in Hr.
      destruct Hr as [v [Hr _]]. subst r. reflexivity. }
    rewrite Hall. reflexivity.
Qed.

Lemma apply_time_constraint_nil (populace : list Encounter) :
  _apply_time_constraint populace = [] -> populace = [].
Proof.
  destruct populace as [|e tl]; [reflexivity|]. intros H. exfalso.
  destruct (group_of (patient_measurement_year_id e) (e :: tl)) as [|f fs] eqn:Eg.
  - assert (Hin : In e (group_of (patient_measurement_year_id e) (e :: tl))).
    { apply In_group_of. split; [left; reflexivity | reflexivity]. }
    rewrite Eg in Hin. exact Hin.
  - assert (Hf : In f (_apply_time_constraint (e :: tl))).
    { assert (Hfk : patient_measurement_year_id f = patient_measurement_year_id e).
      { assert (Hin : In f (group_of (patient_measurement_year_id e) (e :: tl)))
          by (rewrite Eg; left; reflexivity).
        apply In_group_of in Hin. tauto. }
      apply In_apply_time_constraint. exists f. rewrite Hfk, Eg.
      split; [reflexivity | left; reflexivity]. }
    rewrite H in Hf. exact Hf.
Qed.

(** X4: [get_numerator] raises exactly on an empty populace, that is when
    every index group was excluded: the frame left by
    [_apply_time_constraint] has no column to group by. *)
Theorem get_numerator_raises_iff_empty (populace : list Encounter) :
  get_numerator populace = None <-> populace = [].
Proof.
  unfold get_numerator, _find_performance_met. split.
  - destruct (_apply_time_constraint populace) as [|p ps] eqn:Ea; [|discriminate].
    intros _. apply apply_time_constraint_nil. exact Ea.
  - intros ->. reflexivity.
Qed.

End DepRemErrors.

(** ** DEP-REM: the exclusions *)

Section DepRemExclusions.
Import DEP_REM.

Lemma exclusion_eqb_eq (a b : Exclusion) : exclusion_eqb a b = true <-> a = b.
Proof.
  destruct a as [p1 d1], b as [p2 d2]. unfold exclusion_eqb.
  cbn [ex_PatientId exclusion_date]. rewrite andb_true_iff, Z.eqb_eq.
  destruct d1 as [x|], d2 as [y|].
  - rewrite Z.eqb_eq. split; [intros [-> ->]; reflexivity | intros H; inversion H; auto].
  - split; [intros [_ H]; discriminate | intros H; inversion H].
  - split; [intros [_ H]; discriminate | intros H; inversion H].
  - split; [intros [-> _]; reflexivity | intros H; inversion H; auto].
Qed.

Lemma In_get_all_exclusions (db : Database) (x : Exclusion) :
  In x (__get_all_exclusions db) <-> In x (exclusion_diagnoses db).
Proof.
  unfold __get_all_exclusions. split.
  - apply In_drop_duplicates.
  - intros H.
    destruct (drop_duplicates_keeps_key exclusion_eqb exclusion_eqb_eq
                (fun e : Exclusion => e) (exclusion_diagnoses db) x H) as [y [Hy Heq]].
    subst y. exact Hy.
Qed.

(** the last day on which a diagnosis excludes the index visit *)
Definition end_exclusion_range (iv : IndexVisit) : Day :=
  to_date (add_days 60 (add_months 6 (iv_Date iv))).

(** an exclusion diagnosis of the patient of [iv], dated not after the end
    of the exclusion range of [iv] *)
Definition excluded_by (db : Database) (iv : IndexVisit) : Prop :=
  exists x d, In x (exclusion_diagnoses db) /\ ex_PatientId x = iv_PatientId iv /\
              exclusion_date x = Some d /\ d <= end_exclusion_range iv.

Lemma In_compare_exclusions_with_range (db : Database) (index_visits : list IndexVisit)
    (z : Z) :
  In z (__compare_exclusions_with_range
          (__get_all_exclusions db) (__determine_exclusion_date_range index_visits)) <->
  exists iv, In iv index_visits /\ iv_EncounterID iv = z /\ excluded_by db iv.
Proof.
  unfold __compare_exclusions_with_range.
  rewrite (In_unique_from Z.eqb Z.eqb_eq). rewrite in_flat_map. split.
  - intros [[[x [[iv e]|]] [Hm Hz]] _]; cbn [fst snd] in Hz; [|destruct Hz].
    apply (In_merge_left Z.eqb Z.eqb_eq) in Hm. destruct Hm as [Hx [Hr Hk]].
    cbn [fst] in Hk.
    unfold __determine_exclusion_date_range in Hr. apply in_map_iff in Hr.
    destruct Hr as [iv' [Heq Hiv]]. injection Heq as Hiv' He. subst iv'. subst e.
    destruct (exclusion_date x) as [d|] eqn:Ed; cbn [le_nan] in Hz; [|destruct Hz].
    destruct (d <=? to_date (add_days 60 (add_months 6 (iv_Date iv)))) eqn:El;
      [|destruct Hz].
    destruct Hz as [Hz | []]. exists iv. split; [exact Hiv|]. split; [exact Hz|].
    exists x, d. apply In_get_all_exclusions in Hx. apply Z.leb_le in El.
    unfold end_exclusion_range. auto.
  - intros [iv [Hiv [Hz [x [d [Hx [Hp [Hd Hle]]]]]]]]. split; [|intros []].
    exists (x, Some (iv, end_exclusion_range iv)). split.
    + apply (In_merge_left Z.eqb Z.eqb_eq). split; [apply In_get_all_exclusions; exact Hx|].
      split; [|exact Hp].
      unfold __determine_exclusion_date_range.
      apply (in_map (fun iv => (iv, to_date (add_days 60 (add_months 6 (iv_Date iv)))))).
      exact Hiv.
    + cbn [fst snd]. rewrite Hd. cbn [le_nan].
      apply Z.leb_le in Hle. rewrite Hle. left. exact Hz.
Qed.

(** X2: [_remove_exclusions] removes a populace row exactly when its index
    encounter is the encounter of an index visit whose patient has an
    exclusion diagnosis dated on or before the index date plus six months
    plus sixty days; a diagnosis without a date excludes nothing. *)
Theorem remove_exclusions_spec (db : Database) (index_visits : list IndexVisit)
    (populace : list Encounter) (e : Encounter) :
  In e (_remove_exclusions db index_visits populace) <->
  In e populace /\
  ~ exists iv, In iv index_visits /\ iv_EncounterID iv = index_encounter_id e /\
               excluded_by db iv.
Proof.
  unfold _remove_exclusions, __filter_out_exclusions.
  rewrite filter_In, negb_true_iff, (isin_not_In Z.eqb Z.eqb_eq).
  rewrite In_compare_exclusions_with_range. tauto.
Qed.

End DepRemExclusions.

(** ** DEP-REM: the stratify table along the pipeline *)

Section DepRemStratify.
Import DEP_REM.






End DepRemStratify.

Section MoreWitnesses.
Import DEP_REM.

Lemma preventive_visit_raises_witness :
  ASC._Sub_1._get_populace
    (ASC._Sub_1.mkDatabase [ASC._Sub_1.mkEncounter 100001 (Some 40) 7001
                                                   (datetime 2024 3 4 9 0) 2024;
                            ASC._Sub_1.mkEncounter 100001 (Some 40) 7002
                                                   (datetime 2024 6 4 9 0) 2024]
                           [ASC._Sub_1.mkEncounter 100002 (Some 51) 7003
                                                   (datetime 2024 5 4 9 0) 2024]) = None.
Proof.
  apply preventive_visit_raises. cbn. discriminate.
Defined.

Lemma no_stratify_row_witness :
  let stratify := two_patients ++ [stratum_of 100003 32 (datetime 2024 3 4 15 0)] in
  let x := (stratum_of 100001 12 (datetime 2024 3 4 15 0), (12, true)) in
  In x (__get_encounter_data plans_db stratify) /\
  fst x <> stratum_of 100003 32 (datetime 2024 3 4 15 0).
Proof.
  split; [vm_compute; left; reflexivity|].
  apply (@no_stratify_row_without_active_plan plans_db
           (two_patients ++ [stratum_of 100003 32 (datetime 2024 3 4 15 0)])
           (stratum_of 100003 32 (datetime 2024 3 4 15 0))).
  - vm_compute. repeat constructor; cbn [In]; intuition discriminate.
  - vm_compute. repeat constructor; cbn [In]; intuition discriminate.
  - vm_compute. right. right. left. reflexivity.
  - vm_compute. reflexivity.
  - vm_compute. left. reflexivity.
Defined.

Lemma numerator_witness :
  let populace := fillna [] (get_denominator same_day_db) in
  let r := mkScored (mkEncounter (mkVisit 100001 (datetime 1990 5 1 0 0) 11
                                          (datetime 2024 3 4 9 0) (Some 3))
                                 (100001, 2024) 12) true in
  exists first,
    hd_error (group_of (100001, 2024) populace) = Some first /\
    (numerator r = true <->
     lt_nan (Score (visit first)) (Some 5) = true \/
     exists e, In e (group_of (100001, 2024) populace) /\
               in_remission_range (Date (visit first)) e = true /\
               lt_nan (Score (visit e)) (Some 5) = true).
Proof.
  apply (@numerator_iff_first_row_or_window
           (fillna [] (get_denominator same_day_db))
           (fillna [] (get_numerator (fillna [] (get_denominator same_day_db))))
           (mkScored (mkEncounter (mkVisit 100001 (datetime 1990 5 1 0 0) 11
                                           (datetime 2024 3 4 9 0) (Some 3))
                                  (100001, 2024) 12) true)).
  - vm_compute. reflexivity.
  - vm_compute. left. reflexivity.
Defined.

End MoreWitnesses.

Section DepRemCohort.
Import DEP_REM.

Lemma In_cohort_ids (scored : list Scored) (k : PMY) :
  In k (map c_patient_measurement_year_id (__trim_unnecessary_populace_data scored)) <->
  In k (map (fun r => patient_measurement_year_id (encounter r)) scored).
Proof.
  unfold __trim_unnecessary_populace_data. rewrite !in_map_iff. split.
  - intros [c [Hk Hc]]. apply In_drop_duplicates in Hc. apply in_map_iff in Hc.
    destruct Hc as [r [Hc Hr]]. exists r. split; [|exact Hr]. subst c. exact Hk.
  - intros [r [Hk Hr]].
    set (c := mkCohortRow (PatientId (visit (encounter r)))
                          (patient_measurement_year_id (encounter r))
                          (index_encounter_id (encounter r)) (numerator r)).
    destruct (@drop_duplicates_keeps_key CohortRow CohortRow cohort_eqb cohort_eqb_eq
                (fun c => c)
                (map (fun r => let e := encounter r in
                               mkCohortRow (PatientId (visit e))
                                           (patient_measurement_year_id e)
                                           (index_encounter_id e) (numerator r))
                     scored) c) as [c' [Hc' Hkey]].
    { apply in_map_iff. exists r. split; [reflexivity | exact Hr]. }
    exists c'. split; [|exact Hc']. rewrite Hkey. exact Hk.
Qed.

(** X5: The numerator step loses no index group: when [get_numerator]
    returns, the ids of the cohort table that
    [__trim_unnecessary_populace_data] makes of its rows are the ids of the
    populace it was given. *)
Theorem cohort_ids_are_the_denominator_ids (populace : list Encounter)
    (scored : list Scored) (k : PMY) :
  get_numerator populace = Some scored ->
  (In k (map c_patient_measurement_year_id (__trim_unnecessary_populace_data scored)) <->
   In k (map patient_measurement_year_id populace)).
Proof.
  intros En. rewrite In_cohort_ids.
  unfold get_numerator, _find_performance_met in En.
  destruct (_apply_time_constraint populace) as [|p0 ps] eqn:Ea; [discriminate|].
  rewrite <- Ea in En. clear p0 ps Ea. inversion En; subst scored. clear En.
  unfold __set_numerator. rewrite map_map. cbn [encounter].
  rewrite !in_map_iff. split.
  - intros [e [Hk He]]. exists e. split; [exact Hk|].
    apply apply_time_constraint_incl. exact He.
  - intros [e [Hk He]].
    destruct (group_of k populace) as [|f fs] eqn:Eg.
    + assert (Hin : In e (group_of k populace)) by (apply In_group_of; tauto).
      rewrite Eg in Hin. destruct Hin.
    + assert (Hf : In f (group_of k populace)) by (rewrite Eg; left; reflexivity).
      apply In_group_of in Hf. destruct Hf as [_ Hfk].
      exists f. split; [exact Hfk|].
      apply In_apply_time_constraint. exists f. rewrite Hfk, Eg.
      split; [reflexivity | left; reflexivity].
Qed.

Lemma cohort_ids_witness :
  let populace := fillna [] (get_denominator no_active_plan_db) in
  let scored := fillna [] (get_numerator populace) in
  In (100001, 2024)
     (map c_patient_measurement_year_id (__trim_unnecessary_populace_data scored)) <->
  In (100001, 2024) (map patient_measurement_year_id populace).
Proof.
  apply (@cohort_ids_are_the_denominator_ids
           (fillna [] (get_denominator no_active_plan_db))).
  vm_compute. reflexivity.
Defined.

End DepRemCohort.

(** ** I-SERV: business days and the evaluation after the year *)

Section BusinessDayCount.

Lemma to_date_add_days (k : Z) (t : Timestamp) : to_date (add_days k t) = to_date t + k.
Proof. unfold to_date, add_days, seconds_per_day. apply Z.div_add. discriminate. Qed.

(** [BDay(31)] moves a timestamp by 43 days, by 45 from a Friday and by 44
    from a Saturday. *)
Definition bday_31_days (wday : Z) : Z :=
  if wday =? 4 then 45 else if wday =? 5 then 44 else 43.

Lemma add_bdays_31 (t : Timestamp) :
  add_bdays 31 t = add_days (bday_31_days (weekday (to_date t))) t.
Proof.
  unfold add_bdays.
  assert (Hw : 0 <= weekday (to_date t) < 7)
    by (unfold weekday; apply Z.mod_pos_bound; lia).
  remember (weekday (to_date t)) as w eqn:Ew. clear Ew.
  assert (Hc : w = 0 \/ w = 1 \/ w = 2 \/ w = 3 \/ w = 4 \/ w = 5 \/ w = 6) by lia.
  destruct Hc as [-> | [-> | [-> | [-> | [-> | [-> | ->]]]]]]; reflexivity.
Qed.

Lemma map_seq_from {A : Type} (f g : nat -> A) (n m : nat) :
  (forall i, f (n + i)%nat = g i) -> map f (seq n m) = map g (seq 0 m).
Proof.
  revert n f g. induction m as [|m IH]; intros n f g H; [reflexivity|].
  cbn [seq map]. f_equal.
  - rewrite <- (H 0%nat). f_equal. lia.
  - rewrite (IH (S n) f (fun i => g (S i))), (IH 1%nat g (fun i => g (S i))).
    + reflexivity.
    + intros i. reflexivity.
    + intros i. rewrite <- H. f_equal. lia.
Qed.

Lemma day_range_app (a b k : Z) :
  a <= b + 1 -> 0 <= k ->
  day_range a (b + k) = day_range a b ++ day_range (b + 1) (b + k).
Proof.
  intros Hab Hk. unfold day_range.
  replace (Z.to_nat (b + k - a + 1)) with (Z.to_nat (b - a + 1) + Z.to_nat k)%nat by lia.
  replace (Z.to_nat (b + k - (b + 1) + 1)) with (Z.to_nat k) by lia.
  rewrite seq_app, map_app. f_equal. cbn [Nat.add].
  apply map_seq_from. intros i. lia.
Qed.

Lemma is_business_day_shift (d q : Z) : is_business_day (d + 7 * q) = is_business_day d.
Proof.
  unfold is_business_day, weekday.
  replace (d + 7 * q + 3) with (d + 3 + q * 7) by lia.
  rewrite Z.mod_add by discriminate. reflexivity.
Qed.

Lemma filter_map_length_ext {A B : Type} (f : B -> bool) (g h : A -> B) (l : list A) :
  (forall x, f (g x) = f (h x)) ->
  List.length (filter f (map g l)) = List.length (filter f (map h l)).
Proof.
  intros H. induction l as [|x tl IH]; [reflexivity|].
  cbn [map filter]. rewrite H. destruct (f (h x)); cbn [List.length]; rewrite IH; reflexivity.
Qed.

(** the business days among the [n] days from [a + 7 q] on are as many as
    among the [n] days from [a] on *)
Lemma business_days_shift (a q : Z) (n : nat) :
  List.length (filter is_business_day (map (fun i => a + 7 * q + Z.of_nat i) (seq 0 n))) =
  List.length (filter is_business_day (map (fun i => a + Z.of_nat i) (seq 0 n))).
Proof.
  apply filter_map_length_ext. intros i.
  replace (a + 7 * q + Z.of_nat i) with (a + Z.of_nat i + 7 * q) by lia.
  apply is_business_day_shift.
Qed.

(** 31 business days lie after a day up to the day that [BDay(31)] reaches
    from it. *)
Lemma business_days_up_to_bday_31 (b : Day) :
  List.length (filter is_business_day
                      (day_range (b + 1) (b + bday_31_days (weekday b)))) = 31%nat.
Proof.
  assert (Hr : 0 <= b mod 7 < 7) by (apply Z.mod_pos_bound; lia).
  assert (Hb : b = b mod 7 + 7 * (b / 7)) by (pose proof (Z.div_mod b 7); lia).
  assert (Hw : weekday b = (b mod 7 + 3) mod 7).
  { unfold weekday. rewrite Zplus_mod_idemp_l. reflexivity. }
  rewrite Hw. remember (b mod 7) as r eqn:Er. remember (b / 7) as q eqn:Eq.
  clear Er Eq Hw. subst b.
  assert (Hlen : forall k, 0 <= k ->
            day_range (r + 7 * q + 1) (r + 7 * q + k) =
            map (fun i => r + 1 + 7 * q + Z.of_nat i) (seq 0 (Z.to_nat k))).
  { intros k Hk. unfold day_range.
    replace (r + 7 * q + k - (r + 7 * q + 1) + 1) with k by lia.
    apply map_ext. intros i. lia. }
  assert (Hc : r = 0 \/ r = 1 \/ r = 2 \/ r = 3 \/ r = 4 \/ r = 5 \/ r = 6) by lia.
  destruct Hc as [-> | [-> | [-> | [-> | [-> | [-> | ->]]]]]];
    match goal with
    | |- context [bday_31_days ?w] =>
        let k := eval vm_compute in (bday_31_days w) in
        change (bday_31_days w) with k;
        rewrite (Hlen k) by discriminate
    end;
    rewrite business_days_shift; vm_compute; reflexivity.
Qed.

(** Counted from the call, an evaluation moved by [BDay(31)] is 31 business
    days further than the evaluation itself. *)
Lemma business_days_from_call_add_bdays (start_date end_date : Timestamp) :
  to_date start_date <= to_date end_date ->
  I_SERV.business_days_from_call start_date (add_bdays 31 end_date) =
  I_SERV.business_days_from_call start_date end_date + 31.
Proof.
  intros H. unfold I_SERV.business_days_from_call, bdate_range.
  rewrite add_bdays_31, to_date_add_days.
  rewrite day_range_app.
  - rewrite filter_app, length_app, business_days_up_to_bday_31. lia.
  - lia.
  - unfold bday_31_days.
    destruct (weekday (to_date end_date) =? 4); [lia|].
    destruct (weekday (to_date end_date) =? 5); lia.
Qed.

End BusinessDayCount.

(** ** I-SERV: the calls and their evaluations *)

Section IServPopulace.
Import I_SERV I_SERV._Sub_1.

Lemma call_eqb_eq (a b : Call) : call_eqb a b = true <-> a = b.
Proof.
  unfold call_eqb. destruct a as [p1 c1 s1 d1], b as [p2 c2 s2 d2].
  cbn [PatientID CallID StartDate DOB].
  rewrite !andb_true_iff, !Z.eqb_eq. split.
  - intros [[[-> ->] ->] ->]. reflexivity.
  - intros H. inversion H. auto.
Qed.

Lemma In_get_call_dates (db : Database) (c : Call) :
  In c (__get_call_dates db) <-> In c (call_dates db).
Proof.
  unfold __get_call_dates. split.
  - apply In_drop_duplicates.
  - intros H.
    destruct (@drop_duplicates_keeps_key Call Call call_eqb call_eqb_eq (fun c => c)
                (call_dates db) c H) as [y [Hy Hk]].
    rewrite <- Hk. exact Hy.
Qed.

(** X13: The evaluation that [__get_next_date] returns is the first row of the
    table, in the order of the table, that is not before the call: the rows
    above it are all before the call.  Without such a row both values are
    missing. *)
Theorem get_next_date_is_first_in_table_order (call_ : Timestamp) (evals : list Eval) :
  (exists before e after,
      evals = before ++ e :: after /\
      (forall x, In x before -> VisitDateTime x < call_) /\
      call_ <= VisitDateTime e /\
      __get_next_date call_ evals =
        (Some (VisitDateTime e), Some (ev_eval_encounter_id e))) \/
  ((forall x, In x evals -> VisitDateTime x < call_) /\
   __get_next_date call_ evals = (None, None)).
Proof.
  unfold __get_next_date. induction evals as [|a tl IH].
  - right. split; [intros x [] | reflexivity].
  - cbn [filter]. destruct (call_ <=? VisitDateTime a) eqn:E.
    + apply Z.leb_le in E. left. exists [], a, tl.
      split; [reflexivity|]. split; [intros x []|]. split; [exact E | reflexivity].
    + apply Z.leb_gt in E. destruct IH as [[before [e [after [Heq [Hb [He Hr]]]]]] | [Hall Hr]].
      * left. exists (a :: before), e, after. split; [rewrite Heq; reflexivity|].
        split; [|split; [exact He | exact Hr]].
        intros x [<- | Hx]; [exact E | apply Hb; exact Hx].
      * right. split; [|exact Hr].
        intros x [<- | Hx]; [exact E | apply Hall; exact Hx].
Qed.

(** the evaluations of the patient of a call, in the order of the table *)
Definition evals_of (db : Database) (c : Call) : list Eval :=
  filter (fun e => ev_PatientId e =? PatientID c) (initial_evals db).

Lemma filter_filter_implied {A : Type} (f g : A -> bool) (l : list A) :
  (forall x, In x l -> f x = true -> g x = true) ->
  filter f (filter g l) = filter f l.
Proof.
  intros H. induction l as [|a tl IH]; [reflexivity|].
  cbn [filter]. assert (IH' := IH (fun x Hx => H x (or_intror Hx))).
  destruct (g a) eqn:Eg.
  - cbn [filter]. rewrite IH'. reflexivity.
  - destruct (f a) eqn:Ef; [|exact IH'].
    rewrite (H a (or_introl eq_refl) Ef) in Eg. discriminate Eg.
Qed.

(** the evaluations that [__match_evals_to_calls] keeps *)
Definition evals_of_callers (calls : list Call) (evals : list Eval) : list Eval :=
  filter (fun e => isin Z.eqb (ev_PatientId e) (map PatientID calls)) evals.

Lemma evals_of_a_caller (calls : list Call) (evals : list Eval) (c : Call) :
  In c calls ->
  filter (fun e => ev_PatientId e =? PatientID c) (evals_of_callers calls evals) =
  filter (fun e => ev_PatientId e =? PatientID c) evals.
Proof.
  intros Hc. apply filter_filter_implied. intros e _ He.
  apply Z.eqb_eq in He. apply (isin_In Z.eqb Z.eqb_eq). rewrite He.
  apply in_map. exact Hc.
Qed.

Lemma has_an_evaluation (calls : list Call) (evals : list Eval) (c : Call) :
  In c calls ->
  (isin Z.eqb (PatientID c) (map ev_PatientId (evals_of_callers calls evals)) = true <->
   exists e, In e evals /\ ev_PatientId e = PatientID c).
Proof.
  intros Hc. rewrite (isin_In Z.eqb Z.eqb_eq), in_map_iff. split.
  - intros [e [Hk He]]. apply filter_In in He. exists e. split; [tauto | exact Hk].
  - intros [e [He Hk]]. exists e. split; [exact Hk|].
    apply filter_In. split; [exact He|].
    apply (isin_In Z.eqb Z.eqb_eq). rewrite Hk. apply in_map. exact Hc.
Qed.

Lemma match_evals_to_calls_eq (calls : list Call) (evals : list Eval) :
  __match_evals_to_calls calls evals =
  let eval_mask := fun c => isin Z.eqb (PatientID c)
                                 (map ev_PatientId (evals_of_callers calls evals)) in
  match filter eval_mask calls with
  | [] => None
  | _ =>
      Some (drop_duplicates
              (fun a b : Z * option Z => (fst a =? fst b) && option_Z_eqb (snd a) (snd b))
              (fun r : Call * (option Timestamp * option Z) =>
                 (PatientID (fst r), snd (snd r)))
              (map (fun c => (c, __get_next_date
                                   (StartDate c)
                                   (filter (fun e => ev_PatientId e =? PatientID c)
                                           (evals_of_callers calls evals))))
                   (filter eval_mask calls)) ++
            map (fun c => (c, (None, None)))
                (filter (fun c => negb (eval_mask c)) calls))
  end.
Proof. reflexivity. Qed.

(** X14: [_get_populace] raises exactly when no call has an evaluation of its
    patient in the table (no call at all included); an evaluation before
    the call is enough for it to return. *)
Theorem get_populace_raises_iff_no_caller_was_evaluated (db : Database) :
  _get_populace db = None <->
  forall c e, In c (call_dates db) -> In e (initial_evals db) ->
              ev_PatientId e <> PatientID c.
Proof.
  unfold _get_populace, __initialize_populace, __get_initial_evals.
  rewrite match_evals_to_calls_eq. cbn zeta.
  set (mask := fun c => isin Z.eqb (PatientID c)
                 (map ev_PatientId
                      (evals_of_callers (__get_call_dates db) (initial_evals db)))).
  destruct (filter mask (__get_call_dates db)) as [|c0 cs] eqn:Ef.
  - split; [|reflexivity]. intros _ c e Hc He Hk.
    apply In_get_call_dates in Hc.
    assert (Hm : mask c = true).
    { apply (@has_an_evaluation _ (initial_evals db) _ Hc). exists e. tauto. }
    assert (Hin : In c (filter mask (__get_call_dates db)))
      by (apply filter_In; tauto).
    rewrite Ef in Hin. exact Hin.
  - split; [discriminate|]. intros H. exfalso.
    assert (Hin : In c0 (filter mask (__get_call_dates db)))
      by (rewrite Ef; left; reflexivity).
    apply filter_In in Hin. destruct Hin as [Hc Hm].
    apply (@has_an_evaluation _ (initial_evals db) _ Hc) in Hm.
    destruct Hm as [e [He Hk]].
    apply In_get_call_dates in Hc. exact (H c0 e Hc He Hk).
Qed.

Lemma option_pair_eqb_eq (a b : Z * option Z) :
  (fst a =? fst b) && option_Z_eqb (snd a) (snd b) = true <-> a = b.
Proof.
  destruct a as [x [i|]], b as [y [j|]]; cbn [fst snd option_Z_eqb];
    rewrite andb_true_iff, ?Z.eqb_eq; split; intros H.
  - destruct H as [-> ->]. reflexivity.
  - inversion H. auto.
  - destruct H as [_ H]. discriminate H.
  - discriminate H.
  - destruct H as [_ H]. discriminate H.
  - discriminate H.
  - destruct H as [-> _]. reflexivity.
  - inversion H. auto.
Qed.

(** the three frames that [__match_evals_to_calls] works with *)
Lemma match_evals_to_calls_frames (db : Database) (populace : list Row) :
  _get_populace db = Some populace ->
  exists matched : list (Call * (option Timestamp * option Z)),
    (forall x, In x matched ->
       In (fst x) (call_dates db) /\
       snd x = __get_next_date (StartDate (fst x)) (evals_of db (fst x))) /\
    (forall c, In c (call_dates db) -> evals_of db c <> [] ->
       In (c, __get_next_date (StartDate c) (evals_of db c)) matched) /\
    populace =
      map (fun r => mkRow (fst r) (fst (snd r)) (snd (snd r))
                          (__calculate_measurement_year (fst r))
                          (__create_patient_measurement_year_id (fst r))
                          (__calculate_age (fst r)))
          (drop_duplicates
             (fun a b : Z * option Z => (fst a =? fst b) && option_Z_eqb (snd a) (snd b))
             (fun r : Call * (option Timestamp * option Z) =>
                (PatientID (fst r), snd (snd r)))
             matched ++
           map (fun c => (c, (None, None)))
               (filter (fun c => match evals_of db c with [] => true | _ => false end)
                       (__get_call_dates db))).
Proof.
  unfold _get_populace, __initialize_populace, __get_initial_evals.
  rewrite match_evals_to_calls_eq. cbn zeta.
  set (calls := __get_call_dates db).
  set (mask := fun c => isin Z.eqb (PatientID c)
                 (map ev_PatientId (evals_of_callers calls (initial_evals db)))).
  set (matched := map (fun c => (c, __get_next_date
                                      (StartDate c)
                                      (filter (fun e => ev_PatientId e =? PatientID c)
                                              (evals_of_callers calls (initial_evals db)))))
                      (filter mask calls)).
  assert (Hmask : forall c, In c calls ->
            negb (mask c) = match evals_of db c with [] => true | _ => false end).
  { intros c Hc. destruct (mask c) eqn:Em.
    - apply (@has_an_evaluation _ (initial_evals db) _ Hc) in Em.
      destruct Em as [e [He Hk]].
      assert (Hin : In e (evals_of db c))
        by (apply filter_In; split; [exact He | apply Z.eqb_eq; exact Hk]).
      destruct (evals_of db c); [destruct Hin | reflexivity].
    - destruct (evals_of db c) as [|e es] eqn:Ee; [reflexivity|]. exfalso.
      assert (Hin : In e (evals_of db c)) by (rewrite Ee; left; reflexivity).
      apply filter_In in Hin. destruct Hin as [He Hk]. apply Z.eqb_eq in Hk.
      assert (Ht : mask c = true).
      { apply (@has_an_evaluation _ (initial_evals db) _ Hc). exists e. tauto. }
      rewrite Ht in Em. discriminate Em. }
  assert (Hmatched : forall x, In x matched ->
            In (fst x) (call_dates db) /\
            snd x = __get_next_date (StartDate (fst x)) (evals_of db (fst x))).
  { intros x Hx. apply in_map_iff in Hx. destruct Hx as [c [Hx Hc]].
    apply filter_In in Hc. destruct Hc as [Hc Hm]. subst x. cbn [fst snd].
    split; [apply In_get_call_dates; exact Hc|].
    rewrite (@evals_of_a_caller _ (initial_evals db) _ Hc). reflexivity. }
  assert (Hmatched' : forall c, In c (call_dates db) -> evals_of db c <> [] ->
            In (c, __get_next_date (StartDate c) (evals_of db c)) matched).
  { intros c Hc Hm. apply In_get_call_dates in Hc. fold calls in Hc.
    unfold matched. apply in_map_iff. exists c. split.
    - rewrite (@evals_of_a_caller _ (initial_evals db) _ Hc). reflexivity.
    - apply filter_In. split; [exact Hc|].
      pose proof (Hmask c Hc) as Hn. destruct (evals_of db c); [contradiction|].
      apply negb_false_iff. exact Hn. }
  assert (Hno : filter (fun c => negb (mask c)) calls =
                filter (fun c => match evals_of db c with [] => true | _ => false end)
                       calls).
  { apply filter_ext_in. exact Hmask. }
  rewrite Hno. clearbody matched.
  destruct (filter mask calls) as [|c0 cs]; [discriminate|].
  cbn [bind ret Monad_option]. intros H. injection H as H.
  exists matched. split; [exact Hmatched|]. split; [exact Hmatched'|].
  symmetry. exact H.
Qed.

(** a row of the populace is a call of the table with the evaluation that
    [__get_next_date] finds among the evaluations of its patient *)
Lemma In_get_populace (db : Database) (populace : list Row) (r : Row) :
  _get_populace db = Some populace -> In r populace ->
  In (call r) (call_dates db) /\
  (eval_date r, eval_encounter_id r) =
    __get_next_date (StartDate (call r)) (evals_of db (call r)) /\
  measurement_year r = year (StartDate (call r)) /\
  patient_measurement_year_id r = (PatientID (call r), year (StartDate (call r))) /\
  age r = year (StartDate (call r)) - year (DOB (call r)).
Proof.
  intros Hp Hr. destruct (match_evals_to_calls_frames db Hp) as [matched [Hm [_ Heq]]].
  subst populace. apply in_map_iff in Hr. destruct Hr as [x [Hr Hx]].
  subst r. cbn [call eval_date eval_encounter_id measurement_year
                patient_measurement_year_id age].
  unfold __create_patient_measurement_year_id, __calculate_age,
    __calculate_measurement_year.
  apply in_app_or in Hx. destruct Hx as [Hx | Hx].
  - apply In_drop_duplicates in Hx. apply Hm in Hx.
    destruct Hx as [Hc Hs]. split; [exact Hc|].
    split; [|auto]. rewrite <- Hs. destruct x as [c [d i]]. reflexivity.
  - apply in_map_iff in Hx. destruct Hx as [c [Hx Hc]]. subst x. cbn [fst snd].
    apply filter_In in Hc. destruct Hc as [Hc Hn].
    split; [apply In_get_call_dates; exact Hc|]. split; [|auto].
    destruct (evals_of db c); [reflexivity | discriminate Hn].
Qed.

(** X15: What [_get_populace] returns.  Every row is a call of the table with
    the evaluation that [__get_next_date] finds among the evaluations of
    its patient, and with the year, the id and the age that are computed
    from the call; every call of the table has a row of its patient with the
    evaluation found for it, which is its own row unless an earlier call of
    the patient was matched to the same evaluation. *)
Theorem get_populace_rows (db : Database) (populace : list Row) :
  _get_populace db = Some populace ->
  (forall r, In r populace ->
     In (call r) (call_dates db) /\
     (eval_date r, eval_encounter_id r) =
       __get_next_date (StartDate (call r)) (evals_of db (call r)) /\
     measurement_year r = year (StartDate (call r)) /\
     patient_measurement_year_id r = (PatientID (call r), year (StartDate (call r))) /\
     age r = year (StartDate (call r)) - year (DOB (call r))) /\
  (forall c, In c (call_dates db) ->
     exists r, In r populace /\ PatientID (call r) = PatientID c /\
               eval_encounter_id r =
                 snd (__get_next_date (StartDate c) (evals_of db c))).
Proof.
  intros Hp. split; [intros r Hr; exact (In_get_populace db r Hp Hr)|].
  destruct (match_evals_to_calls_frames db Hp) as [matched [_ [Hm Heq]]].
  subst populace. intros c Hc.
  destruct (evals_of db c) as [|e0 es] eqn:Ee.
  - exists (mkRow c None None (__calculate_measurement_year c)
                  (__create_patient_measurement_year_id c) (__calculate_age c)).
    split; [|split; reflexivity].
    apply in_map_iff. exists (c, (None, None)). split; [reflexivity|].
    apply in_or_app. right. apply in_map_iff. exists c. split; [reflexivity|].
    apply filter_In. split; [apply In_get_call_dates; exact Hc|].
    rewrite Ee. reflexivity.
  - assert (Hin : In (c, __get_next_date (StartDate c) (evals_of db c)) matched).
    { apply Hm; [exact Hc | rewrite Ee; discriminate]. }
    rewrite Ee in Hin.
    destruct (@drop_duplicates_keeps_key _ _ _ option_pair_eqb_eq
                (fun r : Call * (option Timestamp * option Z) =>
                   (PatientID (fst r), snd (snd r)))
                matched _ Hin) as [y [Hy Hk]].
    cbn [fst snd] in Hk. injection Hk as Hp' Hi.
    exists (mkRow (fst y) (fst (snd y)) (snd (snd y))
                  (__calculate_measurement_year (fst y))
                  (__create_patient_measurement_year_id (fst y))
                  (__calculate_age (fst y))).
    split; [|split; [exact Hp' | exact Hi]].
    apply in_map_iff. exists y. split; [reflexivity|].
    apply in_or_app. left. exact Hy.
Qed.

End IServPopulace.

Section IServDenominator.
Import I_SERV I_SERV._Sub_1.

Lemma get_populace_witness :
  let db := two_calls_db in
  let populace := fillna [] (_get_populace db) in
  (forall r, In r populace ->
     In (call r) (call_dates db) /\
     (eval_date r, eval_encounter_id r) =
       __get_next_date (StartDate (call r)) (evals_of db (call r)) /\
     measurement_year r = year (StartDate (call r)) /\
     patient_measurement_year_id r = (PatientID (call r), year (StartDate (call r))) /\
     age r = year (StartDate (call r)) - year (DOB (call r))) /\
  (forall c, In c (call_dates db) ->
     exists r, In r populace /\ PatientID (call r) = PatientID c /\
               eval_encounter_id r =
                 snd (__get_next_date (StartDate c) (evals_of db c))).
Proof.
  apply (@get_populace_rows two_calls_db (fillna [] (_get_populace two_calls_db))).
  vm_compute. reflexivity.
Defined.

(** X16: What [_remove_exclusions] keeps: the calls of patients without a
    billable encounter in the second half of the year before the call, not
    made in December, of patients who reach the age of 12 in the year of the
    call. *)
Theorem ISERV_remove_exclusions_spec (db : Database) (populace : list Row) (r : Row) :
  In r (_remove_exclusions db populace) <->
  In r populace /\
  (forall v, In v (prior_6_month_visits db) ->
             (pv_PatientId v, prior_year v + 1) <> patient_measurement_year_id r) /\
  month (StartDate (call r)) <> 12 /\
  12 <= age r.
Proof.
  unfold _remove_exclusions, __age_exclusions, __remove_age, __december_exclusions,
    __prior_visit_exclusions, __remove_prior_6_month_visits, __create_prior_6_month_id.
  rewrite !filter_In, !negb_true_iff, Z.leb_le, Z.eqb_neq.
  rewrite (isin_not_In Z_pair_eqb Z_pair_eqb_eq), (In_unique_from Z_pair_eqb Z_pair_eqb_eq).
  rewrite in_map_iff. split.
  - intros [[[Hr Hn] Hm] Ha]. split; [exact Hr|]. split; [|tauto].
    intros v Hv Hk. apply Hn. split; [|intros []]. exists v. tauto.
  - intros [Hr [Hn [Hm Ha]]]. split; [|exact Ha]. split; [|exact Hm].
    split; [exact Hr|]. intros [[v [Hk Hv]] _]. exact (Hn v Hv Hk).
Qed.

Lemma In_apply_time_constraint_ISERV (populace : list Row) (r' : Row) :
  In r' (_apply_time_constraint populace) <->
  exists r, In r populace /\
            r' = mkRow (call r) (late_penalty (measurement_year r) (eval_date r))
                       (eval_encounter_id r) (measurement_year r)
                       (patient_measurement_year_id r) (age r).
Proof.
  unfold _apply_time_constraint. rewrite in_map_iff. split.
  - intros [r [Heq Hr]]. exists r. split; [exact Hr | symmetry; exact Heq].
  - intros [r [Hr Heq]]. exists r. split; [symmetry; exact Heq | exact Hr].
Qed.

Lemma late_penalty_None (my : Z) (d : option Timestamp) :
  late_penalty my d = None <-> d = None.
Proof.
  unfold late_penalty. destruct d as [d|]; [|tauto].
  destruct (year d =? my); split; discriminate.
Qed.

(** X17: [get_numerator] raises exactly when no call of the denominator has an
    evaluation (an empty denominator included): the days cannot be assigned
    to the frame that is left. *)
Theorem ISERV_get_numerator_raises_iff_no_evaluation (populace : list Row) :
  get_numerator populace = None <->
  forall r, In r populace -> eval_date r = None.
Proof.
  unfold get_numerator, _find_performance_met, __handle_calls_without_evals,
    __filter_calls_without_evals.
  set (mask := fun r => match eval_date r with None => true | Some _ => false end).
  set (moved := _apply_time_constraint populace).
  assert (Hkept : forall r', In r' (filter (fun r => negb (mask r)) moved) <->
            exists r, In r populace /\ eval_date r <> None /\
                      r' = mkRow (call r) (late_penalty (measurement_year r) (eval_date r))
                                 (eval_encounter_id r) (measurement_year r)
                                 (patient_measurement_year_id r) (age r)).
  { intros r'. rewrite filter_In. unfold moved. rewrite In_apply_time_constraint_ISERV.
    split.
    - intros [[r [Hr Heq]] Hm]. exists r. split; [exact Hr|]. split; [|exact Heq].
      intros Hn. subst r'. unfold mask in Hm. cbn [eval_date] in Hm.
      rewrite Hn in Hm. discriminate Hm.
    - intros [r [Hr [Hn Heq]]]. split; [exists r; tauto|].
      subst r'. unfold mask. cbn [eval_date].
      destruct (late_penalty (measurement_year r) (eval_date r)) eqn:El; [reflexivity|].
      apply late_penalty_None in El. contradiction. }
  clearbody moved.
  assert (Hnil : filter (fun r => negb (mask r)) moved = [] <->
                 forall r, In r populace -> eval_date r = None).
  { split.
    - intros Hnil r Hr. destruct (eval_date r) as [d|] eqn:Ed; [|reflexivity].
      exfalso.
      assert (Hin : In (mkRow (call r) (late_penalty (measurement_year r) (eval_date r))
                              (eval_encounter_id r) (measurement_year r)
                              (patient_measurement_year_id r) (age r))
                       (filter (fun r => negb (mask r)) moved)).
      { apply Hkept. exists r. split; [exact Hr|]. split; [|reflexivity].
        rewrite Ed. discriminate. }
      rewrite Hnil in Hin. exact Hin.
    - intros H. destruct (filter (fun r => negb (mask r)) moved) as [|y ys] eqn:Ef;
        [reflexivity|]. exfalso.
      destruct (proj1 (Hkept y) (or_introl eq_refl)) as [r [Hr [Hn _]]].
      exact (Hn (H r Hr)). }
  rewrite <- Hnil. clear Hnil Hkept. unfold mask. cbv beta.
  destruct (filter _ moved) as [|x xs];
    destruct (filter _ moved) as [|y ys];
    cbv beta iota zeta; split; intros H; try reflexivity; discriminate H.
Qed.

End IServDenominator.

(** ** I-SERV: the days of the numerator *)

Section IServNumerator.
Import I_SERV I_SERV._Sub_1.

Lemma get_next_date_not_before (call_ : Timestamp) (evals : list Eval)
    (d : Timestamp) (i : option Z) :
  __get_next_date call_ evals = (Some d, i) -> call_ <= d.
Proof.
  unfold __get_next_date.
  destruct (filter (fun e => call_ <=? VisitDateTime e) evals) as [|e es] eqn:Ef;
    [discriminate|].
  intros H. injection H as Hd _. subst d.
  assert (Hin : In e (filter (fun e => call_ <=? VisitDateTime e) evals))
    by (rewrite Ef; left; reflexivity).
  apply filter_In in Hin. apply Z.leb_le. tauto.
Qed.

Lemma In_remove_exclusions_ISERV (db : Database) (populace : list Row) (r : Row) :
  In r (_remove_exclusions db populace) -> In r populace.
Proof.
  unfold _remove_exclusions, __age_exclusions, __remove_age, __december_exclusions,
    __prior_visit_exclusions, __remove_prior_6_month_visits.
  rewrite !filter_In. tauto.
Qed.

Lemma In_get_denominator_ISERV (db : Database) (populace : list Row) (r : Row) :
  get_denominator db = Some populace -> In r populace ->
  measurement_year r = year (StartDate (call r)) /\
  forall e, eval_date r = Some e -> StartDate (call r) <= e.
Proof.
  unfold get_denominator. destruct (_get_populace db) as [p0|] eqn:Ep; [|discriminate].
  cbn [bind ret Monad_option]. intros H Hr. injection H as H. subst populace.
  apply In_remove_exclusions_ISERV in Hr.
  destruct (In_get_populace db r Ep Hr) as [_ [Hn [Hy _]]].
  split; [exact Hy|]. intros e He. rewrite He in Hn.
  apply (@get_next_date_not_before _ (evals_of db (call r)) e (eval_encounter_id r)).
  symmetry. exact Hn.
Qed.

Lemma to_date_le (a b : Timestamp) : a <= b -> to_date a <= to_date b.
Proof. intros H. unfold to_date, seconds_per_day. apply Z.div_le_mono; lia. Qed.

(** the days counted for a call with its evaluation *)
Definition days_to_evaluation (start_date e : Timestamp) : Z :=
  business_days_from_call start_date e +
  (if year e =? year start_date then 0 else 31).

Lemma days_after_late_penalty (s e e' : Timestamp) :
  s <= e -> late_penalty (year s) (Some e) = Some e' ->
  business_days_from_call s e' = days_to_evaluation s e.
Proof.
  intros Hse H. unfold late_penalty in H. unfold days_to_evaluation.
  destruct (year e =? year s); injection H as H; subst e'.
  - lia.
  - apply business_days_from_call_add_bdays. apply to_date_le. exact Hse.
Qed.

(** X18: The numerator of I-SERV sub-measure 1, on the denominator of a database.
    A row is returned for every call of the denominator that has an
    evaluation, and for no other; its number is the count of business days
    from the call to the evaluation, with 31 added when the evaluation is
    not in the year of the call.  The calls without an evaluation are the
    rows of the exclusions frame. *)
Theorem ISERV_days_of_the_numerator (db : Database) (populace : list Row)
    (exclusions : option (list (Z * Timestamp))) (rows : list (Row * Z)) :
  get_denominator db = Some populace ->
  get_numerator populace = Some (exclusions, rows) ->
  (forall x, In x rows ->
     exists r e, In r populace /\ eval_date r = Some e /\
       call (fst x) = call r /\ eval_encounter_id (fst x) = eval_encounter_id r /\
       snd x = days_to_evaluation (StartDate (call r)) e) /\
  (forall r e, In r populace -> eval_date r = Some e ->
     exists x, In x rows /\ call (fst x) = call r /\
               eval_encounter_id (fst x) = eval_encounter_id r /\
               snd x = days_to_evaluation (StartDate (call r)) e) /\
  (forall p, In p (fillna [] exclusions) <->
     exists r, In r populace /\ eval_date r = None /\
               p = (PatientID (call r), StartDate (call r))).
Proof.
  intros Hd Hn.
  unfold get_numerator, _find_performance_met, __handle_calls_without_evals,
    __filter_calls_without_evals in Hn.
  set (shift := fun r => mkRow (call r) (late_penalty (measurement_year r) (eval_date r))
                               (eval_encounter_id r) (measurement_year r)
                               (patient_measurement_year_id r) (age r)) in *.
  change (_apply_time_constraint populace) with (map shift populace) in Hn.
  assert (Hex : forall p,
            In p (__trim_unnecessary_call_data
                    (filter (fun r => match eval_date r with
                                      | None => true | Some _ => false end)
                            (map shift populace))) <->
            exists r, In r populace /\ eval_date r = None /\
                      p = (PatientID (call r), StartDate (call r))).
  { intros p. unfold __trim_unnecessary_call_data. rewrite in_map_iff. split.
    - intros [r' [Hp Hr']]. apply filter_In in Hr'. destruct Hr' as [Hr' Hm].
      apply in_map_iff in Hr'. destruct Hr' as [r [Heq Hr]]. subst r'.
      cbn [shift eval_date call] in Hm, Hp. exists r. split; [exact Hr|].
      split; [|symmetry; exact Hp].
      destruct (late_penalty (measurement_year r) (eval_date r)) eqn:El;
        [discriminate Hm|]. apply late_penalty_None in El. exact El.
    - intros [r [Hr [He Hp]]]. exists (shift r). split; [symmetry; exact Hp|].
      apply filter_In. split; [apply in_map; exact Hr|].
      cbn [shift eval_date]. rewrite He. reflexivity. }
  assert (Hrows : forall x,
            In x (__calculate_days_from_call
                    (filter (fun r => negb match eval_date r with
                                           | None => true | Some _ => false end)
                            (map shift populace))) <->
            exists r e, In r populace /\ eval_date r = Some e /\
                        fst x = shift r /\
                        snd x = days_to_evaluation (StartDate (call r)) e).
  { intros x. unfold __calculate_days_from_call. rewrite in_flat_map. split.
    - intros [r' [Hr' Hx]]. apply filter_In in Hr'. destruct Hr' as [Hr' _].
      apply in_map_iff in Hr'. destruct Hr' as [r [Heq Hr]]. subst r'.
      cbn [shift eval_date call] in Hx.
      destruct (In_get_denominator_ISERV db r Hd Hr) as [Hy Hle].
      destruct (eval_date r) as [e|] eqn:Ee; [|destruct Hx].
      destruct (late_penalty (measurement_year r) (Some e)) as [e'|] eqn:El;
        [|destruct Hx].
      destruct Hx as [Hx | []]. subst x. exists r, e. cbn [fst snd].
      split; [exact Hr|]. split; [exact Ee|]. split; [reflexivity|].
      apply days_after_late_penalty; [apply Hle; reflexivity|].
      rewrite <- Hy. exact El.
    - intros [r [e [Hr [He [Hf Hs]]]]].
      destruct (In_get_denominator_ISERV db r Hd Hr) as [Hy Hle].
      exists (shift r). split.
      + apply filter_In. split; [apply in_map; exact Hr|].
        cbn [shift eval_date]. rewrite He. unfold late_penalty.
        destruct (year e =? measurement_year r); reflexivity.
      + cbn [shift eval_date call].
        destruct (late_penalty (measurement_year r) (eval_date r)) as [e'|] eqn:El.
        * left. destruct x as [x1 x2]. cbn [fst snd] in Hf, Hs. subst x1 x2.
          f_equal. rewrite He, Hy in El.
          apply days_after_late_penalty; [apply Hle; exact He | exact El].
        * apply late_penalty_None in El. rewrite He in El. discriminate El. }
  cbv beta iota zeta in Hn.
  destruct (filter (fun r => match eval_date r with None => true | Some _ => false end)
                   (map shift populace)) as [|x0 xs] eqn:Ecalls;
    destruct (filter (fun r => negb match eval_date r with
                                    | None => true | Some _ => false end)
                     (map shift populace)) as [|y0 ys] eqn:Ekept;
    cbv beta iota zeta in Hn; try discriminate Hn;
    injection Hn as Hexcl Hr; subst exclusions rows.
  - split; [|split].
    + intros x Hx. apply Hrows in Hx. destruct Hx as [r [e [Hr [He [Hf Hs]]]]].
      exists r, e. rewrite Hf. auto.
    + intros r e Hr He.
      exists (shift r, days_to_evaluation (StartDate (call r)) e).
      split; [|auto]. apply Hrows. exists r, e. auto.
    + intros p. cbn [fillna]. rewrite <- Hex. reflexivity.
  - split; [|split].
    + intros x Hx. apply Hrows in Hx. destruct Hx as [r [e [Hr [He [Hf Hs]]]]].
      exists r, e. rewrite Hf. auto.
    + intros r e Hr He.
      exists (shift r, days_to_evaluation (StartDate (call r)) e).
      split; [|auto]. apply Hrows. exists r, e. auto.
    + intros p. cbn [fillna]. rewrite <- Hex. reflexivity.
Qed.

(** a call on Monday 25 November 2024 that was evaluated on Thursday 2
    January 2025, and a call that was not evaluated *)
Definition late_and_missing_db : Database :=
  mkDatabase [mkCall 100001 1 (datetime 2024 11 25 9 0) (datetime 1990 5 1 0 0);
              mkCall 100002 2 (datetime 2024 6 3 9 0) (datetime 1991 5 1 0 0)]
             [mkEval 100001 (datetime 2025 1 2 10 0) 501] [].

Lemma ISERV_days_witness :
  let populace := fillna [] (get_denominator late_and_missing_db) in
  let result := fillna (None, []) (get_numerator populace) in
  (forall x, In x (snd result) ->
     exists r e, In r populace /\ eval_date r = Some e /\
       call (fst x) = call r /\ eval_encounter_id (fst x) = eval_encounter_id r /\
       snd x = days_to_evaluation (StartDate (call r)) e) /\
  (forall r e, In r populace -> eval_date r = Some e ->
     exists x, In x (snd result) /\ call (fst x) = call r /\
               eval_encounter_id (fst x) = eval_encounter_id r /\
               snd x = days_to_evaluation (StartDate (call r)) e) /\
  (forall p, In p (fillna [] (fst result)) <->
     exists r, In r populace /\ eval_date r = None /\
               p = (PatientID (call r), StartDate (call r))).
Proof.
  apply (@ISERV_days_of_the_numerator late_and_missing_db
           (fillna [] (get_denominator late_and_missing_db))).
  - vm_compute. reflexivity.
  - vm_compute. reflexivity.
Defined.

Example days_of_a_late_evaluation :
  days_to_evaluation (datetime 2024 11 25 9 0) (datetime 2025 1 2 10 0) = 59 /\
  option_map snd (get_numerator (fillna [] (get_denominator late_and_missing_db))) =
  Some [(mkRow (mkCall 100001 1 (datetime 2024 11 25 9 0) (datetime 1990 5 1 0 0))
               (Some (datetime 2025 2 14 10 0)) (Some 501) 2024 (100001, 2024) 34, 59)].
Proof. split; vm_compute; reflexivity. Qed.

End IServNumerator.

(** ** I-SERV: the days of the second sub-measure *)

Section IServSub2.
Import I_SERV.

Lemma calculate_days_skips_missing (populace : list _Sub_2.Row) :
  _Sub_2.__calculate_days_from_call
    (filter (fun r => negb match _Sub_2.service_date r with
                           | None => true | Some _ => false end) populace) =
  _Sub_2.__calculate_days_from_call populace.
Proof.
  unfold _Sub_2.__calculate_days_from_call.
  induction populace as [|r tl IH]; [reflexivity|].
  cbn [filter flat_map]. destruct (_Sub_2.service_date r) as [e|] eqn:Ee; cbn [negb].
  - cbn [flat_map]. rewrite Ee, IH. reflexivity.
  - rewrite IH. reflexivity.
Qed.

(** a row of the second sub-measure with the service moved by
    [_apply_time_constraint] *)
Definition moved (r : _Sub_2.Row) : _Sub_2.Row :=
  _Sub_2.mkRow (_Sub_2.PatientID r) (_Sub_2.patient_measurement_year_id r)
               (_Sub_2.CallID r) (_Sub_2.StartDate r)
               (late_penalty (_Sub_2.measurement_year r) (_Sub_2.service_date r))
               (_Sub_2.service_encounter_id r) (_Sub_2.measurement_year r).

Lemma In_days_of_moved (populace : list _Sub_2.Row) (x : _Sub_2.Row * Z) :
  (forall r e, In r populace -> _Sub_2.service_date r = Some e ->
               _Sub_2.StartDate r <= e) ->
  (In x (_Sub_2.__calculate_days_from_call (_Sub_2._apply_time_constraint populace)) <->
   exists r e, In r populace /\ _Sub_2.service_date r = Some e /\
     fst x = moved r /\
     snd x = business_days_from_call (_Sub_2.StartDate r) e +
             (if year e =? _Sub_2.measurement_year r then 0 else 31)).
Proof.
  intros Hle. unfold _Sub_2.__calculate_days_from_call, _Sub_2._apply_time_constraint.
  rewrite in_flat_map. split.
  - intros [r' [Hr' Hx]]. apply in_map_iff in Hr'. destruct Hr' as [r [Heq Hr]].
    subst r'. cbn [_Sub_2.service_date _Sub_2.StartDate] in Hx.
    destruct (_Sub_2.service_date r) as [e|] eqn:Ee; [|destruct Hx].
    pose proof (Hle r e Hr Ee) as Hse.
    exists r, e. split; [exact Hr|]. split; [exact Ee|].
    unfold moved. rewrite Ee. unfold late_penalty in *.
    destruct (year e =? _Sub_2.measurement_year r);
      destruct Hx as [Hx | []]; subst x; cbn [fst snd]; split; try reflexivity.
    + lia.
    + apply business_days_from_call_add_bdays. apply to_date_le. exact Hse.
  - intros [r [e [Hr [Ee [Hf Hs]]]]]. pose proof (Hle r e Hr Ee) as Hse.
    exists (moved r). split.
    + apply in_map_iff. exists r. split; [reflexivity | exact Hr].
    + destruct x as [x1 x2]. cbn [fst snd] in Hf, Hs. subst x1 x2.
      unfold moved. cbn [_Sub_2.service_date _Sub_2.StartDate]. rewrite Ee.
      unfold late_penalty.
      destruct (year e =? _Sub_2.measurement_year r); left; f_equal.
      * lia.
      * apply business_days_from_call_add_bdays. apply to_date_le. exact Hse.
Qed.

(** X19: The numerator of the second sub-measure, on calls whose service is not
    before the call: a row is returned for every call that has a service,
    with the business days from the call to the service and 31 more when
    the service is not in the measurement year of the call; the calls
    without a service are the rows of the exclusions frame. *)
Theorem ISERV_sub_2_days (populace : list _Sub_2.Row)
    (exclusions : option (list (Z * Timestamp))) (rows : list (_Sub_2.Row * Z)) :
  (forall r e, In r populace -> _Sub_2.service_date r = Some e ->
               _Sub_2.StartDate r <= e) ->
  _Sub_2.get_numerator populace = Some (exclusions, rows) ->
  (forall x, In x rows <->
     exists r e, In r populace /\ _Sub_2.service_date r = Some e /\
       fst x = moved r /\
       snd x = business_days_from_call (_Sub_2.StartDate r) e +
               (if year e =? _Sub_2.measurement_year r then 0 else 31)) /\
  (forall p, In p (fillna [] exclusions) <->
     exists r, In r populace /\ _Sub_2.service_date r = None /\
               p = (_Sub_2.PatientID r, _Sub_2.StartDate r)).
Proof.
  intros Hle Hn.
  unfold _Sub_2.get_numerator, _Sub_2._find_performance_met,
    _Sub_2.__handle_calls_without_service, _Sub_2.__filter_calls_without_service in Hn.
  assert (Hex : forall p,
            In p (_Sub_2.__trim_unnecessary_call_data
                    (filter (fun r => match _Sub_2.service_date r with
                                      | None => true | Some _ => false end)
                            (_Sub_2._apply_time_constraint populace))) <->
            exists r, In r populace /\ _Sub_2.service_date r = None /\
                      p = (_Sub_2.PatientID r, _Sub_2.StartDate r)).
  { intros p. unfold _Sub_2.__trim_unnecessary_call_data, _Sub_2._apply_time_constraint.
    rewrite in_map_iff. split.
    - intros [r' [Hp Hr']]. apply filter_In in Hr'. destruct Hr' as [Hr' Hm].
      apply in_map_iff in Hr'. destruct Hr' as [r [Heq Hr]]. subst r'.
      cbn [_Sub_2.service_date _Sub_2.PatientID _Sub_2.StartDate] in Hm, Hp.
      exists r. split; [exact Hr|]. split; [|symmetry; exact Hp].
      destruct (late_penalty (_Sub_2.measurement_year r) (_Sub_2.service_date r)) eqn:El;
        [discriminate Hm|]. apply late_penalty_None in El. exact El.
    - intros [r [Hr [He Hp]]]. exists (moved r). split; [symmetry; exact Hp|].
      apply filter_In. split; [apply in_map_iff; exists r; split; [reflexivity | exact Hr]|].
      unfold moved. cbn [_Sub_2.service_date]. rewrite He. reflexivity. }
  pose proof (fun x => @In_days_of_moved populace x Hle) as Hrows.
  rewrite <- calculate_days_skips_missing in Hrows.
  cbv beta iota zeta in Hn.
  destruct (filter (fun r => match _Sub_2.service_date r with
                             | None => true | Some _ => false end)
                   (_Sub_2._apply_time_constraint populace)) as [|x0 xs];
    destruct (filter (fun r => negb match _Sub_2.service_date r with
                                    | None => true | Some _ => false end)
                     (_Sub_2._apply_time_constraint populace)) as [|y0 ys];
    cbv beta iota zeta in Hn; try discriminate Hn;
    injection Hn as Hexcl Hr; subst exclusions rows;
    (split; [exact Hrows | intros p; cbn [fillna]; rewrite <- Hex; reflexivity]).
Qed.

Lemma ISERV_sub_2_days_witness :
  let populace :=
    [_Sub_2.mkRow 100001 (100001, 2024) 1 (datetime 2024 11 25 9 0)
                  (Some (datetime 2025 1 2 10 0)) (Some 601) 2024;
     _Sub_2.mkRow 100002 (100002, 2024) 2 (datetime 2024 6 3 9 0) None None 2024] in
  let result := fillna (None, []) (_Sub_2.get_numerator populace) in
  (forall x, In x (snd result) <->
     exists r e, In r populace /\ _Sub_2.service_date r = Some e /\
       fst x = moved r /\
       snd x = business_days_from_call (_Sub_2.StartDate r) e +
               (if year e =? _Sub_2.measurement_year r then 0 else 31)) /\
  (forall p, In p (fillna [] (fst result)) <->
     exists r, In r populace /\ _Sub_2.service_date r = None /\
               p = (_Sub_2.PatientID r, _Sub_2.StartDate r)).
Proof.
  apply (@ISERV_sub_2_days
           [_Sub_2.mkRow 100001 (100001, 2024) 1 (datetime 2024 11 25 9 0)
                         (Some (datetime 2025 1 2 10 0)) (Some 601) 2024;
            _Sub_2.mkRow 100002 (100002, 2024) 2 (datetime 2024 6 3 9 0) None None 2024]).
  - intros r e [<- | [<- | []]] He.
    + injection He as <-. vm_compute. discriminate.
    + discriminate He.
  - vm_compute. reflexivity.
Defined.

End IServSub2.

(** ** CDF-CH: the populace and the denominator *)

Section CdfChDenominator.
Import CDF_CH CDF_CH._Sub_1.

Lemma lex3_leb_spec (a b : Z * Z * Z) :
  lex3_leb a b = true <->
  fst (fst a) < fst (fst b) \/
  (fst (fst a) = fst (fst b) /\
   (snd (fst a) < snd (fst b) \/ (snd (fst a) = snd (fst b) /\ snd a <= snd b))).
Proof.
  destruct a as [[a1 a2] a3], b as [[b1 b2] b3]. unfold lex3_leb, lex_leb.
  cbn [fst snd].
  rewrite !orb_true_iff, !andb_true_iff, !orb_true_iff, !andb_true_iff,
    !Z.ltb_lt, !Z.eqb_eq, Z.leb_le. tauto.
Qed.

Lemma lex3_leb_total (a b : Z * Z * Z) : lex3_leb a b = true \/ lex3_leb b a = true.
Proof. rewrite !lex3_leb_spec. lia. Qed.

Lemma lex3_leb_trans (a b c : Z * Z * Z) :
  lex3_leb a b = true -> lex3_leb b c = true -> lex3_leb a c = true.
Proof. rewrite !lex3_leb_spec. lia. Qed.

(** the sort key of [_get_populace] *)
Definition by_id_and_date (r : Row) : Z * Z * Z :=
  (patient_measurement_year_id r, VisitDateTime (encounter r)).

(** X9: On a table with an encounter (on an empty answer of the query the
    frame has no typed column and [.dt.year] raises), [_get_populace]
    returns one row per patient and year: an encounter of the table with the
    id made of its patient and its year, the earliest one of that patient in
    that year; every patient and year of the table has its row. *)
Theorem populace_is_the_first_encounter_of_the_year (db : Database) :
  outpatient_encounters db <> [] ->
  NoDup (map patient_measurement_year_id (_get_populace db)) /\
  (forall r, In r (_get_populace db) ->
     In (encounter r) (outpatient_encounters db) /\
     patient_measurement_year_id r =
       (PatientId (encounter r), year (VisitDateTime (encounter r))) /\
     forall e, In e (outpatient_encounters db) ->
               PatientId e = PatientId (encounter r) ->
               year (VisitDateTime e) = year (VisitDateTime (encounter r)) ->
               VisitDateTime (encounter r) <= VisitDateTime e) /\
  (forall e, In e (outpatient_encounters db) ->
     exists r, In r (_get_populace db) /\
               patient_measurement_year_id r = (PatientId e, year (VisitDateTime e))).
Proof.
  intros _. unfold _get_populace, __initialize_populace.
  set (mk := fun e => mkRow e (__create_measurement_year_id (PatientId e) (VisitDateTime e))).
  set (leb := fun a b : Row =>
                lex3_leb (patient_measurement_year_id a, VisitDateTime (encounter a))
                         (patient_measurement_year_id b, VisitDateTime (encounter b))).
  set (sorted := sort_values leb (map mk (outpatient_encounters db))).
  assert (Hin : forall r, In r sorted <->
                          exists e, In e (outpatient_encounters db) /\ r = mk e).
  { intros r. unfold sorted. rewrite In_sort_values, in_map_iff.
    split; intros [e [H1 H2]]; exists e; auto. }
  assert (Hsorted : StronglySorted (fun a b => leb a b = true) sorted).
  { apply sort_values_sorted.
    - intros x y. apply lex3_leb_total.
    - intros x y z. apply lex3_leb_trans. }
  split; [apply (drop_duplicates_NoDup Z_pair_eqb Z_pair_eqb_eq)|]. split.
  - intros r Hr. pose proof (In_drop_duplicates _ _ _ _ Hr) as Hr'.
    apply Hin in Hr'. destruct Hr' as [e [He Heq]].
    split; [subst r; exact He|]. split; [subst r; reflexivity|].
    intros e' He' Hp Hy.
    assert (Hle : leb r (mk e') = true).
    { apply (@drop_duplicates_from_first Row PMY Z_pair_eqb Z_pair_eqb_eq
               patient_measurement_year_id (fun a b => leb a b = true) [] sorted).
      - intros x. unfold leb. apply lex3_leb_spec. lia.
      - exact Hsorted.
      - exact Hr.
      - apply Hin. exists e'. auto.
      - subst r. unfold mk, __create_measurement_year_id.
        cbn [patient_measurement_year_id encounter] in *. rewrite Hp, Hy. reflexivity. }
    unfold leb in Hle. apply lex3_leb_spec in Hle.
    subst r. unfold mk, __create_measurement_year_id in *.
    cbn [patient_measurement_year_id encounter fst snd] in *. lia.
  - intros e He.
    destruct (@drop_duplicates_keeps_key Row PMY Z_pair_eqb Z_pair_eqb_eq
                patient_measurement_year_id sorted (mk e)) as [r [Hr Hk]].
    { apply Hin. exists e. auto. }
    exists r. split; [exact Hr | exact Hk].
Qed.

Lemma exclusion_leb_spec (a b : Diagnosis) :
  (dx_PatientId a <? dx_PatientId b) ||
  ((dx_PatientId a =? dx_PatientId b) &&
   date_leb_na_last (exclusion_date a) (exclusion_date b)) = true <->
  dx_PatientId a < dx_PatientId b \/
  (dx_PatientId a = dx_PatientId b /\
   match exclusion_date a, exclusion_date b with
   | Some x, Some y => x <= y
   | Some _, None => True
   | None, Some _ => False
   | None, None => True
   end).
Proof.
  rewrite orb_true_iff, andb_true_iff, Z.ltb_lt, Z.eqb_eq.
  unfold date_leb_na_last.
  destruct (exclusion_date a), (exclusion_date b); rewrite ?Z.leb_le;
    intuition discriminate.
Qed.

(** What [__filter_mental_exclsusion] keeps: the rows of the patients who
    have no diagnosis of the frame dated before the visit of the row. *)
Lemma In_filter_mental_exclsusion (exclusions : list Diagnosis) (populace : list Aged)
    (a : Aged) :
  In a (__filter_mental_exclsusion exclusions populace) <->
  In a populace /\
  forall x d, In x exclusions ->
              dx_PatientId x = PatientId (encounter (row a)) ->
              exclusion_date x = Some d ->
              VisitDateTime (encounter (row a)) <= d.
Proof.
  unfold __filter_mental_exclsusion.
  set (leb := fun a b : Diagnosis =>
                (dx_PatientId a <? dx_PatientId b) ||
                ((dx_PatientId a =? dx_PatientId b) &&
                 date_leb_na_last (exclusion_date a) (exclusion_date b))).
  set (sorted := sort_values leb exclusions).
  set (firsts := drop_duplicates Z.eqb dx_PatientId sorted).
  assert (Hsorted : StronglySorted (fun a b => leb a b = true) sorted).
  { apply sort_values_sorted.
    - intros x y. unfold leb. rewrite !exclusion_leb_spec.
      destruct (exclusion_date x), (exclusion_date y); lia.
    - intros x y z. unfold leb. rewrite !exclusion_leb_spec.
      destruct (exclusion_date x), (exclusion_date y), (exclusion_date z); lia. }
  assert (Hfirst : forall x0 x, In x0 firsts -> In x exclusions ->
                     dx_PatientId x = dx_PatientId x0 -> leb x0 x = true).
  { intros x0 x Hx0 Hx Hk.
    apply (@drop_duplicates_from_first Diagnosis Z Z.eqb Z.eqb_eq dx_PatientId
             (fun a b => leb a b = true) [] sorted).
    - intros y. unfold leb. rewrite exclusion_leb_spec.
      destruct (exclusion_date y); lia.
    - exact Hsorted.
    - exact Hx0.
    - apply In_sort_values. exact Hx.
    - exact Hk. }
  assert (Hfirsts : forall x0, In x0 firsts -> In x0 exclusions).
  { intros x0 Hx0. apply In_drop_duplicates in Hx0.
    apply In_sort_values in Hx0. exact Hx0. }
  rewrite in_map_iff. split.
  - intros [[a' ob] [Ha Hm]]. cbn [fst] in Ha. subst a'.
    apply filter_In in Hm. destruct Hm as [Hm Hc]. cbn [fst snd] in Hc.
    apply (In_merge_left Z.eqb Z.eqb_eq) in Hm. destruct Hm as [Ha Hob].
    split; [exact Ha|]. intros x d Hx Hk Hd.
    destruct ob as [x0|].
    + destruct Hob as [Hx0 Hk0].
      assert (Hle : leb x0 x = true) by (apply Hfirst; [exact Hx0 | exact Hx | congruence]).
      unfold leb in Hle. apply exclusion_leb_spec in Hle. rewrite Hd in Hle.
      destruct (exclusion_date x0) as [d0|]; cbn [le_nan isna] in Hc.
      * rewrite orb_false_r in Hc. apply Z.leb_le in Hc. lia.
      * lia.
    + exfalso.
      destruct (@drop_duplicates_keeps_key Diagnosis Z Z.eqb Z.eqb_eq dx_PatientId
                  sorted x) as [y [Hy Hky]].
      { apply In_sort_values. exact Hx. }
      apply (Hob y Hy). congruence.
  - intros [Ha Hall].
    destruct (filter (fun b => PatientId (encounter (row a)) =? dx_PatientId b) firsts)
      as [|x0 xs] eqn:Ef.
    + exists (a, None). split; [reflexivity|]. apply filter_In. split; [|reflexivity].
      apply (In_merge_left Z.eqb Z.eqb_eq). split; [exact Ha|].
      intros b Hb Hk.
      assert (Hin : In b (filter (fun b => PatientId (encounter (row a)) =? dx_PatientId b)
                                 firsts)).
      { apply filter_In. split; [exact Hb | apply Z.eqb_eq; exact Hk]. }
      rewrite Ef in Hin. exact Hin.
    + assert (Hin : In x0 (filter (fun b => PatientId (encounter (row a)) =? dx_PatientId b)
                                  firsts)) by (rewrite Ef; left; reflexivity).
      apply filter_In in Hin. destruct Hin as [Hx0 Hk]. apply Z.eqb_eq in Hk.
      exists (a, Some x0). split; [reflexivity|]. apply filter_In. split.
      * apply (In_merge_left Z.eqb Z.eqb_eq). split; [exact Ha|]. split; assumption.
      * cbn [fst snd]. destruct (exclusion_date x0) as [d0|] eqn:Ed; [|reflexivity].
        cbn [le_nan isna]. rewrite orb_false_r. apply Z.leb_le.
        apply (Hall x0 d0); [apply Hfirsts; exact Hx0 | symmetry; exact Hk | exact Ed].
Qed.

Lemma diagnosis_eqb_eq (a b : Diagnosis) : diagnosis_eqb a b = true <-> a = b.
Proof.
  unfold diagnosis_eqb. destruct a as [p1 [d1|]], b as [p2 [d2|]];
    cbn [dx_PatientId exclusion_date]; rewrite andb_true_iff, ?Z.eqb_eq; split; intros H.
  - destruct H as [-> ->]. reflexivity.
  - inversion H. auto.
  - destruct H as [_ H]. discriminate H.
  - discriminate H.
  - destruct H as [_ H]. discriminate H.
  - discriminate H.
  - destruct H as [-> _]. reflexivity.
  - inversion H. auto.
Qed.

Lemma In_drop_whole_duplicates (l : list Diagnosis) (x : Diagnosis) :
  In x (drop_duplicates diagnosis_eqb (fun d => d) l) <-> In x l.
Proof.
  split; [apply In_drop_duplicates|]. intros H.
  destruct (@drop_duplicates_keeps_key Diagnosis Diagnosis diagnosis_eqb diagnosis_eqb_eq
              (fun d => d) l x H) as [y [Hy Hk]].
  rewrite <- Hk. exact Hy.
Qed.

(** X10: The denominator of CDF-CH, on a table with an encounter: the rows of
    the populace whose age, the whole years of 365.25 days from the birth to
    the visit, is from 12 to 17, of patients without a diagnosis of
    depression or of bipolar disorder dated before the visit. *)
Theorem CDF_CH_denominator_spec (db : Database) (a : Aged) :
  outpatient_encounters db <> [] ->
  (In a (get_denominator db) <->
   In (row a) (_get_populace db) /\
   age a = floordiv_365_25 (timedelta_days (VisitDateTime (encounter (row a)))
                                           (DOB (encounter (row a)))) /\
   12 <= age a <= 17 /\
   forall x d, In x (depressions db) \/ In x (bipolars db) ->
               dx_PatientId x = PatientId (encounter (row a)) ->
               exclusion_date x = Some d ->
               VisitDateTime (encounter (row a)) <= d).
Proof.
  intros _. unfold get_denominator, _remove_exclusions, __remove_mental_exclusions,
    __remove_age_exclusion, __filter_age, __calculate_age, __get_depressions,
    __get_bipolars.
  rewrite !In_filter_mental_exclsusion, filter_In, in_map_iff,
    andb_true_iff, !Z.leb_le.
  split.
  - intros [[[[r [Heq Hr]] Hage] Hdep] Hbip]. subst a. cbn [row age] in *.
    split; [exact Hr|]. split; [reflexivity|]. split; [exact Hage|].
    intros x d [Hx | Hx] Hk Hd.
    + apply (Hdep x d); [apply In_drop_whole_duplicates; exact Hx | exact Hk | exact Hd].
    + apply (Hbip x d); [apply In_drop_whole_duplicates; exact Hx | exact Hk | exact Hd].
  - intros [Hr [Hage [Hband Hall]]]. split; [split; [split|]|].
    + exists (row a). split; [|exact Hr]. destruct a as [r n]. cbn [row age] in *.
      rewrite Hage. reflexivity.
    + exact Hband.
    + intros x d Hx. apply (proj1 (In_drop_whole_duplicates _ x)) in Hx. apply Hall. left. exact Hx.
    + intros x d Hx. apply (proj1 (In_drop_whole_duplicates _ x)) in Hx. apply Hall. right. exact Hx.
Qed.

(** a patient of 13 with a visit in March and one in June 2024, and a
    diagnosis of depression dated between the two *)
Definition diagnosed_db : Database :=
  mkDatabase [mkEncounter 100003 9004 (datetime 2024 6 3 9 0) (datetime 2011 1 10 0 0);
              mkEncounter 100003 9003 (datetime 2024 3 4 9 0) (datetime 2011 1 10 0 0)]
             [mkDiagnosis 100003 (Some (datetime 2024 4 1 9 0)); mkDiagnosis 100003 None]
             []
             [mkScreening 100003 9003 (datetime 2024 3 4 9 0) (Some 4)].

Lemma populace_witness :
  let db := diagnosed_db in
  NoDup (map patient_measurement_year_id (_get_populace db)) /\
  (forall r, In r (_get_populace db) ->
     In (encounter r) (outpatient_encounters db) /\
     patient_measurement_year_id r =
       (PatientId (encounter r), year (VisitDateTime (encounter r))) /\
     forall e, In e (outpatient_encounters db) ->
               PatientId e = PatientId (encounter r) ->
               year (VisitDateTime e) = year (VisitDateTime (encounter r)) ->
               VisitDateTime (encounter r) <= VisitDateTime e) /\
  (forall e, In e (outpatient_encounters db) ->
     exists r, In r (_get_populace db) /\
               patient_measurement_year_id r = (PatientId e, year (VisitDateTime e))).
Proof.
  apply (@populace_is_the_first_encounter_of_the_year diagnosed_db).
  vm_compute. discriminate.
Defined.

Lemma CDF_CH_denominator_witness :
  let db := diagnosed_db in
  let a := mkAged (mkRow (mkEncounter 100003 9003 (datetime 2024 3 4 9 0)
                                      (datetime 2011 1 10 0 0))
                         (100003, 2024)) 13 in
  In a (get_denominator db) <->
  In (row a) (_get_populace db) /\
  age a = floordiv_365_25 (timedelta_days (VisitDateTime (encounter (row a)))
                                          (DOB (encounter (row a)))) /\
  12 <= age a <= 17 /\
  forall x d, In x (depressions db) \/ In x (bipolars db) ->
              dx_PatientId x = PatientId (encounter (row a)) ->
              exclusion_date x = Some d ->
              VisitDateTime (encounter (row a)) <= d.
Proof.
  apply (@CDF_CH_denominator_spec diagnosed_db).
  vm_compute. discriminate.
Defined.

(** The row of the year is the visit of March, which is before the
    diagnosis, and the patient stays in the denominator. *)
Example diagnosed_after_the_first_visit :
  map (fun a => EncounterId (encounter (row a))) (get_denominator diagnosed_db) = [9003].
Proof. vm_compute. reflexivity. Qed.

End CdfChDenominator.

(** ** CDF-CH: the numerator *)

Section CdfChNumerator.
Import CDF_CH CDF_CH._Sub_1.

Lemma fold_left_max (tl : list Z) (x : Z) :
  x <= fold_left Z.max tl x /\
  (forall y, In y tl -> y <= fold_left Z.max tl x) /\
  (fold_left Z.max tl x = x \/ In (fold_left Z.max tl x) tl).
Proof.
  revert x. induction tl as [|a tl IH]; intros x; cbn [fold_left].
  - split; [lia|]. split; [intros y []|left; reflexivity].
  - destruct (IH (Z.max x a)) as [H1 [H2 H3]]. split; [lia|]. split.
    + intros y [<- | Hy]; [lia | apply H2; exact Hy].
    + destruct H3 as [H3 | H3]; [|right; right; exact H3].
      rewrite H3. destruct (Z.max_spec x a) as [[_ ->] | [_ ->]];
        [right; left; reflexivity | left; reflexivity].
Qed.

(** [max_of] gives the greatest number of a list that is not empty. *)
Lemma max_of_spec (l : list Z) :
  match max_of l with
  | Some t => In t l /\ forall x, In x l -> x <= t
  | None => l = []
  end.
Proof.
  destruct l as [|a tl]; [reflexivity|]. cbn [max_of].
  destruct (fold_left_max tl a) as [H1 [H2 H3]]. split.
  - destruct H3 as [-> | H3]; [left; reflexivity | right; exact H3].
  - intros x [<- | Hx]; [exact H1 | apply H2; exact Hx].
Qed.

Definition patient_of (m : Merged) : Z := PatientId (encounter (row (fst m))).
Definition visit_of (m : Merged) : Timestamp := VisitDateTime (encounter (row (fst m))).

(** the last encounter of a patient is the latest visit among the rows of
    the patient *)
Lemma In_find_follow_ups (populace : list Merged) (pid : Z) (t : Timestamp) :
  In (pid, t) (__find_follow_ups populace) ->
  (exists m, In m populace /\ patient_of m = pid /\ visit_of m = t) /\
  (forall m, In m populace -> patient_of m = pid -> visit_of m <= t).
Proof.
  unfold __find_follow_ups. rewrite in_flat_map. intros [[k rows] [Hg Hin]].
  cbn [fst snd] in Hin. apply (In_groupby Z.eqb Z.eqb_eq) in Hg.
  destruct Hg as [_ Hrows].
  pose proof (max_of_spec (map (fun m : Merged => VisitDateTime (encounter (row (fst m))))
                               rows)) as Hmax.
  destruct (max_of (map (fun m : Merged => VisitDateTime (encounter (row (fst m)))) rows))
    as [t'|]; [|destruct Hin].
  destruct Hin as [Heq | []]. injection Heq as Hk Ht. subst k t'.
  destruct Hmax as [Hin Hle]. split.
  - apply in_map_iff in Hin. destruct Hin as [m [Hv Hm]]. subst rows.
    apply filter_In in Hm. destruct Hm as [Hm Hk]. apply Z.eqb_eq in Hk.
    exists m. auto.
  - intros m Hm Hk. apply Hle.
    apply (in_map (fun m : Merged => VisitDateTime (encounter (row (fst m))))).
    subst rows. apply filter_In. split; [exact Hm | apply Z.eqb_eq; exact Hk].
Qed.

Lemma find_follow_ups_total (populace : list Merged) (m : Merged) :
  In m populace -> exists t, In (patient_of m, t) (__find_follow_ups populace).
Proof.
  intros Hm. unfold __find_follow_ups.
  set (rows := filter (fun x : Merged => PatientId (encounter (row (fst x))) =? patient_of m)
                      populace).
  assert (Hin : In m rows).
  { apply filter_In. split; [exact Hm | apply Z.eqb_refl]. }
  pose proof (max_of_spec (map (fun m : Merged => VisitDateTime (encounter (row (fst m))))
                               rows)) as Hmax.
  destruct (max_of (map (fun m : Merged => VisitDateTime (encounter (row (fst m)))) rows))
    as [t|] eqn:Et.
  - exists t. apply in_flat_map. exists (patient_of m, rows). split.
    + apply (In_groupby Z.eqb Z.eqb_eq). split; [|reflexivity].
      exists m. split; [exact Hm | reflexivity].
    + cbn [fst snd]. rewrite Et. left. reflexivity.
  - apply map_eq_nil in Hmax. rewrite Hmax in Hin. destruct Hin.
Qed.

Lemma merge_left_total {A B K : Type} (eqb : K -> K -> bool) (keyA : A -> K)
    (keyB : B -> K) (l : list A) (r : list B) (a : A) :
  In a l -> exists ob, In (a, ob) (merge_left eqb keyA keyB l r).
Proof.
  intros Ha. unfold merge_left.
  destruct (filter (fun b => eqb (keyA a) (keyB b)) r) as [|b bs] eqn:Ef.
  - exists None. apply in_flat_map. exists a. split; [exact Ha|].
    rewrite Ef. left. reflexivity.
  - exists (Some b). apply in_flat_map. exists a. split; [exact Ha|].
    rewrite Ef. left. reflexivity.
Qed.

(** the rows that [__set_positive_numerators] returns *)
Lemma In_set_positive_numerators (populace positives : list Merged) (p : Performance) :
  (forall m, In m positives -> In m populace) ->
  (In p (__set_positive_numerators populace positives) <->
   exists t, In (merged p) positives /\
     In (patient_of (merged p), t) (__find_follow_ups populace) /\
     positive_screening p = true /\ last_encounter p = Some t /\
     numerator p = lt_nan (m_screening_date (merged p)) (Some t) /\
     numerator_desc p =
       if numerator p then Some "Positive screening with follow up"%string else None).
Proof.
  intros Hsub. unfold __set_positive_numerators, __set_positive_numerator_fields.
  set (joined := map (fun r : Merged * option (Z * Timestamp) =>
                        (fst r, option_map snd (snd r)))
                     (merge_left Z.eqb
                        (fun m : Merged => PatientId (encounter (row (fst m)))) fst
                        positives (__find_follow_ups populace))).
  assert (Hj : forall r, In r joined <->
             exists t, In (fst r) positives /\
                       In (patient_of (fst r), t) (__find_follow_ups populace) /\
                       snd r = Some t).
  { intros [m ot]. unfold joined. rewrite in_map_iff. cbn [fst snd]. split.
    - intros [[m' ob] [Heq Hin]]. cbn [fst snd] in Heq. injection Heq as Hm Hot.
      subst m' ot. apply (In_merge_left Z.eqb Z.eqb_eq) in Hin.
      destruct Hin as [Hm Hob]. destruct ob as [[pid t]|].
      + destruct Hob as [Hf Hk]. cbn [fst] in Hk. exists t.
        split; [exact Hm|]. split; [|reflexivity].
        unfold patient_of. rewrite Hk. exact Hf.
      + exfalso.
        destruct (find_follow_ups_total populace m (Hsub m Hm)) as [t Ht].
        exact (Hob (patient_of m, t) Ht eq_refl).
    - intros [t [Hm [Hf Hot]]]. subst ot. exists (m, Some (patient_of m, t)).
      split; [reflexivity|]. apply (In_merge_left Z.eqb Z.eqb_eq).
      split; [exact Hm|]. split; [exact Hf | reflexivity]. }
  clearbody joined. rewrite in_app_iff, !in_map_iff. split.
  - intros [[r [Hp Hr]] | [r [Hp Hr]]]; apply filter_In in Hr; destruct Hr as [Hr Hc];
      apply Hj in Hr; destruct Hr as [t [Hm [Hf Ht]]]; exists t; subst p;
      cbn [merged positive_screening last_encounter numerator numerator_desc];
      rewrite Ht in Hc; cbn [isna negb] in Hc; rewrite andb_true_r in Hc.
    + rewrite Hc. auto 6.
    + apply negb_true_iff in Hc. rewrite Hc. auto 6.
  - intros [t [Hm [Hf [Hpos [Hl [Hn Hd]]]]]].
    assert (Hr : In (merged p, Some t) joined).
    { apply Hj. exists t. cbn [fst snd]. auto. }
    destruct p as [m pos le num desc].
    cbn [merged positive_screening last_encounter numerator numerator_desc] in *.
    subst pos le. destruct num.
    + left. exists (m, Some t). split; [cbn [fst snd]; rewrite Hd; reflexivity|].
      apply filter_In. split; [exact Hr|]. cbn [fst snd isna negb].
      rewrite <- Hn. reflexivity.
    + right. exists (m, Some t). split; [cbn [fst snd]; rewrite Hd; reflexivity|].
      apply filter_In. split; [exact Hr|]. cbn [fst snd isna negb].
      rewrite <- Hn. reflexivity.
Qed.

(** the populace with the screenings of the year *)
Definition screened (db : Database) (populace : list Aged) : list Merged :=
  __add_screenings_to_populace db populace.

Lemma In_find_performance_met (db : Database) (populace : list Aged) (p : Performance) :
  In p (_find_performance_met db populace) <->
  In (merged p) (screened db populace) /\
  positive_screening p = lt_nan (Some 9) (m_screening_score (merged p)) /\
  if positive_screening p then
    exists t, In (patient_of (merged p), t) (__find_follow_ups (screened db populace)) /\
      last_encounter p = Some t /\
      numerator p = lt_nan (m_screening_date (merged p)) (Some t) /\
      numerator_desc p =
        if numerator p then Some "Positive screening with follow up"%string else None
  else
    last_encounter p = None /\ numerator p = true /\
    numerator_desc p = Some "Negative screening"%string.
Proof.
  unfold _find_performance_met. fold (screened db populace).
  rewrite in_app_iff.
  rewrite (@In_set_positive_numerators (screened db populace)
             (filter __determine_screenings_results (screened db populace)) p)
    by (intros m Hm; apply filter_In in Hm; tauto).
  unfold __set_negative_numerators. rewrite in_map_iff.
  unfold __determine_screenings_results. split.
  - intros [[t [Hm [Hf [Hpos [Hl [Hn Hd]]]]]] | [m [Hp Hm]]].
    + apply filter_In in Hm. destruct Hm as [Hm Hs]. rewrite Hpos.
      split; [exact Hm|]. split; [symmetry; exact Hs|]. exists t. auto.
    + apply filter_In in Hm. destruct Hm as [Hm Hs]. apply negb_true_iff in Hs.
      subst p. cbn [merged positive_screening last_encounter numerator numerator_desc].
      auto.
  - intros [Hm [Hpos Hrest]]. destruct (positive_screening p) eqn:Ep.
    + left. destruct Hrest as [t [Hf [Hl [Hn Hd]]]]. exists t.
      split; [apply filter_In; split; [exact Hm | symmetry; exact Hpos]|]. auto 6.
    + right. exists (merged p). destruct Hrest as [Hl [Hn Hd]]. split.
      * destruct p as [m pos le num desc].
        cbn [merged positive_screening last_encounter numerator numerator_desc] in *.
        subst pos le num desc. reflexivity.
      * apply filter_In. split; [exact Hm|]. rewrite <- Hpos. reflexivity.
Qed.

Lemma In_screened (db : Database) (populace : list Aged) (m : Merged) :
  In m (screened db populace) -> In (fst m) populace.
Proof.
  unfold screened, __add_screenings_to_populace. destruct m as [a ob]. intros H.
  apply (In_merge_left Z_pair_eqb Z_pair_eqb_eq) in H. tauto.
Qed.

(** X11: The numerator of CDF-CH, when the PHQ-A table has a row (on an empty
    answer of the query [.dt.year] raises).  A returned row is a row of the populace with
    a screening of its year, or with none; the screening is positive when
    its score is above 9.  A row that is not positive is in the numerator
    as a negative screening.  A positive row is in the numerator exactly
    when some row of the populace of the same patient has its visit after
    the date of the screening; nothing else is looked at as a follow-up. *)
Theorem CDF_CH_numerator_spec (db : Database) (populace : list Aged) (p : Performance) :
  phqa_screenings db <> [] ->
  In p (get_numerator db populace) ->
  In (fst (merged p)) populace /\
  positive_screening p = lt_nan (Some 9) (m_screening_score (merged p)) /\
  (numerator p = true <->
   positive_screening p = false \/
   exists sd a, m_screening_date (merged p) = Some sd /\ In a populace /\
                PatientId (encounter (row a)) = patient_of (merged p) /\
                sd < VisitDateTime (encounter (row a))) /\
  numerator_desc p =
    (if positive_screening p
     then if numerator p then Some "Positive screening with follow up"%string else None
     else Some "Negative screening"%string).
Proof.
  unfold get_numerator. intros _ H. apply In_find_performance_met in H.
  destruct H as [Hm [Hpos Hrest]].
  split; [apply (In_screened db populace); exact Hm|]. split; [exact Hpos|].
  destruct (positive_screening p) eqn:Ep.
  - destruct Hrest as [t [Hf [Hl [Hn Hd]]]]. split; [|exact Hd].
    apply In_find_follow_ups in Hf. destruct Hf as [[m' [Hm' [Hk Hv]]] Hmax].
    rewrite Hn. split.
    + intros Hlt. right. destruct (m_screening_date (merged p)) as [sd|]; [|discriminate Hlt].
      cbn [lt_nan] in Hlt. apply Z.ltb_lt in Hlt.
      exists sd, (fst m'). split; [reflexivity|].
      split; [apply (In_screened db populace); exact Hm'|].
      split; [exact Hk|]. unfold visit_of in Hv. rewrite Hv. exact Hlt.
    + intros [Hf | [sd [a [Hsd [Ha [Hk' Hlt]]]]]]; [discriminate Hf|].
      rewrite Hsd. cbn [lt_nan]. apply Z.ltb_lt.
      destruct (@merge_left_total _ _ _ Z_pair_eqb
                  (fun r => patient_measurement_year_id (row r))
                  pr_patient_measurement_year_id populace
                  (__prep_screenings_for_merge (__get_screenings db)) a Ha) as [ob Hob].
      pose proof (Hmax (a, ob) Hob Hk') as Hle. unfold visit_of in Hle.
      cbn [fst] in Hle. lia.
  - destruct Hrest as [Hl [Hn Hd]]. split; [|exact Hd]. rewrite Hn. tauto.
Qed.

(** X12: When the encounter table and the PHQ-A table have a row each, the
    cohort table of CDF-CH has a row for every member of the denominator and
    for no one else. *)
Theorem CDF_CH_cohort_ids_are_the_denominator_ids (db : Database) (k : PMY) :
  outpatient_encounters db <> [] -> phqa_screenings db <> [] ->
  (In k (map c_patient_measurement_year_id (final_cohort db)) <->
   In k (map (fun a => patient_measurement_year_id (row a)) (get_denominator db))).
Proof.
  intros _ _. unfold final_cohort, get_numerator, __trim_unnecessary_populace_data.
  set (populace := get_denominator db).
  rewrite !in_map_iff. split.
  - intros [c [Hk Hc]]. apply In_drop_duplicates in Hc. apply in_map_iff in Hc.
    destruct Hc as [p [Hc Hp]]. apply In_find_performance_met in Hp.
    destruct Hp as [Hm _]. apply In_screened in Hm.
    exists (fst (merged p)). split; [|exact Hm]. subst c k. reflexivity.
  - intros [a [Hk Ha]].
    destruct (@merge_left_total _ _ _ Z_pair_eqb
                (fun r => patient_measurement_year_id (row r))
                pr_patient_measurement_year_id populace
                (__prep_screenings_for_merge (__get_screenings db)) a Ha) as [ob Hob].
    fold (__add_screenings_to_populace db populace) in Hob.
    fold (screened db populace) in Hob.
    assert (Hp : exists p, In p (_find_performance_met db populace) /\ merged p = (a, ob)).
    { destruct (lt_nan (Some 9) (m_screening_score (a, ob))) eqn:Es.
      - destruct (find_follow_ups_total (screened db populace) (a, ob) Hob) as [t Ht].
        exists (mkPerformance (a, ob) true (Some t)
                  (lt_nan (m_screening_date (a, ob)) (Some t))
                  (if lt_nan (m_screening_date (a, ob)) (Some t)
                   then Some "Positive screening with follow up"%string else None)).
        split; [|reflexivity]. apply In_find_performance_met.
        cbn [merged positive_screening last_encounter numerator numerator_desc].
        split; [exact Hob|]. split; [symmetry; exact Es|]. exists t. auto.
      - exists (mkPerformance (a, ob) false None true (Some "Negative screening"%string)).
        split; [|reflexivity]. apply In_find_performance_met.
        cbn [merged positive_screening last_encounter numerator numerator_desc].
        split; [exact Hob|]. split; [symmetry; exact Es|]. auto. }
    destruct Hp as [p [Hp Hm]].
    destruct (@drop_duplicates_keeps_key CohortRow PMY Z_pair_eqb Z_pair_eqb_eq
                c_patient_measurement_year_id
                (map (fun p =>
                        let m := merged p in
                        mkCohortRow (m_patient_measurement_year_id m)
                                    (PatientId (encounter (row (fst m))))
                                    (EncounterId (encounter (row (fst m))))
                                    (option_map screening_encounter_id (snd m))
                                    (last_encounter p) (numerator p) (numerator_desc p))
                     (_find_performance_met db populace))
                (mkCohortRow (m_patient_measurement_year_id (merged p))
                             (PatientId (encounter (row (fst (merged p)))))
                             (EncounterId (encounter (row (fst (merged p)))))
                             (option_map screening_encounter_id (snd (merged p)))
                             (last_encounter p) (numerator p) (numerator_desc p)))
      as [c [Hc Hkc]].
    { apply in_map_iff. exists p. split; [reflexivity | exact Hp]. }
    exists c. split; [|exact Hc]. rewrite Hkc.
    cbn [c_patient_measurement_year_id]. rewrite Hm. exact Hk.
Qed.

(** a thirteen-year-old whose one visit of 2024 is the visit of a PHQ-A
    with the score 12 *)
Definition screened_at_the_visit_db : Database :=
  mkDatabase [mkEncounter 100002 9002 (datetime 2024 3 4 9 0) (datetime 2011 1 10 0 0)]
             [] []
             [mkScreening 100002 9002 (datetime 2024 3 4 9 0) (Some 12)].

Definition screened_at_the_visit : Performance :=
  mkPerformance
    (mkAged (mkRow (mkEncounter 100002 9002 (datetime 2024 3 4 9 0)
                                (datetime 2011 1 10 0 0))
                   (100002, 2024)) 13,
     Some (mkPrepared (100002, 2024) 9002 (datetime 2024 3 4 9 0) (Some 12)))
    true (Some (datetime 2024 3 4 9 0)) false None.

Lemma CDF_CH_numerator_witness :
  let p := screened_at_the_visit in
  let populace := get_denominator screened_at_the_visit_db in
  In (fst (merged p)) populace /\
  positive_screening p = lt_nan (Some 9) (m_screening_score (merged p)) /\
  (numerator p = true <->
   positive_screening p = false \/
   exists sd a, m_screening_date (merged p) = Some sd /\ In a populace /\
                PatientId (encounter (row a)) = patient_of (merged p) /\
                sd < VisitDateTime (encounter (row a))) /\
  numerator_desc p =
    (if positive_screening p
     then if numerator p then Some "Positive screening with follow up"%string else None
     else Some "Negative screening"%string).
Proof.
  apply (@CDF_CH_numerator_spec screened_at_the_visit_db
           (get_denominator screened_at_the_visit_db) screened_at_the_visit).
  - vm_compute. discriminate.
  - vm_compute. left. reflexivity.
Defined.

Lemma CDF_CH_cohort_ids_witness :
  In (100002, 2024)
     (map c_patient_measurement_year_id (final_cohort screened_at_the_visit_db)) <->
  In (100002, 2024)
     (map (fun a => patient_measurement_year_id (row a))
          (get_denominator screened_at_the_visit_db)).
Proof.
  apply (@CDF_CH_cohort_ids_are_the_denominator_ids screened_at_the_visit_db).
  - vm_compute. discriminate.
  - vm_compute. discriminate.
Defined.

(** A positive screening at the one visit of the year has no later visit
    of the populace after it and stays out of the numerator. *)
Example positive_screening_at_the_visit :
  final_cohort screened_at_the_visit_db =
  [mkCohortRow (100002, 2024) 100002 9002 (Some 9002) (Some (datetime 2024 3 4 9 0))
               false None].
Proof. vm_compute. reflexivity. Qed.

(** A member without a screening beside a member with one: the first is
    returned as a negative screening. *)
Example unscreened_beside_a_screened_member :
  final_cohort
    (mkDatabase [mkEncounter 100001 9001 (datetime 2024 3 4 9 0) (datetime 2011 1 10 0 0);
                 mkEncounter 100002 9002 (datetime 2024 3 4 9 0) (datetime 2011 1 10 0 0)]
                [] []
                [mkScreening 100002 9002 (datetime 2024 3 4 9 0) (Some 4)]) =
  [mkCohortRow (100001, 2024) 100001 9001 None None true
               (Some "Negative screening"%string);
   mkCohortRow (100002, 2024) 100002 9002 (Some 9002) None true
               (Some "Negative screening"%string)].
Proof. vm_compute. reflexivity. Qed.

End CdfChNumerator.

(** ** ASC: the exclusions of the first sub-measure *)

Section AscExclusions.
Import ASC ASC._Sub_1.

Lemma In_get_two_or_more_visits (db : Database) (r : Row) :
  In r (__get_two_or_more_visits db) <->
  In (encounter r) (all_encounters db) /\
  patient_measurement_year_id r =
    (PatientId (encounter r), measurement_year (encounter r)).
Proof.
  unfold __get_two_or_more_visits, __number_of_visits_filter, __get_all_encounters.
  rewrite multiple_visits_are_all_ids, filter_In.
  unfold __create_patient_measurement_year_id. rewrite in_map_iff. split.
  - intros [[e [Heq He]] _]. subst r. split; [exact He | reflexivity].
  - intros [He Hk].
    assert (Hr : In r (map (fun e => mkRow e (PatientId e, measurement_year e))
                           (all_encounters db))).
    { apply in_map_iff. exists (encounter r). split; [|exact He].
      destruct r as [e k]. cbn [encounter patient_measurement_year_id] in *.
      rewrite Hk. reflexivity. }
    split.
    + exists (encounter r). split; [|exact He].
      destruct r as [e k]. cbn [encounter patient_measurement_year_id] in *.
      rewrite Hk. reflexivity.
    + apply (isin_In Z_pair_eqb Z_pair_eqb_eq).
      apply (In_group_keys Z_pair_eqb Z_pair_eqb_eq). exists r. split; [exact Hr | reflexivity].
Qed.

(** the ids that [__compare_dementia_year_to_populace] returns, on a frame
    whose ids are made of the patient and the year of the row *)
Lemma In_compare_dementia_year_to_populace (dementia : list Dementia)
    (populace : list Row) (k : PMY) :
  (forall r, In r populace ->
     patient_measurement_year_id r =
       (PatientId (encounter r), measurement_year (encounter r))) ->
  (In k (__compare_dementia_year_to_populace dementia populace) <->
   (exists r, In r populace /\ patient_measurement_year_id r = k) /\
   exists d y, In d dementia /\ dm_PatientId d = fst k /\
               exclusion_year d = Some y /\ y <= snd k).
Proof.
  intros Hid. unfold __compare_dementia_year_to_populace.
  rewrite (In_unique_from Z_pair_eqb Z_pair_eqb_eq), in_map_iff. split.
  - intros [[[r ob] [Hk Hm]] _]. cbn [fst] in Hk. apply filter_In in Hm.
    destruct Hm as [Hm Hex]. apply (In_merge_left Z.eqb Z.eqb_eq) in Hm.
    destruct Hm as [Hr Hob]. apply In_drop_duplicates in Hr.
    split; [exists r; tauto|].
    unfold to_exclude in Hex. cbn [fst snd] in Hex.
    destruct ob as [d|]; [|discriminate Hex]. destruct Hob as [Hd Hp].
    destruct (exclusion_year d) as [y|] eqn:Ey; [|discriminate Hex].
    cbn [le_nan] in Hex. apply Z.leb_le in Hex.
    exists d, y. rewrite <- Hk, (Hid r Hr). cbn [fst snd]. auto.
  - intros [[r [Hr Hk]] [d [y [Hd [Hp [Ey Hle]]]]]]. split; [|intros []].
    destruct (@drop_duplicates_keeps_key Row PMY Z_pair_eqb Z_pair_eqb_eq
                patient_measurement_year_id populace r Hr) as [r0 [Hr0 Hk0]].
    assert (Hr0' : In r0 populace) by (apply In_drop_duplicates in Hr0; exact Hr0).
    assert (Hkey : (PatientId (encounter r0), measurement_year (encounter r0)) = k).
    { rewrite <- (Hid r0 Hr0'), Hk0. exact Hk. }
    exists (r0, Some d). split; [cbn [fst]; rewrite Hk0; exact Hk|].
    apply filter_In. split.
    + apply (In_merge_left Z.eqb Z.eqb_eq). split; [exact Hr0|].
      split; [exact Hd|]. rewrite Hp, <- Hkey. reflexivity.
    + unfold to_exclude. cbn [fst snd]. rewrite Ey. cbn [le_nan].
      apply Z.leb_le. rewrite <- Hkey in Hle. exact Hle.
Qed.

Lemma ASC_remove_exclusions_rows (db : Database) (dementia : list Dementia) (r : Row) :
  In r (_remove_exclusions dementia (__get_two_or_more_visits db)) <->
  In r (__get_two_or_more_visits db) /\
  (exists n, Age (encounter r) = Some n /\ 18 <= n) /\
  forall d y, In d dementia -> dm_PatientId d = PatientId (encounter r) ->
              exclusion_year d = Some y -> measurement_year (encounter r) < y.
Proof.
  unfold _remove_exclusions, __remove_dementia_exclusions, __filter_dementia_exclusions.
  rewrite filter_In, negb_true_iff, (isin_not_In Z_pair_eqb Z_pair_eqb_eq).
  assert (Hage : forall x, In x (__remove_age_exclusions (__get_two_or_more_visits db)) <->
                   In x (__get_two_or_more_visits db) /\
                   exists n, Age (encounter x) = Some n /\ 18 <= n).
  { intros x. unfold __remove_age_exclusions. rewrite filter_In. split.
    - intros [Hx Ha]. split; [exact Hx|].
      destruct (Age (encounter x)) as [n|]; [|discriminate Ha].
      exists n. split; [reflexivity | apply Z.leb_le; exact Ha].
    - intros [Hx [n [Ha Hn]]]. split; [exact Hx|]. rewrite Ha. apply Z.leb_le. exact Hn. }
  assert (Hid : forall x, In x (__remove_age_exclusions (__get_two_or_more_visits db)) ->
                  patient_measurement_year_id x =
                    (PatientId (encounter x), measurement_year (encounter x))).
  { intros x Hx. apply Hage in Hx. destruct Hx as [Hx _].
    apply In_get_two_or_more_visits in Hx. tauto. }
  rewrite (@In_compare_dementia_year_to_populace dementia _ _ Hid), Hage. split.
  - intros [[Hr Ha] Hn]. split; [exact Hr|]. split; [exact Ha|].
    intros d y Hd Hp Ey.
    destruct (Z_lt_le_dec (measurement_year (encounter r)) y) as [Hlt | Hle];
      [exact Hlt|]. exfalso. apply Hn. split.
    + exists r. split; [apply Hage; tauto | reflexivity].
    + exists d, y. rewrite (Hid r (proj2 (Hage r) (conj Hr Ha))). cbn [fst snd]. auto.
  - intros [Hr [Ha Hall]]. split; [tauto|].
    intros [_ [d [y [Hd [Hp [Ey Hle]]]]]].
    rewrite (Hid r (proj2 (Hage r) (conj Hr Ha))) in Hp, Hle. cbn [fst snd] in Hp, Hle.
    pose proof (Hall d y Hd Hp Ey). lia.
Qed.

(** X8: The denominator of the first sub-measure of ASC, when [_get_populace]
    returns: the encounters of the table, each with the id of its patient
    and year, that have an age of 18 or more and whose patient has no
    diagnosis of dementia in the year of the encounter or in a year before
    it.  A diagnosis without a year excludes no one, and the number of
    visits of the year plays no part. *)
Theorem ASC_denominator_spec (db : Database) (dementia : list Dementia)
    (populace : list Row) (r : Row) :
  _get_populace db = Some populace ->
  (In r (_remove_exclusions dementia populace) <->
   In (encounter r) (all_encounters db) /\
   patient_measurement_year_id r =
     (PatientId (encounter r), measurement_year (encounter r)) /\
   (exists n, Age (encounter r) = Some n /\ 18 <= n) /\
   forall d y, In d dementia -> dm_PatientId d = PatientId (encounter r) ->
               exclusion_year d = Some y -> measurement_year (encounter r) < y).
Proof.
  unfold _get_populace, __get_preventive_visits, __add_preventive_visits_to_populace.
  destruct (__get_preventive_visits_from_db db); [|discriminate].
  intros H. injection H as H. subst populace.
  rewrite ASC_remove_exclusions_rows, In_get_two_or_more_visits. tauto.
Qed.

(** two visits of a patient of 70 in 2024 *)
Definition two_visits_db : Database :=
  mkDatabase [mkEncounter 100001 (Some 70) 7001 (datetime 2024 3 4 9 0) 2024;
              mkEncounter 100001 (Some 70) 7002 (datetime 2024 6 4 9 0) 2024] [].

Lemma ASC_denominator_witness :
  let r := mkRow (mkEncounter 100001 (Some 70) 7001 (datetime 2024 3 4 9 0) 2024)
                 (100001, 2024) in
  let dementia := [mkDementia 100001 (Some 2025); mkDementia 100001 None] in
  In r (_remove_exclusions dementia (fillna [] (_get_populace two_visits_db))) <->
  In (encounter r) (all_encounters two_visits_db) /\
  patient_measurement_year_id r =
    (PatientId (encounter r), measurement_year (encounter r)) /\
  (exists n, Age (encounter r) = Some n /\ 18 <= n) /\
  forall d y, In d dementia -> dm_PatientId d = PatientId (encounter r) ->
              exclusion_year d = Some y -> measurement_year (encounter r) < y.
Proof.
  apply (@ASC_denominator_spec two_visits_db
           [mkDementia 100001 (Some 2025); mkDementia 100001 None]
           (fillna [] (_get_populace two_visits_db))).
  vm_compute. reflexivity.
Defined.

Example dementia_of_a_later_year_excludes_no_one :
  map (fun r => EncounterID (encounter r))
      (_remove_exclusions [mkDementia 100001 (Some 2025); mkDementia 100001 None]
                          (fillna [] (_get_populace two_visits_db))) = [7001; 7002] /\
  _remove_exclusions [mkDementia 100001 (Some 2024)]
                     (fillna [] (_get_populace two_visits_db)) = [].
Proof. split; vm_compute; reflexivity. Qed.

End AscExclusions.

(** ** SDOH: the denominator and the numerator *)

Section SdohNumerator.
Import SDOH SDOH._Sub_1.

Lemma first_encounter_leb_spec (a b : Aged) :
  first_encounter_leb a b = true <->
  let ka := patient_measurement_year_id (row a) in
  let kb := patient_measurement_year_id (row b) in
  fst ka < fst kb \/
  (fst ka = fst kb /\
   (snd ka < snd kb \/
    (snd ka = snd kb /\
     VisitDateTime (encounter (row a)) <= VisitDateTime (encounter (row b))))).
Proof.
  unfold first_encounter_leb, lex_leb. cbn zeta. cbn [fst snd].
  rewrite !orb_true_iff, !andb_true_iff, !orb_true_iff, !andb_true_iff,
    !Z.ltb_lt, !Z.eqb_eq, Z.leb_le. tauto.
Qed.

(** the rows of the denominator: one per patient and year, the earliest
    encounter at an age of 18 or more *)
Lemma In_get_denominator_SDOH (db : Database) (populace : list Aged) :
  get_denominator db = Some populace ->
  NoDup (map (fun a => patient_measurement_year_id (row a)) populace) /\
  forall a, In a populace ->
    In (encounter (row a)) (encounters db) /\
    patient_measurement_year_id (row a) =
      (PatientId (encounter (row a)), year (VisitDateTime (encounter (row a)))) /\
    age a = floordiv_365_25 (timedelta_days (VisitDateTime (encounter (row a)))
                                            (DOB (encounter (row a)))) /\
    18 <= age a.
Proof.
  unfold get_denominator, _get_populace, __initialize_populace.
  destruct (encounters db) as [|e0 es] eqn:Ee; [discriminate|]. rewrite <- Ee.
  cbn [bind ret Monad_option]. intros H. injection H as H. subst populace.
  unfold _remove_exclusions, __remove_age_exclusion, __get_first_encounter.
  split; [apply (drop_duplicates_NoDup Z_pair_eqb Z_pair_eqb_eq)|].
  intros a Ha. apply In_drop_duplicates in Ha. apply In_sort_values in Ha.
  unfold __filter_age in Ha. apply filter_In in Ha. destruct Ha as [Ha Hage].
  unfold __calculate_age in Ha. apply in_map_iff in Ha. destruct Ha as [r [Heq Hr]].
  apply in_map_iff in Hr. destruct Hr as [e [Hr He]]. subst a r.
  cbn [row age encounter patient_measurement_year_id] in *.
  split; [exact He|]. split; [reflexivity|]. split; [reflexivity|].
  apply Z.leb_le. exact Hage.
Qed.

Definition screened_of (s : Screening) : Screened :=
  mkScreened s (__create_measurement_year_id (sc_PatientId s) (screening_date s)).

(** the latest screening of an id *)
Lemma In_get_last_screening (screenings : list Screening) (x : Screened) :
  In x (__get_last_screening (map screened_of screenings)) ->
  exists s, In s screenings /\ x = screened_of s /\
    forall s', In s' screenings ->
               sc_PatientId s' = sc_PatientId s ->
               year (screening_date s') = year (screening_date s) ->
               screening_date s' <= screening_date s.
Proof.
  unfold __get_last_screening. intros Hx.
  set (leb := fun a b : Screened =>
                screening_date (screening b) <=? screening_date (screening a)) in *.
  pose proof (In_drop_duplicates _ _ _ _ Hx) as Hx'.
  apply In_sort_values in Hx'. apply in_map_iff in Hx'. destruct Hx' as [s [Hs Hin]].
  exists s. split; [exact Hin|]. split; [symmetry; exact Hs|].
  intros s' Hs' Hp Hy.
  assert (Hle : leb x (screened_of s') = true).
  { apply (@drop_duplicates_from_first Screened PMY Z_pair_eqb Z_pair_eqb_eq
             sc_patient_measurement_year_id (fun a b => leb a b = true) []
             (sort_values leb (map screened_of screenings))).
    - intros y. unfold leb. apply Z.leb_refl.
    - apply sort_values_sorted.
      + intros y z. unfold leb. rewrite !Z.leb_le. lia.
      + intros y z w. unfold leb. rewrite !Z.leb_le. lia.
    - exact Hx.
    - apply In_sort_values. apply in_map. exact Hs'.
    - subst x. unfold screened_of, __create_measurement_year_id.
      cbn [sc_patient_measurement_year_id]. rewrite Hp, Hy. reflexivity. }
  unfold leb in Hle. apply Z.leb_le in Hle. subst x. exact Hle.
Qed.

Lemma get_last_screening_total (screenings : list Screening) (s : Screening) :
  In s screenings ->
  exists x, In x (__get_last_screening (map screened_of screenings)) /\
            sc_patient_measurement_year_id x =
              (sc_PatientId s, year (screening_date s)).
Proof.
  intros Hs. unfold __get_last_screening.
  destruct (@drop_duplicates_keeps_key Screened PMY Z_pair_eqb Z_pair_eqb_eq
              sc_patient_measurement_year_id
              (sort_values (fun a b => screening_date (screening b) <=?
                                       screening_date (screening a))
                           (map screened_of screenings))
              (screened_of s)) as [x [Hx Hk]].
  { apply In_sort_values. apply in_map. exact Hs. }
  exists x. split; [exact Hx | exact Hk].
Qed.

Lemma In_set_numerator (populace : list Merged) (x : Merged * bool) :
  In x (__set_numerator populace) <->
  In (fst x) populace /\
  ((age (fst (fst x)) = 18 /\
    snd x = le_nan (Some (eighteenth_birthday (fst (fst x)))) (m_screening_date (fst x))) \/
   (18 < age (fst (fst x)) /\
    snd x = match m_screening_date (fst x) with Some _ => true | None => false end)).
Proof.
  unfold __set_numerator. rewrite in_app_iff, !in_map_iff. split.
  - intros [[m [Heq Hm]] | [m [Heq Hm]]]; apply filter_In in Hm; destruct Hm as [Hm Ha];
      subst x; cbn [fst snd]; (split; [exact Hm|]).
    + left. apply Z.eqb_eq in Ha. auto.
    + right. apply Z.ltb_lt in Ha. auto.
  - destruct x as [m b]. cbn [fst snd]. intros [Hm [[Ha Hb] | [Ha Hb]]]; subst b.
    + left. exists m. split; [reflexivity|]. apply filter_In.
      split; [exact Hm | apply Z.eqb_eq; exact Ha].
    + right. exists m. split; [reflexivity|]. apply filter_In.
      split; [exact Hm | apply Z.ltb_lt; exact Ha].
Qed.

(** the screenings that the query of [__get_screenings] answers *)
Definition asked (db : Database) (populace : list Aged) : list Screening :=
  filter (fun s => isin Z.eqb (sc_PatientId s)
                        (map (fun a => PatientId (encounter (row a))) populace))
         (social_needs_screenings db).

Lemma In_asked (db : Database) (populace : list Aged) (s : Screening) (a : Aged) :
  In a populace -> sc_PatientId s = PatientId (encounter (row a)) ->
  (In s (asked db populace) <-> In s (social_needs_screenings db)).
Proof.
  intros Ha Hp. unfold asked. rewrite filter_In. split; [tauto|].
  intros Hs. split; [exact Hs|]. apply (isin_In Z.eqb Z.eqb_eq). rewrite Hp.
  apply (in_map (fun a => PatientId (encounter (row a)))). exact Ha.
Qed.

(** the populace with the latest screening of the year of each row *)
Definition with_last_screening (db : Database) (populace : list Aged) : list Merged :=
  __merge_screenings_into_populace
    (__get_last_screening (map screened_of (asked db populace))) populace.

Lemma get_numerator_Some (db : Database) (populace : list Aged)
    (rows : list (Merged * bool)) :
  get_numerator db populace = Some rows ->
  rows = __set_numerator (with_last_screening db populace).
Proof.
  unfold get_numerator, _find_performance_met, __get_screenings, with_last_screening.
  fold (asked db populace).
  destruct (map (fun a => PatientId (encounter (row a))) populace) as [|i1 [|i2 rest]];
    try discriminate.
  cbn [bind ret Monad_option].
  destruct (asked db populace) as [|s0 ss]; [discriminate|].
  intros H. injection H as H. symmetry. exact H.
Qed.

Lemma screening_of_a_row (db : Database) (populace : list Aged) (a : Aged)
    (ob : option Screened) (t : Timestamp) :
  get_denominator db = Some populace ->
  In (a, ob) (with_last_screening db populace) ->
  ((exists sd, m_screening_date (a, ob) = Some sd /\ t <= sd) <->
   exists s, In s (social_needs_screenings db) /\
     sc_PatientId s = PatientId (encounter (row a)) /\
     year (screening_date s) = year (VisitDateTime (encounter (row a))) /\
     t <= screening_date s).
Proof.
  intros Hd Hm. destruct (In_get_denominator_SDOH db Hd) as [_ Hrows].
  unfold with_last_screening, __merge_screenings_into_populace in Hm.
  apply (In_merge_left Z_pair_eqb Z_pair_eqb_eq) in Hm.
  destruct Hm as [Ha Hob]. destruct (Hrows a Ha) as [_ [Hid _]]. split.
  - intros [sd [Hsd Ht]]. destruct ob as [x|]; [|discriminate Hsd].
    destruct Hob as [Hx Hk]. apply In_get_last_screening in Hx.
    destruct Hx as [s [Hs [Heq _]]]. subst x.
    assert (Hkey : (sc_PatientId s, year (screening_date s)) =
                   (PatientId (encounter (row a)), year (VisitDateTime (encounter (row a))))).
    { rewrite <- Hid. symmetry. exact Hk. }
    injection Hkey as Hp Hy.
    assert (Hsd' : sd = screening_date s).
    { unfold m_screening_date in Hsd. cbn [snd option_map] in Hsd.
      injection Hsd as Hsd. symmetry. exact Hsd. }
    subst sd.
    exists s. split; [apply (@In_asked db populace s a Ha Hp); exact Hs|].
    split; [exact Hp|]. split; [exact Hy | exact Ht].
  - intros [s [Hs [Hp [Hy Ht]]]].
    apply (@In_asked db populace s a Ha Hp) in Hs.
    destruct ob as [x|].
    + destruct Hob as [Hx Hk]. apply In_get_last_screening in Hx.
      destruct Hx as [s0 [Hs0 [Heq Hlast]]]. subst x.
      assert (Hkey : (sc_PatientId s0, year (screening_date s0)) =
                     (PatientId (encounter (row a)),
                      year (VisitDateTime (encounter (row a))))).
      { rewrite <- Hid. symmetry. exact Hk. }
      injection Hkey as Hp0 Hy0.
      exists (screening_date s0). split; [reflexivity|].
      assert (screening_date s <= screening_date s0).
      { apply Hlast; [exact Hs | congruence | congruence]. }
      lia.
    + exfalso. destruct (get_last_screening_total _ s Hs) as [x [Hx Hk]].
      apply (Hob x Hx). rewrite Hk, Hid, Hp, Hy. reflexivity.
Qed.

Lemma le_nan_Some (x y : Z) : le_nan (Some x) (Some y) = true <-> x <= y.
Proof. apply Z.leb_le. Qed.

(** X20: The numerator of SDOH, when it is returned.  Every row of the
    denominator comes back with its numerator.  A row of a patient older
    than 18 at the encounter is in the numerator exactly when the patient
    has a screening in the year of the row; a row of a patient of 18 is in
    it exactly when one of these screenings is not before the eighteenth
    birthday. *)
Theorem SDOH_numerator_spec (db : Database) (populace : list Aged)
    (rows : list (Merged * bool)) :
  get_denominator db = Some populace ->
  get_numerator db populace = Some rows ->
  (forall a, In a populace -> exists x, In x rows /\ fst (fst x) = a) /\
  (forall x, In x rows ->
     In (fst (fst x)) populace /\
     (snd x = true <->
      exists s, In s (social_needs_screenings db) /\
        sc_PatientId s = PatientId (encounter (row (fst (fst x)))) /\
        year (screening_date s) = year (VisitDateTime (encounter (row (fst (fst x))))) /\
        (age (fst (fst x)) = 18 -> eighteenth_birthday (fst (fst x)) <= screening_date s))).
Proof.
  intros Hd Hn. destruct (In_get_denominator_SDOH db Hd) as [_ Hrows].
  apply get_numerator_Some in Hn. subst rows. split.
  - intros a Ha.
    destruct (@merge_left_total _ _ _ Z_pair_eqb
                (fun a => patient_measurement_year_id (row a))
                sc_patient_measurement_year_id populace
                (__get_last_screening (map screened_of (asked db populace))) a Ha)
      as [ob Hob].
    fold (__merge_screenings_into_populace
            (__get_last_screening (map screened_of (asked db populace))) populace) in Hob.
    fold (with_last_screening db populace) in Hob.
    destruct (Hrows a Ha) as [_ [_ [_ Hage]]].
    destruct (Z.eq_dec (age a) 18) as [He | Hne].
    + exists ((a, ob), le_nan (Some (eighteenth_birthday a)) (m_screening_date (a, ob))).
      split; [|reflexivity]. apply In_set_numerator.
      split; [exact Hob|]. left. split; [exact He | reflexivity].
    + exists ((a, ob), match m_screening_date (a, ob) with
                       | Some _ => true | None => false end).
      split; [|reflexivity]. apply In_set_numerator.
      split; [exact Hob|]. right. split; [cbn [fst]; lia | reflexivity].
  - intros [[a ob] b] Hx. apply In_set_numerator in Hx.
    change (fst (fst (a, ob, b))) with a in *. change (snd (a, ob, b)) with b in *.
    change (fst (a, ob, b)) with (a, ob) in *.
    destruct Hx as [Hm Hb].
    pose proof (fun t => @screening_of_a_row db populace a ob t Hd Hm) as Hd'.
    assert (Ha : In a populace).
    { unfold with_last_screening, __merge_screenings_into_populace in Hm.
      apply (In_merge_left Z_pair_eqb Z_pair_eqb_eq) in Hm. tauto. }
    split; [exact Ha|].
    destruct Hb as [[Hage Hb] | [Hage Hb]]; subst b.
    + split.
      * intros Hb. destruct (m_screening_date (a, ob)) as [sd|] eqn:Esd;
          [|discriminate Hb]. apply le_nan_Some in Hb.
        destruct (proj1 (Hd' (eighteenth_birthday a))) as [s [Hs [Hp [Hy Ht]]]].
        { exists sd. split; [reflexivity | exact Hb]. }
        exists s. split; [exact Hs|]. split; [exact Hp|]. split; [exact Hy|].
        intros _. exact Ht.
      * intros [s [Hs [Hp [Hy Ht]]]].
        destruct (proj2 (Hd' (eighteenth_birthday a))) as [sd [Esd Hle]].
        { exists s. split; [exact Hs|]. split; [exact Hp|]. split; [exact Hy|].
          exact (Ht Hage). }
        rewrite Esd. apply le_nan_Some. exact Hle.
    + split.
      * intros Hb. destruct (m_screening_date (a, ob)) as [sd|] eqn:Esd;
          [|discriminate Hb].
        destruct (proj1 (Hd' sd)) as [s [Hs [Hp [Hy Ht]]]].
        { exists sd. split; [reflexivity | lia]. }
        exists s. split; [exact Hs|]. split; [exact Hp|]. split; [exact Hy|].
        intros H18. rewrite H18 in Hage. lia.
      * intros [s [Hs [Hp [Hy _]]]].
        destruct (proj2 (Hd' (screening_date s))) as [sd [Esd _]].
        { exists s. split; [exact Hs|]. split; [exact Hp|]. split; [exact Hy | lia]. }
        rewrite Esd. reflexivity.
Qed.

(** two patients, one of 18 and one of 40 at the visit of 2024; the first
    was screened before the eighteenth birthday *)
Definition two_adults_db : Database :=
  mkDatabase [mkEncounter 100001 9001 (datetime 2024 9 2 9 0) (datetime 2006 6 1 0 0);
              mkEncounter 100002 9002 (datetime 2024 3 4 9 0) (datetime 1984 1 10 0 0)]
             [mkScreening 100001 9101 (datetime 2024 5 6 9 0);
              mkScreening 100002 9102 (datetime 2024 3 4 9 0)].

Lemma SDOH_numerator_witness :
  let db := two_adults_db in
  let populace := fillna [] (get_denominator db) in
  let rows := fillna [] (get_numerator db populace) in
  (forall a, In a populace -> exists x, In x rows /\ fst (fst x) = a) /\
  (forall x, In x rows ->
     In (fst (fst x)) populace /\
     (snd x = true <->
      exists s, In s (social_needs_screenings db) /\
        sc_PatientId s = PatientId (encounter (row (fst (fst x)))) /\
        year (screening_date s) = year (VisitDateTime (encounter (row (fst (fst x))))) /\
        (age (fst (fst x)) = 18 -> eighteenth_birthday (fst (fst x)) <= screening_date s))).
Proof.
  apply (@SDOH_numerator_spec two_adults_db
           (fillna [] (get_denominator two_adults_db))
           (fillna [] (get_numerator two_adults_db
                         (fillna [] (get_denominator two_adults_db))))).
  - vm_compute. reflexivity.
  - vm_compute. reflexivity.
Defined.

Example SDOH_cohort_of_two_adults :
  final_cohort two_adults_db =
  Some [mkCohortRow (100001, 2024) 100001 9001 false (Some 9101)
                    (Some (datetime 2024 5 6 9 0));
        mkCohortRow (100002, 2024) 100002 9002 true (Some 9102)
                    (Some (datetime 2024 3 4 9 0))].
Proof. vm_compute. reflexivity. Qed.

End SdohNumerator.
